(** * Infinite Wiki: the tab orchestrator of [App.tsx]

    A shallow embedding of the state kept by the [App] component (tabs,
    active tab, result cache, the refs shared by its effects), of its event
    handlers, of the two effects (diagram generation, main data fetching) and
    of the asynchronous generations they start, followed by the properties
    proved about them.  Around the component it embeds what it calls and
    what calls it: the streaming functions of [geminiService.ts] as the
    signals they hand to a generation, the file extractors, the submit
    handler of [SearchBar] and the parts and words [ContentDisplay]
    renders.

    The embedding follows the version of [App.tsx] that supports output
    languages (a [language] field in every tab, page translation, the
    language in the cache fingerprint).

    Conventions.
    - A JavaScript string is a [string]; its characters stand for code
      units below 256.  [toLowerCase], [trim], [\s] and [.] are written out
      for that range.
    - A value that may be [null] is an [option]; [content] is an [option]
      too because an out-of-range page read stores [undefined] in it.
    - Clock readings ([performance.now()]) are integers supplied by the
      environment, and so are the identifiers drawn by [generateId].
    - An update object passed to [updateActiveTab] is the list of its field
      assignments; [spread] applies them in order, as [{...tab, ...updates}]
      does. *)

From Stdlib Require Import ZArith Ascii String List Bool Lia.
From stdpp Require Import gmap strings list fin_maps pretty.

Local Open Scope Z_scope.
Local Open Scope string_scope.

(** ** JavaScript strings *)

Module Js.

(** [\s]: tab, line feed, vertical tab, form feed, carriage return, space
    and no-break space. *)
Definition isWhiteSpace (c : ascii) : bool :=
  let n := N_of_ascii c in
  ((9 <=? n) && (n <=? 13) || (n =? 32) || (n =? 160))%N.

(** The characters [.] refuses. *)
Definition isLineTerminator (c : ascii) : bool :=
  let n := N_of_ascii c in ((n =? 10) || (n =? 13))%N.

Definition lowerChar (c : ascii) : ascii :=
  let n := N_of_ascii c in
  if ((65 <=? n) && (n <=? 90))%N then ascii_of_N (n + 32)
  else if ((192 <=? n) && (n <=? 222) && negb (n =? 215))%N
       then ascii_of_N (n + 32)
       else c.

Fixpoint toLowerCase (s : string) : string :=
  match s with
  | EmptyString => EmptyString
  | String c r => String (lowerChar c) (toLowerCase r)
  end.

Fixpoint trimStart (s : string) : string :=
  match s with
  | EmptyString => EmptyString
  | String c r => if isWhiteSpace c then trimStart r else s
  end.

Fixpoint trimEnd (s : string) : string :=
  match s with
  | EmptyString => EmptyString
  | String c r =>
      match trimEnd r with
      | EmptyString => if isWhiteSpace c then EmptyString
                       else String c EmptyString
      | r' => String c r'
      end
  end.

Definition trim (s : string) : string := trimEnd (trimStart s).

Fixpoint startsWith (p s : string) : bool :=
  match p, s with
  | EmptyString, _ => true
  | String a p', String b s' => Ascii.eqb a b && startsWith p' s'
  | String _ _, EmptyString => false
  end.

(** Truthiness of a string and of a nullable string. *)
Definition nonEmpty (s : string) : bool :=
  match s with EmptyString => false | String _ _ => true end.

Definition truthy (o : option string) : bool :=
  match o with Some s => nonEmpty s | None => false end.

(** The own-property names every object literal inherits from
    [Object.prototype]: reading one of them from [{}] gives a function or
    an object, which is truthy. *)
Definition objectPrototypeKeys : list string :=
  [ "constructor"; "__proto__"; "hasOwnProperty"; "isPrototypeOf";
    "propertyIsEnumerable"; "toLocaleString"; "toString"; "valueOf";
    "__defineGetter__"; "__defineSetter__"; "__lookupGetter__";
    "__lookupSetter__" ].

(** [arr[i]] on an array of strings: [undefined] out of range. *)
Definition index (l : list string) (i : Z) : option string :=
  if (i <? 0)%Z then None else l !! Z.to_nat i.

End Js.

(** ** Regular expressions

    The patterns of [App.tsx] are written as regular expressions over
    character classes and decided with Brzozowski derivatives. *)

Module Regex.

Inductive re : Type :=
| Fail : re
| Eps : re
| Class (p : ascii -> bool) : re
| Cat (r1 r2 : re) : re
| Alt (r1 r2 : re) : re
| Star (r : re) : re.

Definition Opt (r : re) : re := Alt r Eps.
Definition Plus (r : re) : re := Cat r (Star r).

Fixpoint nullable (r : re) : bool :=
  match r with
  | Fail => false
  | Eps => true
  | Class _ => false
  | Cat r1 r2 => nullable r1 && nullable r2
  | Alt r1 r2 => nullable r1 || nullable r2
  | Star _ => true
  end.

Fixpoint deriv (c : ascii) (r : re) : re :=
  match r with
  | Fail => Fail
  | Eps => Fail
  | Class p => if p c then Eps else Fail
  | Cat r1 r2 =>
      if nullable r1 then Alt (Cat (deriv c r1) r2) (deriv c r2)
      else Cat (deriv c r1) r2
  | Alt r1 r2 => Alt (deriv c r1) (deriv c r2)
  | Star r1 => Cat (deriv c r1) (Star r1)
  end.

(** [/^r$/.test(s)] *)
Fixpoint matches (r : re) (s : string) : bool :=
  match s with
  | EmptyString => nullable r
  | String c s' => matches (deriv c r) s'
  end.

Definition anyChar : re := Class (fun _ => true).

(** [/^r/.test(s)]: some prefix of [s] matches [r]. *)
Definition matchesPrefix (r : re) (s : string) : bool :=
  matches (Cat r (Star anyChar)) s.

(** A literal character under the [i] flag. *)
Definition chI (a : ascii) : re :=
  Class (fun c => Ascii.eqb (Js.lowerChar c) (Js.lowerChar a)).

(** A literal string under the [i] flag. *)
Fixpoint litI (s : string) : re :=
  match s with
  | EmptyString => Eps
  | String a r => Cat (chI a) (litI r)
  end.

(** [.] *)
Definition dot : re := Class (fun c => negb (Js.isLineTerminator c)).

(** [[^\s]] *)
Definition notSpace : re := Class (fun c => negb (Js.isWhiteSpace c)).

End Regex.

(** [/^(https?:\/\/)?(www\.)?(youtube\.com|youtu\.be)\/.+$/i] *)
Definition youTubeRe : Regex.re :=
  Regex.Cat
    (Regex.Opt (Regex.Cat (Regex.litI "http")
                  (Regex.Cat (Regex.Opt (Regex.chI "s"%char)) (Regex.litI "://"))))
    (Regex.Cat
       (Regex.Opt (Regex.litI "www."))
       (Regex.Cat
          (Regex.Alt (Regex.litI "youtube.com") (Regex.litI "youtu.be"))
          (Regex.Cat (Regex.chI "/"%char) (Regex.Plus Regex.dot)))).

(** [/^(https?:\/\/[^\s]+\.[^\s]+)/i] *)
Definition urlRe : Regex.re :=
  Regex.Cat (Regex.litI "http")
    (Regex.Cat (Regex.Opt (Regex.chI "s"%char))
       (Regex.Cat (Regex.litI "://")
          (Regex.Cat (Regex.Plus Regex.notSpace)
             (Regex.Cat (Regex.chI "."%char) (Regex.Plus Regex.notSpace))))).

Definition isYouTubeUrlRe (s : string) : bool := Regex.matches youTubeRe s.
Definition isUrlRe (s : string) : bool := Regex.matchesPrefix urlRe s.

(** ** The data model *)

(** A grounding source is an untyped payload ([any]); it is kept as the text
    of its serialisation. *)
Definition Source : Type := string.

Record CachedTopicState : Type := {
  c_content : string;
  c_generationTime : option Z;
  c_sources : option (list Source);
  c_language : option string
}.

Record FileData : Type := {
  base64 : string;
  mimeType : string
}.

Record Tab : Type := {
  id : string;
  title : string;
  historyStack : list string;
  futureStack : list string;
  currentTopic : string;
  content : option string;
  isLoading : bool;
  error : option string;
  generationTime : option Z;
  groundingSources : list Source;
  isWebSearchMode : bool;
  isEbookMode : bool;
  documentName : option string;
  documentContext : option string;
  fileData : option FileData;
  ebookPages : list string;
  currentPage : Z;
  webUrl : option string;
  webSectionIndex : Z;
  generatedDiagrams : gmap string string;
  language : string
}.

(** One setter per field: [set_f v] is the assignment [f: v] of an update
    object. *)

Definition set_title (v : string) (t : Tab) : Tab :=
  Build_Tab (id t) v (historyStack t) (futureStack t) (currentTopic t)
    (content t) (isLoading t) (error t) (generationTime t)
    (groundingSources t) (isWebSearchMode t) (isEbookMode t)
    (documentName t) (documentContext t) (fileData t) (ebookPages t)
    (currentPage t) (webUrl t) (webSectionIndex t) (generatedDiagrams t)
    (language t).

Definition set_historyStack (v : list string) (t : Tab) : Tab :=
  Build_Tab (id t) (title t) v (futureStack t) (currentTopic t) (content t)
    (isLoading t) (error t) (generationTime t) (groundingSources t)
    (isWebSearchMode t) (isEbookMode t) (documentName t) (documentContext t)
    (fileData t) (ebookPages t) (currentPage t) (webUrl t)
    (webSectionIndex t) (generatedDiagrams t) (language t).

Definition set_futureStack (v : list string) (t : Tab) : Tab :=
  Build_Tab (id t) (title t) (historyStack t) v (currentTopic t) (content t)
    (isLoading t) (error t) (generationTime t) (groundingSources t)
    (isWebSearchMode t) (isEbookMode t) (documentName t) (documentContext t)
    (fileData t) (ebookPages t) (currentPage t) (webUrl t)
    (webSectionIndex t) (generatedDiagrams t) (language t).

Definition set_currentTopic (v : string) (t : Tab) : Tab :=
  Build_Tab (id t) (title t) (historyStack t) (futureStack t) v (content t)
    (isLoading t) (error t) (generationTime t) (groundingSources t)
    (isWebSearchMode t) (isEbookMode t) (documentName t) (documentContext t)
    (fileData t) (ebookPages t) (currentPage t) (webUrl t)
    (webSectionIndex t) (generatedDiagrams t) (language t).

Definition set_content (v : option string) (t : Tab) : Tab :=
  Build_Tab (id t) (title t) (historyStack t) (futureStack t)
    (currentTopic t) v (isLoading t) (error t) (generationTime t)
    (groundingSources t) (isWebSearchMode t) (isEbookMode t)
    (documentName t) (documentContext t) (fileData t) (ebookPages t)
    (currentPage t) (webUrl t) (webSectionIndex t) (generatedDiagrams t)
    (language t).

Definition set_isLoading (v : bool) (t : Tab) : Tab :=
  Build_Tab (id t) (title t) (historyStack t) (futureStack t)
    (currentTopic t) (content t) v (error t) (generationTime t)
    (groundingSources t) (isWebSearchMode t) (isEbookMode t)
    (documentName t) (documentContext t) (fileData t) (ebookPages t)
    (currentPage t) (webUrl t) (webSectionIndex t) (generatedDiagrams t)
    (language t).

Definition set_error (v : option string) (t : Tab) : Tab :=
  Build_Tab (id t) (title t) (historyStack t) (futureStack t)
    (currentTopic t) (content t) (isLoading t) v (generationTime t)
    (groundingSources t) (isWebSearchMode t) (isEbookMode t)
    (documentName t) (documentContext t) (fileData t) (ebookPages t)
    (currentPage t) (webUrl t) (webSectionIndex t) (generatedDiagrams t)
    (language t).

Definition set_generationTime (v : option Z) (t : Tab) : Tab :=
  Build_Tab (id t) (title t) (historyStack t) (futureStack t)
    (currentTopic t) (content t) (isLoading t) (error t) v
    (groundingSources t) (isWebSearchMode t) (isEbookMode t)
    (documentName t) (documentContext t) (fileData t) (ebookPages t)
    (currentPage t) (webUrl t) (webSectionIndex t) (generatedDiagrams t)
    (language t).

Definition set_groundingSources (v : list Source) (t : Tab) : Tab :=
  Build_Tab (id t) (title t) (historyStack t) (futureStack t)
    (currentTopic t) (content t) (isLoading t) (error t) (generationTime t)
    v (isWebSearchMode t) (isEbookMode t) (documentName t)
    (documentContext t) (fileData t) (ebookPages t) (currentPage t)
    (webUrl t) (webSectionIndex t) (generatedDiagrams t) (language t).

Definition set_isWebSearchMode (v : bool) (t : Tab) : Tab :=
  Build_Tab (id t) (title t) (historyStack t) (futureStack t)
    (currentTopic t) (content t) (isLoading t) (error t) (generationTime t)
    (groundingSources t) v (isEbookMode t) (documentName t)
    (documentContext t) (fileData t) (ebookPages t) (currentPage t)
    (webUrl t) (webSectionIndex t) (generatedDiagrams t) (language t).

Definition set_isEbookMode (v : bool) (t : Tab) : Tab :=
  Build_Tab (id t) (title t) (historyStack t) (futureStack t)
    (currentTopic t) (content t) (isLoading t) (error t) (generationTime t)
    (groundingSources t) (isWebSearchMode t) v (documentName t)
    (documentContext t) (fileData t) (ebookPages t) (currentPage t)
    (webUrl t) (webSectionIndex t) (generatedDiagrams t) (language t).

Definition set_documentName (v : option string) (t : Tab) : Tab :=
  Build_Tab (id t) (title t) (historyStack t) (futureStack t)
    (currentTopic t) (content t) (isLoading t) (error t) (generationTime t)
    (groundingSources t) (isWebSearchMode t) (isEbookMode t) v
    (documentContext t) (fileData t) (ebookPages t) (currentPage t)
    (webUrl t) (webSectionIndex t) (generatedDiagrams t) (language t).

Definition set_documentContext (v : option string) (t : Tab) : Tab :=
  Build_Tab (id t) (title t) (historyStack t) (futureStack t)
    (currentTopic t) (content t) (isLoading t) (error t) (generationTime t)
    (groundingSources t) (isWebSearchMode t) (isEbookMode t)
    (documentName t) v (fileData t) (ebookPages t) (currentPage t)
    (webUrl t) (webSectionIndex t) (generatedDiagrams t) (language t).

Definition set_fileData (v : option FileData) (t : Tab) : Tab :=
  Build_Tab (id t) (title t) (historyStack t) (futureStack t)
    (currentTopic t) (content t) (isLoading t) (error t) (generationTime t)
    (groundingSources t) (isWebSearchMode t) (isEbookMode t)
    (documentName t) (documentContext t) v (ebookPages t) (currentPage t)
    (webUrl t) (webSectionIndex t) (generatedDiagrams t) (language t).

Definition set_ebookPages (v : list string) (t : Tab) : Tab :=
  Build_Tab (id t) (title t) (historyStack t) (futureStack t)
    (currentTopic t) (content t) (isLoading t) (error t) (generationTime t)
    (groundingSources t) (isWebSearchMode t) (isEbookMode t)
    (documentName t) (documentContext t) (fileData t) v (currentPage t)
    (webUrl t) (webSectionIndex t) (generatedDiagrams t) (language t).

Definition set_currentPage (v : Z) (t : Tab) : Tab :=
  Build_Tab (id t) (title t) (historyStack t) (futureStack t)
    (currentTopic t) (content t) (isLoading t) (error t) (generationTime t)
    (groundingSources t) (isWebSearchMode t) (isEbookMode t)
    (documentName t) (documentContext t) (fileData t) (ebookPages t) v
    (webUrl t) (webSectionIndex t) (generatedDiagrams t) (language t).

Definition set_webUrl (v : option string) (t : Tab) : Tab :=
  Build_Tab (id t) (title t) (historyStack t) (futureStack t)
    (currentTopic t) (content t) (isLoading t) (error t) (generationTime t)
    (groundingSources t) (isWebSearchMode t) (isEbookMode t)
    (documentName t) (documentContext t) (fileData t) (ebookPages t)
    (currentPage t) v (webSectionIndex t) (generatedDiagrams t) (language t).

Definition set_webSectionIndex (v : Z) (t : Tab) : Tab :=
  Build_Tab (id t) (title t) (historyStack t) (futureStack t)
    (currentTopic t) (content t) (isLoading t) (error t) (generationTime t)
    (groundingSources t) (isWebSearchMode t) (isEbookMode t)
    (documentName t) (documentContext t) (fileData t) (ebookPages t)
    (currentPage t) (webUrl t) v (generatedDiagrams t) (language t).

Definition set_generatedDiagrams (v : gmap string string) (t : Tab) : Tab :=
  Build_Tab (id t) (title t) (historyStack t) (futureStack t)
    (currentTopic t) (content t) (isLoading t) (error t) (generationTime t)
    (groundingSources t) (isWebSearchMode t) (isEbookMode t)
    (documentName t) (documentContext t) (fileData t) (ebookPages t)
    (currentPage t) (webUrl t) (webSectionIndex t) v (language t).

Definition set_language (v : string) (t : Tab) : Tab :=
  Build_Tab (id t) (title t) (historyStack t) (futureStack t)
    (currentTopic t) (content t) (isLoading t) (error t) (generationTime t)
    (groundingSources t) (isWebSearchMode t) (isEbookMode t)
    (documentName t) (documentContext t) (fileData t) (ebookPages t)
    (currentPage t) (webUrl t) (webSectionIndex t) (generatedDiagrams t) v.

Definition createNewTab (id0 : string) : Tab := {|
  id := id0;
  title := "New Tab";
  historyStack := [];
  futureStack := [];
  currentTopic := "";
  content := Some "";
  isLoading := false;
  error := None;
  generationTime := None;
  groundingSources := [];
  isWebSearchMode := false;
  isEbookMode := false;
  documentName := None;
  documentContext := None;
  fileData := None;
  ebookPages := [];
  currentPage := 0;
  webUrl := None;
  webSectionIndex := 0;
  generatedDiagrams := ∅;
  language := "English"
|}.

(** The state of the [App] component: its [useState] cells and its refs. *)
Record AppState : Type := {
  tabs : list Tab;
  activeTabId : string;
  cache : gmap string CachedTopicState;
  searchHistory : list string;
  finalContentRef : string;
  finalSourcesRef : list Source;
  pendingDiagramsRef : gset string
}.

Definition with_tabs (v : list Tab) (s : AppState) : AppState :=
  Build_AppState v (activeTabId s) (cache s) (searchHistory s)
    (finalContentRef s) (finalSourcesRef s) (pendingDiagramsRef s).

Definition with_activeTabId (v : string) (s : AppState) : AppState :=
  Build_AppState (tabs s) v (cache s) (searchHistory s) (finalContentRef s)
    (finalSourcesRef s) (pendingDiagramsRef s).

Definition with_cache (v : gmap string CachedTopicState) (s : AppState) : AppState :=
  Build_AppState (tabs s) (activeTabId s) v (searchHistory s)
    (finalContentRef s) (finalSourcesRef s) (pendingDiagramsRef s).

Definition with_searchHistory (v : list string) (s : AppState) : AppState :=
  Build_AppState (tabs s) (activeTabId s) (cache s) v (finalContentRef s)
    (finalSourcesRef s) (pendingDiagramsRef s).

Definition with_finalContentRef (v : string) (s : AppState) : AppState :=
  Build_AppState (tabs s) (activeTabId s) (cache s) (searchHistory s) v
    (finalSourcesRef s) (pendingDiagramsRef s).

Definition with_finalSourcesRef (v : list Source) (s : AppState) : AppState :=
  Build_AppState (tabs s) (activeTabId s) (cache s) (searchHistory s)
    (finalContentRef s) v (pendingDiagramsRef s).

Definition with_pendingDiagramsRef (v : gset string) (s : AppState) : AppState :=
  Build_AppState (tabs s) (activeTabId s) (cache s) (searchHistory s)
    (finalContentRef s) (finalSourcesRef s) v.

(** ** Reading and updating the active tab *)

Definition Updates : Type := list (Tab -> Tab).

(** [{...tab, ...updates}] *)
Definition spread (t : Tab) (u : Updates) : Tab :=
  fold_left (fun acc assign => assign acc) u t.

(** [setTabs(prev => prev.map(t => t.id === tid ? {...t, ...u} : t))] *)
Definition updateTab (tid : string) (u : Updates) (ts : list Tab) : list Tab :=
  map (fun t => if String.eqb (id t) tid then spread t u else t) ts.

Definition updateActiveTab (u : Updates) (s : AppState) : AppState :=
  with_tabs (updateTab (activeTabId s) u (tabs s)) s.

(** [tabs.find(t => t.id === activeTabId)] *)
Definition activeById (s : AppState) : option Tab :=
  List.find (fun t => String.eqb (id t) (activeTabId s)) (tabs s).

(** [tabs.find(t => t.id === activeTabId) || tabs[0]]; [None] stands for the
    [undefined] an empty array would give. *)
Definition activeTab (s : AppState) : option Tab :=
  match activeById s with
  | Some t => Some t
  | None => head (tabs s)
  end.

(** Update objects never assign [id]. *)
Definition keepsId (u : Updates) : Prop :=
  Forall (fun assign => forall t, id (assign t) = id t) u.

(** Handlers and effects read [activeTab] first; with no tab at all the
    component cannot render, and the state is left as it is. *)
Definition withActive {A : Type} (s : AppState) (d : A) (k : Tab -> A) : A :=
  match activeTab s with
  | Some cur => k cur
  | None => d
  end.

Definition hasFile (t : Tab) : bool :=
  match fileData t with Some _ => true | None => false end.

(** [fileData && fileData.mimeType.startsWith('image/')] *)
Definition hasImage (t : Tab) : bool :=
  match fileData t with
  | Some f => Js.startsWith "image/" (mimeType f)
  | None => false
  end.

Definition optStringEqb (a b : option string) : bool :=
  match a, b with
  | Some x, Some y => String.eqb x y
  | None, None => true
  | _, _ => false
  end.

Definition initialState : AppState := {|
  tabs := [createNewTab "default-tab"];
  activeTabId := "default-tab";
  cache := ∅;
  searchHistory := [];
  finalContentRef := "";
  finalSourcesRef := [];
  pendingDiagramsRef := ∅
|}.

(** The effect that runs once on mount. *)
Definition mountEffect (s : AppState) : AppState :=
  withActive s s (fun cur =>
    if negb (Js.nonEmpty (currentTopic cur))
       && String.eqb (id cur) "default-tab"
       && negb (isLoading cur)
       && negb (Js.truthy (content cur))
    then updateActiveTab
           [set_currentTopic "Hypertext"; set_isLoading true;
            set_title "Hypertext"] s
    else s).

(** ** The cache fingerprint *)

Definition cacheKey (t : Tab) : string :=
  (if isWebSearchMode t then "web:" else "wiki:")
  +:+ (match documentName t with
       | Some n => if Js.nonEmpty n then "doc(" +:+ n +:+ "):" else ""
       | None => ""
       end)
  +:+ Js.toLowerCase (currentTopic t)
  +:+ ":" +:+ pretty (webSectionIndex t)
  +:+ ":" +:+ language t.

(** ** Tab operations *)

Definition handleTabSwitch (tid : string) (s : AppState) : AppState :=
  with_activeTabId tid s.

(** [newId] is the identifier [generateId()] draws. *)
Definition handleNewTab (newId : string) (s : AppState) : AppState :=
  with_activeTabId newId (with_tabs (tabs s ++ [createNewTab newId]) s).

Definition handleCloseTab (tid newId : string) (s : AppState) : AppState :=
  let newTabs :=
    List.filter (fun t => negb (String.eqb (id t) tid)) (tabs s) in
  match last newTabs with
  | None => with_activeTabId newId (with_tabs [createNewTab newId] s)
  | Some lastTab =>
      if String.eqb tid (activeTabId s)
      then with_activeTabId (id lastTab) (with_tabs newTabs s)
      else with_tabs newTabs s
  end.

(** ** Topic, language and history *)

Definition handleTopicChange (newTopic : string) (s : AppState) : AppState :=
  if negb (Js.nonEmpty newTopic) then s
  else withActive s s (fun cur =>
    let newHist :=
      newTopic :: List.filter
        (fun item => negb (String.eqb (Js.toLowerCase item)
                                      (Js.toLowerCase newTopic)))
        (searchHistory s) in
    let isUrl := isUrlRe (Js.trim newTopic) in
    updateActiveTab
      [ set_historyStack
          (if Js.nonEmpty (currentTopic cur)
           then historyStack cur ++ [currentTopic cur]
           else historyStack cur);
        set_futureStack [];
        set_currentTopic newTopic;
        set_content (Some "");
        set_isLoading true;
        set_error None;
        set_title newTopic;
        set_webUrl (if isUrl then Some (Js.trim newTopic) else None);
        set_webSectionIndex 0;
        set_generatedDiagrams ∅ ]
      (with_searchHistory (take 5 newHist) s)).

Definition handleSearch (query : string) (s : AppState) : AppState :=
  handleTopicChange (Js.trim query) s.

Definition handleLanguageChange (lang : string) (s : AppState) : AppState :=
  withActive s s (fun cur =>
    updateActiveTab
      [ set_language lang;
        set_isLoading true;
        set_content
          (if isEbookMode cur && negb (isWebSearchMode cur)
              && negb (hasFile cur)
           then content cur else Some "") ] s).

Definition handleBack (s : AppState) : AppState :=
  withActive s s (fun cur =>
    match last (historyStack cur) with
    | None => s
    | Some prevTopic =>
        let newHistory := removelast (historyStack cur) in
        updateActiveTab
          [ set_historyStack newHistory;
            set_futureStack (currentTopic cur :: futureStack cur);
            set_currentTopic prevTopic;
            set_isLoading true;
            set_error None;
            set_title prevTopic;
            set_webSectionIndex 0 ] s
    end).

Definition handleForward (s : AppState) : AppState :=
  withActive s s (fun cur =>
    match futureStack cur with
    | [] => s
    | nextTopic :: newFuture =>
        updateActiveTab
          [ set_historyStack (historyStack cur ++ [currentTopic cur]);
            set_futureStack newFuture;
            set_currentTopic nextTopic;
            set_isLoading true;
            set_error None;
            set_title nextTopic;
            set_webSectionIndex 0 ] s
    end).

Definition onWebSearchModeChange (isWeb : bool) (s : AppState) : AppState :=
  updateActiveTab
    [ set_isWebSearchMode isWeb; set_isLoading true; set_content (Some "");
      set_generatedDiagrams ∅ ] s.

(** ** Documents and pagination *)

(** [handleFileUpload] first marks the tab loading, and later, when the file
    has been read, stores it.  [tid] is the tab that was active when the
    upload began; [text] and [pages] are what the extractors returned (both
    empty for an image or after a failed extraction). *)
Definition handleFileUploadBegin (s : AppState) : AppState :=
  updateActiveTab [set_isLoading true; set_error None] s.

Definition handleFileUploadRead (tid fileName fileType data text : string)
    (pages : list string) (s : AppState) : AppState :=
  let u : Updates :=
    if negb (Js.nonEmpty text) || (String.length (Js.trim text) =? 0)%nat
    then
      [ set_fileData
          (Some {| base64 := data;
                   mimeType := if Js.nonEmpty fileType then fileType
                               else "application/octet-stream" |});
        set_documentContext None;
        set_ebookPages [];
        set_documentName (Some fileName);
        set_isEbookMode true;
        set_isWebSearchMode false;
        set_content (Some "");
        set_currentTopic "Analyze Document";
        set_title fileName;
        set_historyStack [];
        set_isLoading true ]
    else
      [ set_documentContext (Some text);
        set_ebookPages pages;
        set_fileData None;
        set_content (Some (default "" (head pages)));
        set_documentName (Some fileName);
        set_isEbookMode true;
        set_isWebSearchMode false;
        set_currentPage 0;
        set_currentTopic fileName;
        set_title fileName;
        set_historyStack [];
        set_isLoading false ] in
  with_tabs (updateTab tid u (tabs s)) s.

Definition handleClearDocument (s : AppState) : AppState :=
  updateActiveTab
    [ set_documentContext None; set_documentName None; set_fileData None;
      set_isEbookMode false; set_ebookPages []; set_currentPage 0;
      set_isWebSearchMode false; set_currentTopic "Hypertext";
      set_title "Hypertext"; set_historyStack [];
      set_language "English" ] s.

Definition isTranslationNeeded (t : Tab) : bool :=
  negb (String.eqb (language t) "English").

Definition handlePrevPage (s : AppState) : AppState :=
  withActive s s (fun cur =>
    let newPage := Z.max (currentPage cur - 1) 0 in
    updateActiveTab
      [ set_currentPage newPage;
        set_isLoading (isTranslationNeeded cur);
        set_content (if isTranslationNeeded cur then Some ""
                     else Js.index (ebookPages cur) newPage) ] s).

Definition handleNextPage (s : AppState) : AppState :=
  withActive s s (fun cur =>
    let newPage :=
      Z.min (currentPage cur + 1) (Z.of_nat (length (ebookPages cur)) - 1) in
    updateActiveTab
      [ set_currentPage newPage;
        set_isLoading (isTranslationNeeded cur);
        set_content (if isTranslationNeeded cur then Some ""
                     else Js.index (ebookPages cur) newPage) ] s).

Definition handlePrevWebSection (s : AppState) : AppState :=
  withActive s s (fun cur =>
    updateActiveTab
      [ set_webSectionIndex (Z.max (webSectionIndex cur - 1) 0);
        set_isLoading true; set_generatedDiagrams ∅ ] s).

Definition handleNextWebSection (s : AppState) : AppState :=
  withActive s s (fun cur =>
    updateActiveTab
      [ set_webSectionIndex (webSectionIndex cur + 1);
        set_isLoading true; set_generatedDiagrams ∅ ] s).

(** ** The topic router

    The chain of tests at the head of [fetchData], on the tab the effect
    saw. *)

Inductive Strategy : Type :=
| ImageAnalysis                      (* streamImageAnalysis *)
| VideoSummary                       (* streamYouTubeSummary *)
| WebResource                        (* streamWebResource *)
| DocumentQuery (webSearch : bool)   (* streamInDocumentQuery *)
| WebSearch                          (* performAiSearch *)
| WikiDefinition                     (* streamWikiDefinition *)
| PageTranslation.                   (* streamTranslation *)

Definition selectStrategy (t : Tab) : Strategy :=
  let trimmedTopic := Js.trim (currentTopic t) in
  let isYouTubeUrl := isYouTubeUrlRe trimmedTopic in
  let isUrl := isUrlRe trimmedTopic in
  if hasImage t then ImageAnalysis
  else if isYouTubeUrl then VideoSummary
  else if isUrl && negb (Js.truthy (documentContext t)) && negb (hasFile t)
  then WebResource
  else if isWebSearchMode t then
    if Js.truthy (documentContext t) || hasFile t
    then DocumentQuery true else WebSearch
  else
    if Js.truthy (documentContext t) || hasFile t
    then DocumentQuery false else WikiDefinition.

(** ** The main data-fetching effect *)

(** What one run of the effect does: nothing, a synchronous update of the
    active tab, or the start of an asynchronous generation, which is the only
    way a call to the generation service is issued. *)
Inductive Effect : Type :=
| Idle
| Update (u : Updates)
| LaunchTranslation (pageContent lang : string)
| LaunchFetch (strategy : Strategy) (key : string).

Definition issuesNetworkCall (e : Effect) : bool :=
  match e with
  | Idle | Update _ => false
  | LaunchTranslation _ _ | LaunchFetch _ _ => true
  end.

(** The branch of the effect that shows the pages of a text document. *)
Definition inEbookTextMode (t : Tab) : bool :=
  isEbookMode t && negb (isWebSearchMode t) && negb (hasFile t)
  && Js.truthy (documentContext t).

Definition hydrate (cached : CachedTopicState) (cur : Tab) : Updates :=
  [ set_content (Some (c_content cached));
    set_generationTime (c_generationTime cached);
    set_groundingSources (default [] (c_sources cached));
    set_error None;
    set_isLoading false;
    set_title (currentTopic cur) ].

Definition mainEffect (s : AppState) : Effect :=
  withActive s Idle (fun cur =>
    if negb (Js.nonEmpty (currentTopic cur)) then Idle
    else if inEbookTextMode cur then
      let pageContent :=
        default "" (Js.index (ebookPages cur) (currentPage cur)) in
      if isTranslationNeeded cur then
        if isLoading cur then LaunchTranslation pageContent (language cur)
        else Idle
      else
        if negb (optStringEqb (content cur) (Some pageContent))
        then Update [ set_content (Some pageContent); set_isLoading false;
                      set_error None; set_groundingSources [] ]
        else Idle
    else
      let key := cacheKey cur in
      match cache s !! key with
      | Some cachedState =>
          if negb (isLoading cur) && optStringEqb (content cur) (Some "")
          then Update (hydrate cachedState cur)
          else if isLoading cur then LaunchFetch (selectStrategy cur) key
               else Idle
      | None =>
          if isLoading cur then LaunchFetch (selectStrategy cur) key
          else Idle
      end).

(** ** Generations

    A generation is one run of [fetchData] or [fetchTranslation].  It keeps
    what its closure captured ([activeTabId], [activeTab], [cacheKey]), its
    local accumulator and the [isCancelled] flag the effect's cleanup
    sets. *)

Record Generation : Type := {
  g_tabId : string;
  g_snapshot : Tab;
  g_strategy : Strategy;
  g_cacheKey : string;
  g_acc : string;
  g_startTime : Z;
  g_cancelled : bool;
  g_done : bool
}.

Definition gen_acc (v : string) (g : Generation) : Generation :=
  Build_Generation (g_tabId g) (g_snapshot g) (g_strategy g) (g_cacheKey g)
    v (g_startTime g) (g_cancelled g) (g_done g).

Definition gen_finish (g : Generation) : Generation :=
  Build_Generation (g_tabId g) (g_snapshot g) (g_strategy g) (g_cacheKey g)
    (g_acc g) (g_startTime g) (g_cancelled g) true.

(** The cleanup function of the effect. *)
Definition cancel (g : Generation) : Generation :=
  Build_Generation (g_tabId g) (g_snapshot g) (g_strategy g) (g_cacheKey g)
    (g_acc g) (g_startTime g) true (g_done g).

Inductive StreamEvent : Type :=
| Chunk (text : string) (sources : option (list Source))
| ErrorEvent (message : string).

Inductive Thrown : Type :=
| ErrorObject (message : string)
| OtherValue.

(** What the service hands to a waiting generation.  [now] is the clock
    reading the [finally] block would take. *)
Inductive Signal : Type :=
| Yield (ev : StreamEvent)
| Return (now : Z)
| Throw (e : Thrown) (now : Z)
| Resolve (text : string) (sources : list Source) (now : Z).

(** One run of the effect: the state after it and the generation it
    started, if any.  [fetchData] clears the two shared refs before its
    first [await]. *)
Definition runEffect (now : Z) (s : AppState) : AppState * option Generation :=
  match mainEffect s, activeTab s with
  | Update u, _ => (updateActiveTab u s, None)
  | LaunchTranslation _ _, Some cur =>
      (s, Some {| g_tabId := activeTabId s; g_snapshot := cur;
                  g_strategy := PageTranslation; g_cacheKey := "";
                  g_acc := ""; g_startTime := now;
                  g_cancelled := false; g_done := false |})
  | LaunchFetch strategy key, Some cur =>
      (with_finalSourcesRef [] (with_finalContentRef "" s),
       Some {| g_tabId := activeTabId s; g_snapshot := cur;
               g_strategy := strategy; g_cacheKey := key;
               g_acc := ""; g_startTime := now;
               g_cancelled := false; g_done := false |})
  | _, _ => (s, None)
  end.

Definition errorMessage (e : Thrown) : string :=
  match e with
  | ErrorObject m => m
  | OtherValue => "An unknown error occurred"
  end.

(** The [catch] block of [fetchData]. *)
Definition catchBlock (g : Generation) (e : Thrown) (s : AppState) : AppState :=
  if g_cancelled g then s
  else with_tabs
         (updateTab (g_tabId g)
            [set_error (Some (errorMessage e)); set_isLoading false]
            (tabs s)) s.

(** The [finally] block of [fetchData]. *)
Definition finallyBlock (g : Generation) (now : Z) (s : AppState) : AppState :=
  if g_cancelled g then s
  else
    let genTime := now - g_startTime g in
    let snap := g_snapshot g in
    let entry := {| c_content := finalContentRef s;
                    c_generationTime := Some genTime;
                    c_sources := Some (finalSourcesRef s);
                    c_language := Some (language snap) |} in
    let s1 := with_cache (<[g_cacheKey g := entry]> (cache s)) s in
    with_tabs
      (updateTab (g_tabId g)
         [ set_isLoading false;
           set_generationTime (Some genTime);
           set_title (if Js.truthy (documentName snap)
                      then default "" (documentName snap)
                      else currentTopic snap) ]
         (tabs s1)) s1.

(** The body of a [for await] loop of [fetchData] on a chunk.  The loops
    over [streamImageAnalysis] and [streamInDocumentQuery] append the text
    and write the content; the other three also keep the sources. *)
Definition onChunk (g : Generation) (text : string)
    (sources : option (list Source)) (s : AppState) : Generation * AppState :=
  match g_strategy g with
  | ImageAnalysis | DocumentQuery _ =>
      let acc := g_acc g +:+ text in
      (gen_acc acc g,
       let s1 := with_finalContentRef acc s in
       with_tabs (updateTab (g_tabId g) [set_content (Some acc)] (tabs s1)) s1)
  | VideoSummary | WebResource | WikiDefinition =>
      let acc := if Js.nonEmpty text then g_acc g +:+ text else g_acc g in
      let s1 := match sources with
                | Some l => with_finalSourcesRef l s
                | None => s
                end in
      let s2 := with_finalContentRef acc s1 in
      (gen_acc acc g,
       with_tabs
         (updateTab (g_tabId g)
            [ set_content (Some acc);
              set_groundingSources (finalSourcesRef s2) ] (tabs s2)) s2)
  | WebSearch | PageTranslation => (g, s)
  end.

(** [fetchData], one signal at a time.  A cancelled generation leaves its
    loop at the next event ([break]), or returns after [performAiSearch]; the
    [finally] block it then reaches tests [isCancelled] and does nothing. *)
Definition fetchDataStep (g : Generation) (sig : Signal) (s : AppState)
  : Generation * AppState :=
  match g_strategy g, sig with
  | WebSearch, Resolve text sources now =>
      if g_cancelled g then (gen_finish g, s)
      else
        let s1 := with_finalSourcesRef sources (with_finalContentRef text s) in
        let s2 := with_tabs
                    (updateTab (g_tabId g)
                       [ set_content (Some text);
                         set_groundingSources sources ] (tabs s1)) s1 in
        (gen_finish g, finallyBlock g now s2)
  | WebSearch, Throw e now =>
      (gen_finish g, finallyBlock g now (catchBlock g e s))
  | WebSearch, _ => (g, s)
  | _, Yield ev =>
      if g_cancelled g then (gen_finish g, s)
      else match ev with
           | Chunk text sources => onChunk g text sources s
           | ErrorEvent _ => (g, s)
           end
  | _, Return now => (gen_finish g, finallyBlock g now s)
  | _, Throw e now => (gen_finish g, finallyBlock g now (catchBlock g e s))
  | _, Resolve _ _ _ => (g, s)
  end.

(** [fetchTranslation], one signal at a time. *)
Definition fetchTranslationStep (g : Generation) (sig : Signal) (s : AppState)
  : Generation * AppState :=
  let clearLoading :=
    with_tabs (updateTab (g_tabId g) [set_isLoading false] (tabs s)) s in
  match sig with
  | Yield ev =>
      if g_cancelled g then (gen_finish g, clearLoading)
      else match ev with
           | Chunk text _ =>
               let acc := g_acc g +:+ text in
               (gen_acc acc g,
                with_tabs
                  (updateTab (g_tabId g) [set_content (Some acc)] (tabs s)) s)
           | ErrorEvent _ => (g, s)
           end
  | Return _ => (gen_finish g, clearLoading)
  | Throw _ _ =>
      (gen_finish g,
       if g_cancelled g then s
       else with_tabs
              (updateTab (g_tabId g)
                 [set_error (Some "Translation failed"); set_isLoading false]
                 (tabs s)) s)
  | Resolve _ _ _ => (g, s)
  end.

(** A generation that has finished takes no further signal. *)
Definition step (g : Generation) (sig : Signal) (s : AppState)
  : Generation * AppState :=
  if g_done g then (g, s)
  else match g_strategy g with
       | PageTranslation => fetchTranslationStep g sig s
       | _ => fetchDataStep g sig s
       end.

Fixpoint run (g : Generation) (sigs : list Signal) (s : AppState)
  : Generation * AppState :=
  match sigs with
  | [] => (g, s)
  | sig :: rest => let '(g', s') := step g sig s in run g' rest s'
  end.

(** ** The diagram effect *)

Fixpoint stripPrefix (p s : string) : option string :=
  match p, s with
  | EmptyString, _ => Some s
  | String a p', String b s' =>
      if Ascii.eqb a b then stripPrefix p' s' else None
  | String _ _, EmptyString => None
  end.

(** [\s*]: the rest of the text and the number of characters skipped. *)
Fixpoint skipSpaces (s : string) : string * nat :=
  match s with
  | EmptyString => (s, 0%nat)
  | String c r =>
      if Js.isWhiteSpace c
      then let '(rest, k) := skipSpaces r in (rest, S k)
      else (s, 0%nat)
  end.

(** [(.*?)\]]: the captured text and the number of characters consumed,
    the bracket included. *)
Fixpoint captureToBracket (s : string) : option (string * nat) :=
  match s with
  | EmptyString => None
  | String c r =>
      if Ascii.eqb c "]" then Some (EmptyString, 1%nat)
      else if Js.isLineTerminator c then None
      else match captureToBracket r with
           | Some (p, n) => Some (String c p, S n)
           | None => None
           end
  end.

(** A match of [/\[DIAGRAM:\s*(.*?)\]/] that starts at the head of [s]. *)
Definition matchDiagramAt (s : string) : option (string * nat) :=
  match stripPrefix "[DIAGRAM:" s with
  | Some rest =>
      let '(rest', k) := skipSpaces rest in
      match captureToBracket rest' with
      | Some (p, n) => Some (p, (9 + k + n)%nat)
      | None => None
      end
  | None => None
  end.

(** The [regex.exec] loop under the [g] flag: after a match the search
    resumes behind it, [skip] counting the characters still covered by the
    last match. *)
Fixpoint scanDiagrams (skip : nat) (s : string) : list string :=
  match s with
  | EmptyString => []
  | String c r =>
      match skip with
      | S k => scanDiagrams k r
      | O =>
          match matchDiagramAt s with
          | Some (p, n) => p :: scanDiagrams (n - 1) r
          | None => scanDiagrams 0 r
          end
      end
  end.

Definition diagramPrompts (text : string) : list string :=
  scanDiagrams 0 text.

(** [activeTab.generatedDiagrams[prompt]] is truthy. *)
Definition diagramKnown (t : Tab) (prompt : string) : bool :=
  match generatedDiagrams t !! prompt with
  | Some image => Js.nonEmpty image
  | None => bool_decide (prompt ∈ Js.objectPrototypeKeys)
  end.

(** The body of the loop over the matches: the pending set after it and the
    prompts for which [generateInfoDiagram] was called, in order. *)
Fixpoint requestDiagrams (cur : Tab) (prompts : list string)
    (pending : gset string) : gset string * list string :=
  match prompts with
  | [] => (pending, [])
  | p :: rest =>
      if negb (diagramKnown cur p) && negb (bool_decide (p ∈ pending))
      then let '(pending', issued) :=
             requestDiagrams cur rest ({[p]} ∪ pending) in
           (pending', p :: issued)
      else requestDiagrams cur rest pending
  end.

(** An outstanding call of [generateInfoDiagram]: its prompt and the tab
    ([activeTab.id]) its result is meant for. *)
Record DiagramRequest : Type := {
  d_tabId : string;
  d_prompt : string
}.

Definition diagramEffect (s : AppState) : AppState * list DiagramRequest :=
  withActive s (s, []) (fun cur =>
    if negb (Js.truthy (content cur)) then (s, [])
    else
      let '(pending, issued) :=
        requestDiagrams cur (diagramPrompts (default "" (content cur)))
          (pendingDiagramsRef s) in
      (with_pendingDiagramsRef pending s,
       map (fun p => {| d_tabId := id cur; d_prompt := p |}) issued)).

(** The [then] and [finally] callbacks of a request that succeeded. *)
Definition diagramResolved (r : DiagramRequest) (image : string)
    (s : AppState) : AppState :=
  let ts :=
    map (fun t =>
           if String.eqb (id t) (d_tabId r)
           then set_generatedDiagrams
                  (<[d_prompt r := image]> (generatedDiagrams t)) t
           else t) (tabs s) in
  with_pendingDiagramsRef (pendingDiagramsRef s ∖ {[d_prompt r]})
    (with_tabs ts s).

(** The [catch] and [finally] callbacks of a request that failed. *)
Definition diagramFailed (r : DiagramRequest) (s : AppState) : AppState :=
  with_pendingDiagramsRef (pendingDiagramsRef s ∖ {[d_prompt r]}) s.

(** ** Tab operations as data, and two generations side by side *)

Inductive TabOp : Type :=
| NewTab (newId : string)
| SwitchTab (tid : string)
| CloseTab (tid newId : string).

Definition applyTabOp (s : AppState) (op : TabOp) : AppState :=
  match op with
  | NewTab newId => handleNewTab newId s
  | SwitchTab tid => handleTabSwitch tid s
  | CloseTab tid newId => handleCloseTab tid newId s
  end.

Inductive Who : Type := GenA | GenB.

Inductive Action : Type :=
| Deliver (sig : Signal)
| CancelIt.

(** The shared state and two generations whose signals and cancellations
    arrive in any order. *)
Record World : Type := {
  w_state : AppState;
  w_genA : Generation;
  w_genB : Generation
}.

Definition worldStep (w : World) (a : Who * Action) : World :=
  match a with
  | (GenA, Deliver sig) =>
      let '(g, s) := step (w_genA w) sig (w_state w) in
      {| w_state := s; w_genA := g; w_genB := w_genB w |}
  | (GenB, Deliver sig) =>
      let '(g, s) := step (w_genB w) sig (w_state w) in
      {| w_state := s; w_genA := w_genA w; w_genB := g |}
  | (GenA, CancelIt) =>
      {| w_state := w_state w; w_genA := cancel (w_genA w);
         w_genB := w_genB w |}
  | (GenB, CancelIt) =>
      {| w_state := w_state w; w_genA := w_genA w;
         w_genB := cancel (w_genB w) |}
  end.

Definition runWorld (w : World) (trace : list (Who * Action)) : World :=
  fold_left worldStep trace w.

Definition isGenB (a : Who * Action) : bool :=
  match fst a with GenB => true | GenA => false end.

(** The tabs other than [tid]. *)
Definition others (tid : string) (ts : list Tab) : list Tab :=
  List.filter (fun t => negb (String.eqb (id t) tid)) ts.

Fixpoint iter {A : Type} (n : nat) (f : A -> A) (x : A) : A :=
  match n with
  | O => x
  | S k => iter k f (f x)
  end.

(** ** States used as examples *)

(** The generation an effect run starts and the signals it then receives,
    run to the end. *)
Definition generate (now : Z) (sigs : list Signal) (s : AppState) : AppState :=
  match runEffect now s with
  | (s1, Some g) => snd (run g sigs s1)
  | (s1, None) => s1
  end.

(** The topics "a" and "b", then a web resource read up to its third
    section. *)
Definition navState : AppState :=
  generate 0 [Yield (Chunk "Section three" None); Return 5]
    (handleNextWebSection
       (handleNextWebSection
          (handleSearch "https://example.org/book"
             (handleSearch "b" (handleSearch "a" initialState))))).

Definition navTab : Tab :=
  Eval vm_compute in default (createNewTab "") (activeById navState).

(** The state after the opening generation for "Hypertext" has completed. *)
Definition afterHypertext : AppState :=
  generate 100
    [ Yield (Chunk "Hyper" None); Yield (Chunk "text" (Some ["src"]));
      Return 250 ]
    (mountEffect initialState).

(** The state after the opening generation has failed in mid-stream. *)
Definition afterFailure : AppState :=
  generate 100
    [ Yield (Chunk "Hyper" None);
      Yield (ErrorEvent "Could not generate content");
      Throw (ErrorObject "quota") 250 ]
    (mountEffect initialState).

(** The generation the opening effect run starts. *)
Definition hypertextGeneration : Generation := {|
  g_tabId := "default-tab";
  g_snapshot := spread (createNewTab "default-tab")
                  [set_currentTopic "Hypertext"; set_isLoading true;
                   set_title "Hypertext"];
  g_strategy := WikiDefinition;
  g_cacheKey := "wiki:hypertext:0:English";
  g_acc := "";
  g_startTime := 100;
  g_cancelled := false;
  g_done := false
|}.


(** An image attached to the default tab, web-search mode switched on, and
    a YouTube link submitted. *)
Definition imageThenLink : AppState :=
  handleSearch "https://youtu.be/abc123"
    (onWebSearchModeChange true
       (handleFileUploadRead "default-tab" "cat.png" "image/png" "AAAA" "" []
          (handleFileUploadBegin initialState))).

(** A two-page text document read in French: page 1 translated. *)
Definition bookInFrench : AppState :=
  handleLanguageChange "French"
    (handleFileUploadRead "default-tab" "book.txt" "text/plain" "AAAA"
       "page one page two" ["page one"; "page two"]
       (handleFileUploadBegin initialState)).

Definition pageOneTranslated : AppState :=
  generate 0 [Yield (Chunk "page un" None); Return 10] bookInFrench.


(** The translation of page 1 that [bookInFrench] is waiting for. *)
Definition pageOneGeneration : Generation := {|
  g_tabId := "default-tab";
  g_snapshot := spread (createNewTab "default-tab")
                  [ set_documentContext (Some "page one page two");
                    set_ebookPages ["page one"; "page two"];
                    set_content (Some "page one");
                    set_documentName (Some "book.txt");
                    set_isEbookMode true;
                    set_currentTopic "book.txt";
                    set_title "book.txt";
                    set_language "French";
                    set_isLoading true ];
  g_strategy := PageTranslation;
  g_cacheKey := "";
  g_acc := "";
  g_startTime := 0;
  g_cancelled := false;
  g_done := false
|}.

(** A second tab is opened while page 1 is being translated: the effect is
    run again for the new tab, and its cleanup cancels the translation. *)
Definition bookLeftForNewTab : AppState := handleNewTab "tab-b" bookInFrench.

(** In the new tab the user then asks for "Cats": a second generation starts
    while the cancelled translation of the first tab is still receiving
    signals. *)
Definition twoGenerations : World :=
  match runEffect 50 (handleSearch "Cats" bookLeftForNewTab) with
  | (s, Some g) =>
      {| w_state := s; w_genA := cancel pageOneGeneration; w_genB := g |}
  | (s, None) =>
      {| w_state := s; w_genA := cancel pageOneGeneration;
         w_genB := cancel pageOneGeneration |}
  end.

(** The opening generation returns a text that names the diagram "cat"
    twice. *)
Definition catsInFirstTab : AppState :=
  generate 100
    [Yield (Chunk "Cats. [DIAGRAM: cat] [DIAGRAM: cat]" None); Return 200]
    (mountEffect initialState).

(** The diagram effect has run for the first tab; while its request is
    outstanding the user opens a second tab and asks for "Cats" there, and
    the answer names the same diagram. *)
Definition catsInSecondTab : AppState :=
  generate 300 [Yield (Chunk "More cats. [DIAGRAM: cat]" None); Return 400]
    (handleSearch "Cats"
       (handleNewTab "tab-b" (fst (diagramEffect catsInFirstTab)))).

(** ** The search bar and the rendered content *)

(** [handleSubmit] of [SearchBar]: the bar is rendered with the loading flag
    of the active tab. *)
Definition handleSubmit (query : string) (s : AppState) : AppState :=
  withActive s s (fun cur =>
    if Js.nonEmpty (Js.trim query) && negb (isLoading cur)
    then handleSearch (Js.trim query) s
    else s).

(** The character class of [ContentDisplay] and [handleWordClick]: full
    stop, comma, exclamation and question mark, semicolon, colon, round
    brackets, double and single quote. *)
Definition isPunctuation (c : ascii) : bool :=
  let n := N_of_ascii c in
  ((n =? 46) || (n =? 44) || (n =? 33) || (n =? 63) || (n =? 59)
   || (n =? 58) || (n =? 40) || (n =? 41) || (n =? 34) || (n =? 39))%N.

(** [word.replace(/[...]/g, '')] over that class. *)
Fixpoint removePunctuation (s : string) : string :=
  match s with
  | EmptyString => EmptyString
  | String c r =>
      if isPunctuation c then removePunctuation r
      else String c (removePunctuation r)
  end.

(** [s.replace(/[...]$/, '')]: a punctuation mark that ends the string is
    dropped. *)
Fixpoint dropFinalPunctuation (s : string) : string :=
  match s with
  | EmptyString => EmptyString
  | String c EmptyString => if isPunctuation c then EmptyString else s
  | String c r => String c (dropFinalPunctuation r)
  end.

Definition handleWordClick (word : string) (s : AppState) : AppState :=
  handleTopicChange (dropFinalPunctuation (Js.trim word)) s.

(** [part.split(/(\s+)/).filter(Boolean)]: the maximal runs of white space
    and of other characters, in order. *)
Fixpoint splitWords (s : string) : list string :=
  match s with
  | EmptyString => []
  | String c r =>
      match splitWords r with
      | (String d _ as tok) :: toks =>
          if Bool.eqb (Js.isWhiteSpace c) (Js.isWhiteSpace d)
          then String c tok :: toks
          else String c EmptyString :: tok :: toks
      | toks => String c EmptyString :: toks
      end
  end.

(** [/\S/.test(word)] *)
Fixpoint hasNonSpace (s : string) : bool :=
  match s with
  | EmptyString => false
  | String c r => negb (Js.isWhiteSpace c) || hasNonSpace r
  end.

(** What a click on a rendered token asks for: tokens with a character
    other than white space and punctuation are buttons that call
    [onWordClick] with their punctuation removed; the others are plain
    text. *)
Definition clickTarget (word : string) : option string :=
  if hasNonSpace word
  then let cleanWord := removePunctuation word in
       if Js.nonEmpty cleanWord then Some cleanWord else None
  else None.

(** ** The parts of the rendered content *)

(** The first [n] characters of [s], and [s] without them. *)
Fixpoint takeString (n : nat) (s : string) : string :=
  match n, s with
  | S k, String c r => String c (takeString k r)
  | _, _ => EmptyString
  end.

Fixpoint dropString (n : nat) (s : string) : string :=
  match n, s with
  | S k, String _ r => dropString k r
  | _, _ => s
  end.

(** [content.split(/(\[DIAGRAM:\s*.*?\])/g)]: the text before the first
    tag, then every tag with the text that follows it; [skip] counts the
    characters still covered by the last tag. *)
Fixpoint splitDiagrams (skip : nat) (s : string)
  : string * list (string * string) :=
  match s with
  | EmptyString => (EmptyString, [])
  | String c r =>
      match skip with
      | S k => splitDiagrams k r
      | O =>
          match matchDiagramAt s with
          | Some (_, n) =>
              let '(text, rest) := splitDiagrams (n - 1) r in
              (EmptyString, (takeString n s, text) :: rest)
          | None =>
              let '(text, rest) := splitDiagrams 0 r in
              (String c text, rest)
          end
      end
  end.

(** The array [parts]. *)
Definition contentParts (content : string) : list string :=
  fst (splitDiagrams 0 content)
  :: flat_map (fun tagged => [fst tagged; snd tagged])
       (snd (splitDiagrams 0 content)).

(** [(.*?)\]$]: the capture ends at a closing bracket that ends the
    text. *)
Fixpoint captureToEnd (s : string) : option string :=
  match s with
  | EmptyString => None
  | String c r =>
      match r with
      | EmptyString => if Ascii.eqb c "]" then Some EmptyString else None
      | String _ _ =>
          if Js.isLineTerminator c then None
          else match captureToEnd r with
               | Some p => Some (String c p)
               | None => None
               end
      end
  end.

(** [part.match(/^\[DIAGRAM:\s*(.*?)\]$/)]: the captured prompt. *)
Definition matchWholeDiagram (part : string) : option string :=
  match stripPrefix "[DIAGRAM:" part with
  | Some rest => captureToEnd (fst (skipSpaces rest))
  | None => None
  end.

(** What [InteractiveContent] renders for a part: the figure of a diagram
    tag or, while [images] has nothing for its prompt, the notice that the
    visual is being generated; for any other part its words. *)
Inductive Part : Type :=
| Diagram (prompt : string) (hasFigure : bool)
| Paragraph (words : list string).

Definition renderPart (images : gmap string string) (part : string) : Part :=
  match matchWholeDiagram part with
  | Some prompt =>
      Diagram prompt
        match images !! prompt with
        | Some image => Js.nonEmpty image
        | None => bool_decide (prompt ∈ Js.objectPrototypeKeys)
        end
  | None => Paragraph (splitWords part)
  end.

(** [ContentDisplay] shows the raw text while loading, the interactive
    parts otherwise, and nothing for an empty content. *)
Inductive Rendering : Type :=
| Streaming (text : string)
| Interactive (parts : list Part)
| Nothing.

Definition ContentDisplay (images : gmap string string) (content : string)
    (isLoading : bool) : Rendering :=
  if isLoading then Streaming content
  else if Js.nonEmpty content
       then Interactive (map (renderPart images) (contentParts content))
       else Nothing.

(** The content area of [App]: [ContentDisplay] is mounted when there is
    content and no error. *)
Definition contentArea (t : Tab) : Rendering :=
  if Js.nonEmpty (default "" (content t)) && negb (Js.truthy (error t))
  then ContentDisplay (generatedDiagrams t) (default "" (content t))
         (isLoading t)
  else Nothing.

Definition diagramOf (p : Part) : option string :=
  match p with
  | Diagram prompt _ => Some prompt
  | Paragraph _ => None
  end.

(** ** Random topics *)

Definition PREDEFINED_WORDS : list string :=
  [ "Balance"; "Harmony"; "Discord"; "Unity"; "Fragmentation"; "Clarity";
    "Ambiguity"; "Presence"; "Absence"; "Creation"; "Destruction"; "Light";
    "Shadow"; "Beginning"; "Ending"; "Rising"; "Falling"; "Connection";
    "Isolation"; "Hope"; "Despair"; "Order and chaos"; "Light and shadow";
    "Sound and silence"; "Form and formlessness"; "Being and nonbeing";
    "Presence and absence"; "Motion and stillness";
    "Unity and multiplicity"; "Finite and infinite"; "Sacred and profane";
    "Memory and forgetting"; "Question and answer"; "Search and discovery";
    "Journey and destination"; "Dream and reality"; "Time and eternity";
    "Self and other"; "Known and unknown"; "Spoken and unspoken";
    "Visible and invisible"; "Zigzag"; "Waves"; "Spiral"; "Bounce"; "Slant";
    "Drip"; "Stretch"; "Squeeze"; "Float"; "Fall"; "Spin"; "Melt"; "Rise";
    "Twist"; "Explode"; "Stack"; "Mirror"; "Echo"; "Vibrate"; "Gravity";
    "Friction"; "Momentum"; "Inertia"; "Turbulence"; "Pressure"; "Tension";
    "Oscillate"; "Fractal"; "Quantum"; "Entropy"; "Vortex"; "Resonance";
    "Equilibrium"; "Centrifuge"; "Elastic"; "Viscous"; "Refract"; "Diffuse";
    "Cascade"; "Levitate"; "Magnetize"; "Polarize"; "Accelerate";
    "Compress"; "Undulate"; "Liminal"; "Ephemeral"; "Paradox"; "Zeitgeist";
    "Metamorphosis"; "Synesthesia"; "Recursion"; "Emergence"; "Dialectic";
    "Apophenia"; "Limbo"; "Flux"; "Sublime"; "Uncanny"; "Palimpsest";
    "Chimera"; "Void"; "Transcend"; "Ineffable"; "Qualia"; "Gestalt";
    "Simulacra"; "Abyssal"; "Existential"; "Nihilism"; "Solipsism";
    "Phenomenology"; "Hermeneutics"; "Deconstruction"; "Postmodern";
    "Absurdism"; "Catharsis"; "Epiphany"; "Melancholy"; "Nostalgia";
    "Longing"; "Reverie"; "Pathos"; "Ethos"; "Logos"; "Mythos"; "Anamnesis";
    "Intertextuality"; "Metafiction"; "Stream"; "Lacuna"; "Caesura";
    "Enjambment" ].

(** [[...new Set(PREDEFINED_WORDS)]]: first occurrences, in order. *)
Fixpoint uniqueStrings (seen : list string) (l : list string) : list string :=
  match l with
  | [] => []
  | w :: rest =>
      if existsb (String.eqb w) seen then uniqueStrings seen rest
      else w :: uniqueStrings (w :: seen) rest
  end.

Definition UNIQUE_WORDS : list string := uniqueStrings [] PREDEFINED_WORDS.

(** [randomIndex] is [Math.floor(Math.random() * UNIQUE_WORDS.length)]. *)
Definition handleRandom (randomIndex : nat) (s : AppState) : AppState :=
  withActive s s (fun cur =>
    match UNIQUE_WORDS !! randomIndex with
    | None => s
    | Some randomWord =>
        let randomWord :=
          if String.eqb (Js.toLowerCase randomWord)
                        (Js.toLowerCase (currentTopic cur))
          then default randomWord
                 (UNIQUE_WORDS
                    !! ((randomIndex + 1) mod length UNIQUE_WORDS)%nat)
          else randomWord in
        handleTopicChange randomWord s
    end).

(** ** What the interface lets the user do

    The conditions under which the pagination and navigation buttons are
    shown and enabled. *)

Definition canPrevPage (t : Tab) : bool :=
  isEbookMode t && negb (isWebSearchMode t) && negb (hasFile t)
  && (1 <? Z.of_nat (length (ebookPages t)))%Z
  && negb (isLoading t || (currentPage t =? 0)%Z).

Definition canNextPage (t : Tab) : bool :=
  isEbookMode t && negb (isWebSearchMode t) && negb (hasFile t)
  && (1 <? Z.of_nat (length (ebookPages t)))%Z
  && negb (isLoading t
           || (Z.of_nat (length (ebookPages t)) - 1 <=? currentPage t)%Z).

Definition webControlsShown (t : Tab) : bool :=
  match webUrl t with
  | Some _ => negb (isLoading t) && negb (Js.truthy (error t))
  | None => false
  end.

Definition canPrevWebSection (t : Tab) : bool :=
  webControlsShown t && negb (webSectionIndex t =? 0)%Z.

Definition canGoBack (t : Tab) : bool :=
  negb (isLoading t) && (0 <? length (historyStack t))%nat.

Definition canGoForward (t : Tab) : bool :=
  negb (isLoading t) && (0 <? length (futureStack t))%nat.

(** ** The generation service

    What the functions of [geminiService.ts] hand to the loop that consumes
    them, given what the SDK delivers: the chunks received and whether the
    SDK stream then ends or fails. *)

Record SdkChunk : Type := {
  k_text : option string;
  k_sources : option (list Source)
}.

Inductive SdkEnd : Type :=
| SdkDone
| SdkFails (e : Thrown).

Definition doubleQuote : string := String "034"%char EmptyString.

(** [error instanceof Error ? error.message : 'An unknown error occurred.'] *)
Definition serviceErrorMessage (e : Thrown) : string :=
  match e with
  | ErrorObject m => m
  | OtherValue => "An unknown error occurred."
  end.

Definition hasSources (o : option (list Source)) : bool :=
  match o with
  | Some (_ :: _) => true
  | _ => false
  end.

(** The loop of [streamWikiDefinition], [streamYouTubeSummary] and
    [streamWebResource]: a chunk is passed on when it has text or sources. *)
Definition groundedChunks (chunks : list SdkChunk) : list Signal :=
  flat_map
    (fun k => if Js.truthy (k_text k) || hasSources (k_sources k)
              then [Yield (Chunk (default "" (k_text k)) (k_sources k))]
              else [])
    chunks.

(** The loop of [streamInDocumentQuery], [streamImageAnalysis] and
    [streamTranslation]: a chunk is passed on when it has text. *)
Definition plainChunks (chunks : list SdkChunk) : list Signal :=
  flat_map
    (fun k => if Js.truthy (k_text k)
              then [Yield (Chunk (default "" (k_text k)) None)]
              else [])
    chunks.

(** The [catch] block shared by the streaming functions other than
    [streamTranslation]: an error event, then a thrown [Error]. *)
Definition reportAndThrow (describe : string) (e : Thrown) (now : Z)
  : list Signal :=
  [ Yield (ErrorEvent (describe +:+ serviceErrorMessage e));
    Throw (ErrorObject (serviceErrorMessage e)) now ].

Definition closeStream (describe : string) (e : SdkEnd) (now : Z)
  : list Signal :=
  match e with
  | SdkDone => [Return now]
  | SdkFails err => reportAndThrow describe err now
  end.

Definition streamWikiDefinition (topic : string) (chunks : list SdkChunk)
    (e : SdkEnd) (now : Z) : list Signal :=
  groundedChunks chunks
  ++ closeStream ("Could not generate content for " +:+ doubleQuote
                  +:+ topic +:+ doubleQuote +:+ ". ") e now.

Definition streamYouTubeSummary (chunks : list SdkChunk) (e : SdkEnd)
    (now : Z) : list Signal :=
  groundedChunks chunks
  ++ closeStream "Could not generate summary for the video. " e now.

Definition streamWebResource (chunks : list SdkChunk) (e : SdkEnd) (now : Z)
  : list Signal :=
  groundedChunks chunks
  ++ closeStream "Could not retrieve content from the URL. " e now.

Definition streamInDocumentQuery (query : string)
    (context : option string) (file : option FileData)
    (chunks : list SdkChunk) (e : SdkEnd) (now : Z) : list Signal :=
  if Js.truthy context || (match file with Some _ => true | None => false end)
  then plainChunks chunks
       ++ closeStream ("Could not answer question " +:+ doubleQuote
                       +:+ query +:+ doubleQuote +:+ ". ") e now
  else [ Throw (ErrorObject
                  "No document context or file data provided for query.")
           now ].

Definition streamImageAnalysis (chunks : list SdkChunk) (e : SdkEnd) (now : Z)
  : list Signal :=
  plainChunks chunks ++ closeStream "Could not analyze image. " e now.

(** [streamTranslation] reports a failure by an error event and then ends
    like a stream that completed. *)
Definition streamTranslation (chunks : list SdkChunk) (e : SdkEnd) (now : Z)
  : list Signal :=
  plainChunks chunks
  ++ match e with
     | SdkDone => [Return now]
     | SdkFails err =>
         [ Yield (ErrorEvent
                    ("Translation failed. "
                     +:+ match err with
                         | ErrorObject m => m
                         | OtherValue => ""
                         end));
           Return now ]
     end.

(** [performAiSearch]: the answer of the SDK, or its failure. *)
Definition performAiSearch (question : string)
    (response : (option string * option (list Source)) + Thrown) (now : Z)
  : list Signal :=
  match response with
  | inl (text, sources) => [Resolve (default "" text) (default [] sources) now]
  | inr err =>
      [ Throw (ErrorObject
                 ("Could not complete search for " +:+ doubleQuote
                  +:+ question +:+ doubleQuote +:+ ". "
                  +:+ serviceErrorMessage err)) now ]
  end.

(** The test at the head of [streamImageAnalysis]: the default description
    is asked for when the query is the placeholder. *)
Definition imageAnalysisIsDefault (query : string) : bool :=
  String.eqb query "Image Analysis".

(** ** Reading an uploaded file *)

Definition lineFeed : string := String "010"%char EmptyString.

(** [l.join(sep)] *)
Fixpoint joinWith (sep : string) (l : list string) : string :=
  match l with
  | [] => EmptyString
  | [x] => x
  | x :: rest => x +:+ sep +:+ joinWith sep rest
  end.

(** The loop of [extractTextFromPdf]; a page is the list of the strings of
    its text items. *)
Fixpoint pdfLoop (pageItems : list (list string)) (fullText : string)
    (pages : list string) : string * list string :=
  match pageItems with
  | [] => (fullText, pages)
  | items :: rest =>
      let pageText := joinWith " " items in
      if Js.nonEmpty (Js.trim pageText)
      then pdfLoop rest (fullText +:+ pageText +:+ lineFeed +:+ lineFeed)
             (pages ++ [Js.trim pageText])
      else pdfLoop rest fullText pages
  end.

Definition extractTextFromPdf (pageItems : list (list string))
  : string * list string :=
  let '(fullText, pages) := pdfLoop pageItems "" [] in
  (Js.trim fullText, pages).

(** The loop of [extractContentFromEpub]; a section is the text content of
    its body, or [None] when the section has no contents. *)
Fixpoint epubLoop (sections : list (option string)) (fullText : string)
    (pages : list string) : string * list string :=
  match sections with
  | [] => (fullText, pages)
  | None :: rest => epubLoop rest fullText pages
  | Some text :: rest =>
      let trimmedText := Js.trim text in
      if Js.nonEmpty trimmedText
      then epubLoop rest (fullText +:+ trimmedText +:+ lineFeed +:+ lineFeed)
             (pages ++ [trimmedText])
      else epubLoop rest fullText pages
  end.

Definition extractContentFromEpub (sections : list (option string))
  : string * list string :=
  let '(fullText, pages) := epubLoop sections "" [] in
  (Js.trim fullText, pages).

(** What the parsing libraries find in a file. *)
Inductive FileBody : Type :=
| EpubBody (sections : list (option string))
| PdfBody (pageItems : list (list string))
| DocxBody (rawText : string)
| TextBody (text : string)
| Unreadable.

Record UploadedFile : Type := {
  f_name : string;
  f_type : string;
  f_base64 : string;
  f_body : FileBody
}.

(** The inner [try] of [handleFileUpload]: the extractor is chosen by the
    declared type; when it throws, the text is empty. *)
Definition extractText (file : UploadedFile) : string * list string :=
  if String.eqb (f_type file) "application/epub+zip" then
    match f_body file with
    | EpubBody sections => extractContentFromEpub sections
    | _ => ("", [])
    end
  else if String.eqb (f_type file) "application/pdf" then
    match f_body file with
    | PdfBody pageItems => extractTextFromPdf pageItems
    | _ => ("", [])
    end
  else if String.eqb (f_type file)
            "application/vnd.openxmlformats-officedocument.wordprocessingml.document"
  then
    match f_body file with
    | DocxBody rawText => (rawText, [rawText])
    | _ => ("", [])
    end
  else if Js.startsWith "image/" (f_type file) then ("", [])
  else
    match f_body file with
    | TextBody text => (text, [text])
    | _ => ("", [])
    end.

(** [handleFileUpload] once the file has been read, for the tab [tid] that
    was active when the upload began. *)
Definition handleFileUploadDone (tid : string) (file : UploadedFile)
    (s : AppState) : AppState :=
  let '(text, pages) := extractText file in
  handleFileUploadRead tid (f_name file) (f_type file) (f_base64 file)
    text pages s.

Definition handleFileUpload (file : UploadedFile) (s : AppState) : AppState :=
  handleFileUploadDone (activeTabId s) file (handleFileUploadBegin s).

(** ** User intents as data

    What the user can ask of the active tab through the search bar, the
    rendered content and the pagination controls. *)

Inductive Intent : Type :=
| Submit (query : string)
| PickHistory (topic : string)
| WordClick (word : string)
| Random (randomIndex : nat)
| Back
| Forward
| ToggleWebSearch (isWeb : bool)
| ChangeLanguage (lang : string)
| Upload (file : UploadedFile)
| ClearDocument
| PrevPage
| NextPage
| PrevSection
| NextSection.

Definition applyIntent (s : AppState) (i : Intent) : AppState :=
  match i with
  | Submit query => handleSubmit query s
  | PickHistory topic => handleSearch topic s
  | WordClick word => handleWordClick word s
  | Random randomIndex => handleRandom randomIndex s
  | Back => handleBack s
  | Forward => handleForward s
  | ToggleWebSearch isWeb => onWebSearchModeChange isWeb s
  | ChangeLanguage lang => handleLanguageChange lang s
  | Upload file => handleFileUpload file s
  | ClearDocument => handleClearDocument s
  | PrevPage => handlePrevPage s
  | NextPage => handleNextPage s
  | PrevSection => handlePrevWebSection s
  | NextSection => handleNextWebSection s
  end.

(** What an intent may change: the active tab and the search history. *)
Definition framed (s s' : AppState) : Prop :=
  others (activeTabId s) (tabs s') = others (activeTabId s) (tabs s) /\
  map id (tabs s') = map id (tabs s) /\
  activeTabId s' = activeTabId s /\
  cache s' = cache s /\
  pendingDiagramsRef s' = pendingDiagramsRef s.

(** Every character of [s] satisfies [p]. *)
Fixpoint allChars (p : ascii -> bool) (s : string) : bool :=
  match s with
  | EmptyString => true
  | String c r => p c && allChars p r
  end.

(** A run of white space, or a run without white space. *)
Definition isRun (w : string) : bool :=
  Js.nonEmpty w
  && (allChars Js.isWhiteSpace w
      || allChars (fun c => negb (Js.isWhiteSpace c)) w).

(** ** The service behind a generation *)

(** What the SDK delivers: to [generateContentStream] the chunks and the way
    the stream ends, to [generateContent] an answer or a failure. *)
Record Sdk : Type := {
  sdk_chunks : list SdkChunk;
  sdk_end : SdkEnd;
  sdk_answer : (option string * option (list Source)) + Thrown
}.

(** The call [fetchData] or [fetchTranslation] makes for its strategy, with
    the arguments it takes from the tab it saw. *)
Definition callService (g : Generation) (sdk : Sdk) (now : Z) : list Signal :=
  let cur := g_snapshot g in
  match g_strategy g with
  | ImageAnalysis => streamImageAnalysis (sdk_chunks sdk) (sdk_end sdk) now
  | VideoSummary => streamYouTubeSummary (sdk_chunks sdk) (sdk_end sdk) now
  | WebResource => streamWebResource (sdk_chunks sdk) (sdk_end sdk) now
  | DocumentQuery _ =>
      streamInDocumentQuery (currentTopic cur) (documentContext cur)
        (fileData cur) (sdk_chunks sdk) (sdk_end sdk) now
  | WebSearch => performAiSearch (currentTopic cur) (sdk_answer sdk) now
  | WikiDefinition =>
      streamWikiDefinition (currentTopic cur) (sdk_chunks sdk) (sdk_end sdk)
        now
  | PageTranslation => streamTranslation (sdk_chunks sdk) (sdk_end sdk) now
  end.

(** The texts of the chunks of a stream, one after the other. *)
Definition sdkText (chunks : list SdkChunk) : string :=
  fold_right (fun k rest => default "" (k_text k) +:+ rest) "" chunks.

Definition isChunk (sig : Signal) : bool :=
  match sig with
  | Yield (Chunk _ _) => true
  | _ => false
  end.

Definition chunkText (sig : Signal) : string :=
  match sig with
  | Yield (Chunk text _) => text
  | _ => ""
  end.

Definition joined (sigs : list Signal) : string :=
  fold_right (fun sig rest => chunkText sig +:+ rest) "" sigs.

(** The tab a generation was started for. *)
Definition tabOf (g : Generation) (s : AppState) : option Tab :=
  List.find (fun t => String.eqb (id t) (g_tabId g)) (tabs s).

(** The fields of a tab that say what is asked for: the dependencies of the
    main effect other than [isLoading], and the two stacks. *)
Definition request (t : Tab) :=
  (id t, currentTopic t, (historyStack t, futureStack t), language t,
   (isWebSearchMode t, isEbookMode t),
   (documentName t, documentContext t, fileData t),
   (ebookPages t, currentPage t, webSectionIndex t)).

(** One run of the effect, and the generation it starts served by the SDK
    to its end; [later] is the clock reading at the end. *)
Definition serve (now later : Z) (sdk : Sdk) (s : AppState) : AppState :=
  match runEffect now s with
  | (s1, Some g) => snd (run g (callService g sdk later) s1)
  | (s1, None) => s1
  end.

(** * Properties *)

(** ** Records and updates *)

Lemma spread_id (u : Updates) (t : Tab) : keepsId u -> id (spread t u) = id t.
Proof.
  unfold spread; intros Hu; revert t.
  induction Hu as [|f u Hf _ IH]; intros t; simpl; [reflexivity|].
  rewrite IH; apply Hf.
Qed.

Ltac keeps_id := repeat (constructor; [intros ?; reflexivity|]); constructor.

Lemma activeById_activeTab (s : AppState) (t : Tab) :
  activeById s = Some t -> activeTab s = Some t.
Proof. unfold activeTab; intros ->; reflexivity. Qed.

Lemma find_updateTab (tid : string) (u : Updates) (ts : list Tab) :
  keepsId u ->
  List.find (fun t => String.eqb (id t) tid) (updateTab tid u ts)
  = (fun t => spread t u) <$> List.find (fun t => String.eqb (id t) tid) ts.
Proof.
  intros Hu; induction ts as [|t ts IH]; simpl; [reflexivity|].
  destruct (String.eqb (id t) tid) eqn:E.
  - rewrite (spread_id u t Hu), E; reflexivity.
  - rewrite E; exact IH.
Qed.

Lemma activeById_update (u : Updates) (s : AppState) (t : Tab) :
  keepsId u -> activeById s = Some t ->
  activeById (updateActiveTab u s) = Some (spread t u).
Proof.
  unfold activeById; intros Hu Ht.
  destruct s as [ts aid c h r1 r2 p]; simpl in *.
  rewrite find_updateTab by exact Hu. rewrite Ht; reflexivity.
Qed.

Lemma others_updateTab (tid : string) (u : Updates) (ts : list Tab) :
  keepsId u -> others tid (updateTab tid u ts) = others tid ts.
Proof.
  intros Hu; induction ts as [|t ts IH]; simpl; [reflexivity|].
  destruct (String.eqb (id t) tid) eqn:E; simpl.
  - rewrite (spread_id u t Hu), E; simpl; exact IH.
  - rewrite E; simpl; rewrite IH; reflexivity.
Qed.

Lemma Forall_updateTab (tid : string) (u : Updates) (ts : list Tab)
    (Q R : Tab -> Prop) :
  keepsId u ->
  Forall (fun t => id t = tid -> Q t) ts ->
  (forall t, Q t -> R (spread t u)) ->
  Forall (fun t => id t = tid -> R t) (updateTab tid u ts).
Proof.
  intros Hu HQ HR. induction HQ as [|t ts Ht _ IH]; simpl; constructor;
    [|exact IH].
  destruct (String.eqb_spec (id t) tid) as [E|E].
  - intros _. apply HR, Ht, E.
  - intros E'; contradiction.
Qed.

(** ** Sanity checks of the embedding on concrete inputs *)

Example youtube_short_link : isYouTubeUrlRe "https://youtu.be/abc123" = true.
Proof. reflexivity. Qed.

Example youtube_needs_a_path : isYouTubeUrlRe "youtu.be/" = false.
Proof. reflexivity. Qed.

Example url_needs_a_dot : isUrlRe "http://localhost" = false.
Proof. reflexivity. Qed.

Example trim_both_ends : Js.trim "  Hyper text  " = "Hyper text".
Proof. reflexivity. Qed.

Example diagram_scan :
  diagramPrompts "a [DIAGRAM: cat] b [DIAGRAM:dog] [DIAGRAM: cat"
  = ["cat"; "dog"].
Proof. reflexivity. Qed.

Example mount_starts_hypertext :
  mainEffect (mountEffect initialState)
  = LaunchFetch WikiDefinition "wiki:hypertext:0:English".
Proof. vm_compute. reflexivity. Qed.

(** ** The fingerprint of the opening topic *)

(** The default tab once the mount effect has asked for "Hypertext". *)
Lemma hypertext_tab :
  activeById (mountEffect initialState)
  = Some (spread (createNewTab "default-tab")
            [set_currentTopic "Hypertext"; set_isLoading true;
             set_title "Hypertext"]).
Proof. reflexivity. Qed.

(** C6, as stated, fails: for the topic "Hypertext" in English with no
    document loaded the strategy is the definition lookup, but the
    fingerprint is not [wiki::hypertext:0:English]. *)
Lemma C6_fingerprint_has_one_colon :
  exists t, activeById (mountEffect initialState) = Some t /\
    currentTopic t = "Hypertext" /\ language t = "English" /\
    documentName t = None /\ documentContext t = None /\ fileData t = None /\
    ~ (selectStrategy t = WikiDefinition /\
       cacheKey t = "wiki::hypertext:0:English").
Proof.
  eexists; split; [apply hypertext_tab|].
  repeat (split; [reflexivity|]).
  intros [_ H]; vm_compute in H; discriminate H.
Qed.

(** C6, amended: with web-search mode off and the section index at 0, the
    topic "Hypertext" in English with no document loaded is routed to the
    definition lookup and its fingerprint is [wiki:hypertext:0:English];
    two tabs that agree on the mode, the document name, the lower-cased
    topic, the section index and the language have the same fingerprint. *)
Theorem C6_hypertext_fingerprint :
  (forall t : Tab,
      currentTopic t = "Hypertext" -> language t = "English" ->
      documentName t = None -> documentContext t = None ->
      fileData t = None -> isWebSearchMode t = false ->
      webSectionIndex t = 0 ->
      selectStrategy t = WikiDefinition /\
      cacheKey t = "wiki:hypertext:0:English") /\
  (forall t1 t2 : Tab,
      isWebSearchMode t1 = isWebSearchMode t2 ->
      documentName t1 = documentName t2 ->
      Js.toLowerCase (currentTopic t1) = Js.toLowerCase (currentTopic t2) ->
      webSectionIndex t1 = webSectionIndex t2 ->
      language t1 = language t2 ->
      cacheKey t1 = cacheKey t2).
Proof.
  split.
  - intros t Htopic Hlang Hname Hctx Hfile Hweb Hidx.
    unfold selectStrategy, cacheKey, hasImage, hasFile.
    rewrite Htopic, Hlang, Hname, Hctx, Hfile, Hweb, Hidx.
    split; reflexivity.
  - intros t1 t2 Hweb Hname Htopic Hidx Hlang.
    unfold cacheKey. rewrite Hweb, Hname, Htopic, Hidx, Hlang. reflexivity.
Qed.

Lemma C6_hypertext_fingerprint_witness :
  selectStrategy
    (spread (createNewTab "default-tab")
       [set_currentTopic "Hypertext"; set_isLoading true;
        set_title "Hypertext"]) = WikiDefinition /\
  cacheKey
    (spread (createNewTab "default-tab")
       [set_currentTopic "Hypertext"; set_isLoading true;
        set_title "Hypertext"]) = "wiki:hypertext:0:English".
Proof.
  apply (proj1 C6_hypertext_fingerprint); reflexivity.
Defined.

(** ** The session store is never empty *)

Lemma handleCloseTab_nonempty (tid newId : string) (s : AppState) :
  tabs (handleCloseTab tid newId s) <> [].
Proof.
  unfold handleCloseTab.
  destruct (last (List.filter _ (tabs s))) as [lastTab|] eqn:E.
  - assert (Hne : List.filter
                    (fun t => negb (String.eqb (id t) tid)) (tabs s) <> []).
    { intros Hnil; rewrite Hnil in E; discriminate E. }
    destruct (String.eqb tid (activeTabId s)); destruct s; exact Hne.
  - destruct s; discriminate.
Qed.

Lemma applyTabOp_nonempty (s : AppState) (op : TabOp) :
  tabs s <> [] -> tabs (applyTabOp s op) <> [].
Proof.
  intros Hs; destruct op as [newId|tid|tid newId]; simpl.
  - destruct s as [ts ? ? ? ? ? ?]; simpl in *.
    destruct ts; [congruence|discriminate].
  - destruct s; exact Hs.
  - apply handleCloseTab_nonempty.
Qed.

(** C9: the store is built with one default session, and after any sequence
    of tab operations (new tab, switch, close) it holds at least one
    session; closing the last one leaves exactly one fresh default
    session. *)
Theorem C9_store_never_empty :
  tabs initialState = [createNewTab "default-tab"] /\
  (forall ops : list TabOp, tabs (fold_left applyTabOp ops initialState) <> []) /\
  (forall (s : AppState) (t : Tab) (newId : string),
      tabs (handleCloseTab (id t) newId (with_tabs [t] s))
      = [createNewTab newId]).
Proof.
  split; [reflexivity|]. split.
  - intros ops.
    assert (H : forall s, tabs s <> [] ->
                          tabs (fold_left applyTabOp ops s) <> []).
    { induction ops as [|op ops IH]; intros s Hs; simpl; [exact Hs|].
      apply IH, applyTabOp_nonempty, Hs. }
    apply H; discriminate.
  - intros s t newId. unfold handleCloseTab.
    destruct s as [ts ? ? ? ? ? ?]; simpl.
    rewrite String.eqb_refl; reflexivity.
Qed.

(** ** Local pagination *)

(** C10: with no local page and the page index at 0, the next-page
    operation stores -1 in the page index, which is then outside
    [0, pageCount-1]; the previous-page operation never stores a negative
    index. *)
Theorem C10_next_page_without_pages :
  (forall (s : AppState) (t : Tab),
      activeById s = Some t -> ebookPages t = [] -> currentPage t = 0 ->
      exists t', activeById (handleNextPage s) = Some t' /\
                 currentPage t' = -1) /\
  (forall (s : AppState) (t : Tab),
      activeById s = Some t ->
      exists t', activeById (handlePrevPage s) = Some t' /\
                 0 <= currentPage t').
Proof.
  split.
  - intros s t Ht Hpages Hpage.
    unfold handleNextPage, withActive.
    rewrite (activeById_activeTab s t Ht).
    eexists; split; [apply activeById_update; [keeps_id|exact Ht]|].
    simpl. rewrite Hpages, Hpage. reflexivity.
  - intros s t Ht.
    unfold handlePrevPage, withActive.
    rewrite (activeById_activeTab s t Ht).
    eexists; split; [apply activeById_update; [keeps_id|exact Ht]|].
    simpl. lia.
Qed.

(** The default tab after a binary attachment has been stored in it: no
    page, page index 0. *)
Lemma C10_next_page_without_pages_witness :
  exists t', activeById
               (handleNextPage
                  (handleFileUploadRead "default-tab" "scan.bin" "" "AAAA" ""
                     [] (handleFileUploadBegin initialState))) = Some t' /\
             currentPage t' = -1.
Proof.
  apply (proj1 C10_next_page_without_pages
           (handleFileUploadRead "default-tab" "scan.bin" "" "AAAA" "" []
              (handleFileUploadBegin initialState))
           (spread (createNewTab "default-tab")
              [ set_isLoading true; set_error None;
                set_fileData
                  (Some {| base64 := "AAAA";
                           mimeType := "application/octet-stream" |});
                set_documentContext None;
                set_ebookPages [];
                set_documentName (Some "scan.bin");
                set_isEbookMode true;
                set_isWebSearchMode false;
                set_content (Some "");
                set_currentTopic "Analyze Document";
                set_title "scan.bin";
                set_historyStack [];
                set_isLoading true ]));
    vm_compute; reflexivity.
Defined.

(** ** History navigation *)

Lemma iter_succ_r {A : Type} (n : nat) (f : A -> A) (x : A) :
  iter (S n) f x = f (iter n f x).
Proof.
  revert x; induction n as [|n IH]; intros x; [reflexivity|].
  change (iter (S (S n)) f x) with (iter (S n) f (f x)).
  rewrite IH; reflexivity.
Qed.

Lemma handleBack_active (s : AppState) (t : Tab) (h : list string)
    (p : string) :
  activeById s = Some t -> historyStack t = (h ++ [p])%list ->
  exists t1, activeById (handleBack s) = Some t1 /\
    historyStack t1 = h /\ currentTopic t1 = p /\
    futureStack t1 = currentTopic t :: futureStack t /\
    webSectionIndex t1 = 0.
Proof.
  intros Ht Hh. unfold handleBack, withActive.
  rewrite (activeById_activeTab s t Ht), Hh, last_snoc.
  eexists; split; [apply activeById_update; [keeps_id|exact Ht]|].
  simpl. rewrite removelast_last. repeat split.
Qed.

Lemma handleForward_active (s : AppState) (t : Tab) (x : string)
    (f : list string) :
  activeById s = Some t -> futureStack t = x :: f ->
  exists t1, activeById (handleForward s) = Some t1 /\
    historyStack t1 = (historyStack t ++ [currentTopic t])%list /\
    currentTopic t1 = x /\ futureStack t1 = f /\ webSectionIndex t1 = 0.
Proof.
  intros Ht Hf. unfold handleForward, withActive.
  rewrite (activeById_activeTab s t Ht), Hf.
  eexists; split; [apply activeById_update; [keeps_id|exact Ht]|].
  simpl. repeat split.
Qed.

Lemma handleBack_empty (s : AppState) (t : Tab) :
  activeTab s = Some t -> historyStack t = [] -> handleBack s = s.
Proof.
  intros Ht Hh. unfold handleBack, withActive. rewrite Ht, Hh. reflexivity.
Qed.

Lemma handleForward_empty (s : AppState) (t : Tab) :
  activeTab s = Some t -> futureStack t = [] -> handleForward s = s.
Proof.
  intros Ht Hf. unfold handleForward, withActive. rewrite Ht, Hf. reflexivity.
Qed.

Lemma back_forward_round_trip (n : nat) :
  forall (s : AppState) (t : Tab),
    activeById s = Some t -> (n <= length (historyStack t))%nat ->
    exists t', activeById (iter n handleForward (iter n handleBack s)) = Some t' /\
      currentTopic t' = currentTopic t /\
      historyStack t' = historyStack t /\
      futureStack t' = futureStack t /\
      webSectionIndex t' = match n with O => webSectionIndex t | S _ => 0 end.
Proof.
  induction n as [|n IH]; intros s t Ht Hn.
  - exists t; simpl; auto.
  - destruct (historyStack t) as [|a l] eqn:Hh using rev_ind;
      [simpl in Hn; lia|]. clear IHl.
    rewrite length_app in Hn; simpl in Hn.
    destruct (handleBack_active s t l a Ht Hh)
      as (t1 & Ht1 & Hh1 & Hc1 & Hf1 & _).
    destruct (IH (handleBack s) t1 Ht1) as (t2 & Ht2 & Hc2 & Hh2 & Hf2 & _);
      [rewrite Hh1; lia|].
    rewrite iter_succ_r.
    change (iter (S n) handleBack s) with (iter n handleBack (handleBack s)).
    destruct (handleForward_active _ t2 (currentTopic t) (futureStack t) Ht2)
      as (t3 & Ht3 & Hh3 & Hc3 & Hf3 & Hw3); [congruence|].
    exists t3; repeat split; try assumption.
    rewrite Hh3, Hh2, Hc2, Hh1, Hc1; reflexivity.
Qed.

(** C4, as stated, fails: from a web resource read up to its third section
    (remote section index 2), reached through the topics "a" and "b", one
    [back()] followed by one [forward()] restores the topic but leaves the
    remote section index at 0. *)
Lemma C4_section_index_not_restored :
  activeById navState = Some navTab /\
  historyStack navTab = ["a"; "b"] /\
  currentTopic navTab = "https://example.org/book" /\
  isLoading navTab = false /\
  webSectionIndex navTab = 2 /\
  exists t', activeById (iter 1 handleForward (iter 1 handleBack navState))
             = Some t' /\
    currentTopic t' = currentTopic navTab /\
    webSectionIndex t' = 0 /\
    webSectionIndex t' <> webSectionIndex navTab.
Proof.
  repeat match goal with |- _ /\ _ => split end;
    try (vm_compute; reflexivity).
  eexists; split; [vm_compute; reflexivity|].
  repeat match goal with |- _ /\ _ => split end;
    try (vm_compute; reflexivity).
  discriminate.
Qed.

(** C4, amended: N [back()] calls followed by N [forward()] calls, N at
    most the depth of the history stack, return the current topic and both
    stacks to their original values and, when N is at least 1, leave the
    remote section index at its default 0 (so it is restored only if it was
    0); [back()] changes nothing when the history stack is empty and
    [forward()] changes nothing when the future stack is empty. *)
Theorem C4_history_round_trip :
  forall (s : AppState) (t : Tab),
    activeById s = Some t ->
    (forall n : nat, (n <= length (historyStack t))%nat ->
       exists t', activeById (iter n handleForward (iter n handleBack s))
                  = Some t' /\
         currentTopic t' = currentTopic t /\
         historyStack t' = historyStack t /\
         futureStack t' = futureStack t /\
         webSectionIndex t'
         = match n with O => webSectionIndex t | S _ => 0 end) /\
    (historyStack t = [] -> handleBack s = s) /\
    (futureStack t = [] -> handleForward s = s).
Proof.
  intros s t Ht. split; [|split].
  - intros n Hn. apply back_forward_round_trip; assumption.
  - apply handleBack_empty, activeById_activeTab, Ht.
  - apply handleForward_empty, activeById_activeTab, Ht.
Qed.

Lemma C4_history_round_trip_witness :
  exists t', activeById (iter 2 handleForward (iter 2 handleBack navState))
             = Some t' /\
    currentTopic t' = currentTopic navTab /\
    historyStack t' = historyStack navTab /\
    futureStack t' = futureStack navTab /\
    webSectionIndex t' = 0.
Proof.
  apply (proj1 (C4_history_round_trip navState navTab
                  ltac:(vm_compute; reflexivity)) 2%nat).
  vm_compute. lia.
Defined.

(** ** The topic router *)

Lemma youtube_topic_nonempty (topic : string) :
  isYouTubeUrlRe (Js.trim topic) = true -> Js.nonEmpty topic = true.
Proof. destruct topic; [discriminate|reflexivity]. Qed.

Lemma mainEffect_loading (s : AppState) (t : Tab) :
  activeTab s = Some t -> Js.nonEmpty (currentTopic t) = true ->
  inEbookTextMode t = false -> isLoading t = true ->
  mainEffect s = LaunchFetch (selectStrategy t) (cacheKey t).
Proof.
  intros Ht Htopic Hmode Hload. unfold mainEffect, withActive.
  rewrite Ht, Htopic, Hmode, Hload. simpl.
  destruct (cache s !! cacheKey t); reflexivity.
Qed.

(** C8, as stated, fails: with an image attached and web-search mode on, the
    topic "https://youtu.be/abc123" matches the YouTube pattern and is routed
    to image analysis. *)
Lemma C8_image_outranks_youtube :
  exists t, activeById imageThenLink = Some t /\
    currentTopic t = "https://youtu.be/abc123" /\
    isYouTubeUrlRe (Js.trim (currentTopic t)) = true /\
    isWebSearchMode t = true /\
    selectStrategy t = ImageAnalysis /\
    selectStrategy t <> VideoSummary /\
    mainEffect imageThenLink = LaunchFetch ImageAnalysis (cacheKey t).
Proof.
  eexists; split; [vm_compute; reflexivity|].
  repeat split; try (vm_compute; reflexivity). discriminate.
Qed.

(** C8, amended: when no attachment with an image mime type is present,
    every topic whose trimmed text matches the YouTube URL pattern is routed
    to the video summary, whether web-search mode is on or off; with
    web-search mode on, the effect of a loading tab starts that generation.
    In particular "https://youtu.be/abc123" with web-search mode on is a
    video summary. *)
Theorem C8_youtube_outranks_search :
  forall t : Tab,
    isYouTubeUrlRe (Js.trim (currentTopic t)) = true ->
    hasImage t = false ->
    selectStrategy t = VideoSummary /\
    (forall s : AppState,
        activeTab s = Some t -> isWebSearchMode t = true ->
        isLoading t = true ->
        mainEffect s = LaunchFetch VideoSummary (cacheKey t)).
Proof.
  intros t Hyt Himg.
  assert (Hsel : selectStrategy t = VideoSummary).
  { unfold selectStrategy. rewrite Himg, Hyt. reflexivity. }
  split; [exact Hsel|].
  intros s Ht Hweb Hload. rewrite <- Hsel.
  apply mainEffect_loading; try assumption.
  - apply youtube_topic_nonempty, Hyt.
  - unfold inEbookTextMode. rewrite Hweb.
    destruct (isEbookMode t); reflexivity.
Qed.

Lemma C8_youtube_outranks_search_witness :
  selectStrategy
    (spread (createNewTab "default-tab")
       [ set_isWebSearchMode true;
         set_currentTopic "https://youtu.be/abc123" ]) = VideoSummary.
Proof.
  apply (C8_youtube_outranks_search
           (spread (createNewTab "default-tab")
              [ set_isWebSearchMode true;
                set_currentTopic "https://youtu.be/abc123" ]));
    reflexivity.
Defined.

(** ** The result cache *)

Lemma step_return (g : Generation) (now : Z) (s : AppState) :
  g_done g = false -> g_strategy g <> PageTranslation ->
  g_strategy g <> WebSearch ->
  step g (Return now) s = (gen_finish g, finallyBlock g now s).
Proof.
  intros Hdone Hnt Hns. unfold step, fetchDataStep. rewrite Hdone.
  destruct (g_strategy g) eqn:E; try reflexivity; congruence.
Qed.

Lemma step_throw (g : Generation) (e : Thrown) (now : Z) (s : AppState) :
  g_done g = false -> g_strategy g <> PageTranslation ->
  step g (Throw e now) s
  = (gen_finish g, finallyBlock g now (catchBlock g e s)).
Proof.
  intros Hdone Hnt. unfold step, fetchDataStep. rewrite Hdone.
  destruct (g_strategy g) eqn:E; try reflexivity; congruence.
Qed.

Lemma finallyBlock_cache (g : Generation) (now : Z) (s : AppState) :
  g_cancelled g = false ->
  cache (finallyBlock g now s) !! g_cacheKey g
  = Some {| c_content := finalContentRef s;
            c_generationTime := Some (now - g_startTime g);
            c_sources := Some (finalSourcesRef s);
            c_language := Some (language (g_snapshot g)) |}.
Proof.
  intros Hc. unfold finallyBlock. rewrite Hc. destruct s; simpl.
  apply lookup_insert_eq.
Qed.

(** After a chunk, the shared ref and the tab the generation was started for
    both hold the text accumulated so far. *)
Lemma chunk_sets_ref_and_content (g : Generation) (text : string)
    (src : option (list Source)) (s : AppState) :
  g_done g = false -> g_cancelled g = false ->
  g_strategy g <> PageTranslation -> g_strategy g <> WebSearch ->
  finalContentRef (snd (step g (Yield (Chunk text src)) s))
  = g_acc (fst (step g (Yield (Chunk text src)) s)) /\
  Forall (fun t => id t = g_tabId g ->
                   content t
                   = Some (g_acc (fst (step g (Yield (Chunk text src)) s))))
    (tabs (snd (step g (Yield (Chunk text src)) s))).
Proof.
  intros Hdone Hc Hnt Hns. unfold step, fetchDataStep, onChunk.
  rewrite Hdone, Hc.
  destruct (g_strategy g) eqn:E; try congruence; try destruct src;
    destruct s; simpl; (split; [reflexivity|]);
    (eapply Forall_updateTab with (Q := fun _ => True);
     [keeps_id | apply Forall_forall; auto | intros t _; reflexivity]).
Qed.





(** ** Stream errors *)




(** ** Page translation *)

Lemma mainEffect_translation (s : AppState) (t : Tab) :
  activeTab s = Some t -> Js.nonEmpty (currentTopic t) = true ->
  inEbookTextMode t = true -> isTranslationNeeded t = true ->
  isLoading t = true ->
  mainEffect s
  = LaunchTranslation
      (default "" (Js.index (ebookPages t) (currentPage t))) (language t).
Proof.
  intros Ht Htopic Hmode Htr Hload. unfold mainEffect, withActive.
  rewrite Ht, Htopic, Hmode, Htr, Hload. reflexivity.
Qed.





(** ** Isolation of sessions *)

(** Whatever a generation does on a signal, the tabs other than the one it
    was started for are left as they were. *)
Lemma step_others (g : Generation) (sig : Signal) (s : AppState) :
  others (g_tabId g) (tabs (snd (step g sig s)))
  = others (g_tabId g) (tabs s).
Proof.
  unfold step. destruct (g_done g); [reflexivity|].
  unfold fetchDataStep, fetchTranslationStep, onChunk, finallyBlock,
    catchBlock.
  destruct (g_strategy g);
    destruct sig as [[text src|msg]|now|e now|text src now];
    destruct (g_cancelled g); try destruct src; destruct s; simpl;
    rewrite ?others_updateTab by keeps_id; reflexivity.
Qed.

(** A cancelled run of [fetchData] changes nothing: no tab, no cache entry,
    no ref. *)
Lemma fetch_cancelled_silent (g : Generation) (sig : Signal) (s : AppState) :
  g_cancelled g = true -> g_strategy g <> PageTranslation ->
  snd (step g sig s) = s.
Proof.
  intros Hc Hnt. unfold step. destruct (g_done g); [reflexivity|].
  unfold fetchDataStep, finallyBlock, catchBlock. rewrite Hc.
  destruct (g_strategy g) eqn:E; try congruence;
    destruct sig as [[text src|msg]|now|e now|text src now]; reflexivity.
Qed.

Lemma step_keeps_identity (g : Generation) (sig : Signal) (s : AppState) :
  g_cancelled (fst (step g sig s)) = g_cancelled g /\
  g_strategy (fst (step g sig s)) = g_strategy g /\
  g_tabId (fst (step g sig s)) = g_tabId g.
Proof.
  unfold step. destruct (g_done g); [auto|].
  unfold fetchDataStep, fetchTranslationStep, onChunk.
  destruct (g_strategy g) eqn:E;
    destruct sig as [[text src|msg]|now|e now|text src now];
    destruct (g_cancelled g) eqn:C; simpl; rewrite ?E; auto.
Qed.

(** Once a run of [fetchData] has been cancelled, the shared state and the
    other generation evolve, under any interleaving, exactly as if none of
    its signals had arrived. *)
Lemma cancelled_fetch_is_not_heard (trace : list (Who * Action)) :
  forall w w' : World,
    w_state w = w_state w' -> w_genB w = w_genB w' ->
    g_cancelled (w_genA w) = true ->
    g_strategy (w_genA w) <> PageTranslation ->
    w_state (runWorld w trace)
    = w_state (runWorld w' (List.filter isGenB trace)) /\
    w_genB (runWorld w trace)
    = w_genB (runWorld w' (List.filter isGenB trace)).
Proof.
  unfold runWorld.
  induction trace as [|[[|] act] trace IH]; intros w w' Hs Hb Hc Hnt; simpl.
  - auto.
  - apply IH; destruct act as [sig|]; simpl.
    + destruct (step (w_genA w) sig (w_state w)) as [g s] eqn:E; simpl.
      rewrite <- Hs. change s with (snd (g, s)). rewrite <- E.
      apply fetch_cancelled_silent; assumption.
    + exact Hs.
    + destruct (step (w_genA w) sig (w_state w)); exact Hb.
    + exact Hb.
    + destruct (step_keeps_identity (w_genA w) sig (w_state w))
        as (H1 & _ & _).
      destruct (step (w_genA w) sig (w_state w)); simpl in *; congruence.
    + reflexivity.
    + destruct (step_keeps_identity (w_genA w) sig (w_state w))
        as (_ & H2 & _).
      destruct (step (w_genA w) sig (w_state w)); simpl in *; congruence.
    + exact Hnt.
  - apply IH; destruct act as [sig|]; simpl; rewrite ?Hs, ?Hb;
      try destruct (step (w_genB w') sig (w_state w')); simpl; auto.
Qed.

(** C2: the code departs from the claim in [fetchTranslation].  The first
    tab is waiting for the translation of page 1 when the user opens a second
    tab, which cancels the translation, and asks for "Cats" there.  The next
    chunk of the cancelled translation still clears the loading flag of the
    first tab.  The second tab and its generation are not touched. *)
Theorem C2_cancelled_translation_still_updates :
  snd (runEffect 0 bookInFrench) = Some pageOneGeneration /\
  g_cancelled (w_genA twoGenerations) = true /\
  g_tabId (w_genA twoGenerations) = "default-tab" /\
  g_tabId (w_genB twoGenerations) = "tab-b" /\
  g_cancelled (w_genB twoGenerations) = false /\
  map id (tabs (w_state twoGenerations)) = ["default-tab"; "tab-b"] /\
  map isLoading (tabs (w_state twoGenerations)) = [true; true] /\
  map isLoading
    (tabs (w_state (runWorld twoGenerations
                      [(GenA, Deliver (Yield (Chunk "page" None)))])))
  = [false; true] /\
  w_state (runWorld twoGenerations
             [(GenA, Deliver (Yield (Chunk "page" None)))])
  <> w_state twoGenerations /\
  others "default-tab"
    (tabs (w_state (runWorld twoGenerations
                      [(GenA, Deliver (Yield (Chunk "page" None)))])))
  = others "default-tab" (tabs (w_state twoGenerations)).
Proof.
  repeat match goal with |- _ /\ _ => split end;
    try (vm_compute; reflexivity).
  intros H. apply (f_equal (fun s => map isLoading (tabs s))) in H.
  vm_compute in H. discriminate H.
Qed.

(** ** Diagram requests *)

Lemma requestDiagrams_fresh (cur : Tab) (prompts : list string) :
  forall pending : gset string,
    NoDup (snd (requestDiagrams cur prompts pending)) /\
    (forall p, In p (snd (requestDiagrams cur prompts pending)) ->
               (p ∉ pending) /\ diagramKnown cur p = false) /\
    (forall p, (p ∈ fst (requestDiagrams cur prompts pending)) <->
               (p ∈ pending) \/
               In p (snd (requestDiagrams cur prompts pending))).
Proof.
  induction prompts as [|q rest IH]; intros pending; simpl.
  - split; [constructor|]. split; [intros p []|]. intros p; tauto.
  - destruct (diagramKnown cur q) eqn:K; simpl; [apply IH|].
    destruct (bool_decide (q ∈ pending)) eqn:D; simpl; [apply IH|].
    destruct (IH ({[q]} ∪ pending)) as (Hnd & Hfresh & Hpend).
    destruct (requestDiagrams cur rest ({[q]} ∪ pending)) as [pending' issued].
    simpl in *. split; [|split].
    + constructor; [|exact Hnd].
      intros Hin. apply list_elem_of_In, Hfresh in Hin.
      destruct Hin as [Hin _]. apply Hin, elem_of_union. left.
      apply elem_of_singleton. reflexivity.
    + intros p [<-|Hin]; [split; [|exact K]|].
      * apply bool_decide_eq_false in D. exact D.
      * destruct (Hfresh p Hin) as [Hp Hk]. split; [|exact Hk].
        intros Hmem. apply Hp, elem_of_union. right. exact Hmem.
    + intros p. rewrite Hpend, elem_of_union, elem_of_singleton.
      intuition congruence.
Qed.

(** Within one run of the diagram effect no prompt is requested twice,
    however often its marker occurs in the content. *)
Lemma diagramEffect_no_duplicate (s : AppState) :
  NoDup (map d_prompt (snd (diagramEffect s))).
Proof.
  unfold diagramEffect, withActive.
  destruct (activeTab s) as [cur|]; [|constructor].
  destruct (negb (Js.truthy (content cur))); [constructor|].
  pose proof (requestDiagrams_fresh cur
                (diagramPrompts (default "" (content cur)))
                (pendingDiagramsRef s)) as (Hnd & _).
  destruct (requestDiagrams cur _ (pendingDiagramsRef s)) as [pending issued].
  simpl in *. rewrite map_map. simpl. rewrite map_id. exact Hnd.
Qed.

(** C5: the code departs from the claim.  The first tab requests the
    diagram "cat" once although its content names it twice; while that
    request is outstanding a second tab receives a content with the same
    marker and has no image for it, yet no request is issued for it,
    because the pending set is the one the first tab filled.  When the
    request resolves, only the first tab receives the image. *)
Theorem C5_pending_set_is_shared :
  snd (diagramEffect catsInFirstTab)
  = [{| d_tabId := "default-tab"; d_prompt := "cat" |}] /\
  (exists t,
      activeById catsInSecondTab = Some t /\
      id t = "tab-b" /\
      content t = Some "More cats. [DIAGRAM: cat]" /\
      diagramPrompts (default "" (content t)) = ["cat"] /\
      diagramKnown t "cat" = false) /\
  snd (diagramEffect catsInSecondTab) = [] /\
  map (fun t => generatedDiagrams t !! "cat")
    (tabs (diagramResolved {| d_tabId := "default-tab"; d_prompt := "cat" |}
             "iVBORw0KGgo=" catsInSecondTab))
  = [Some "iVBORw0KGgo="; None].
Proof.
  split; [vm_compute; reflexivity|].
  split; [eexists; split; [vm_compute; reflexivity|];
          repeat match goal with |- _ /\ _ => split end;
          vm_compute; reflexivity|].
  split; vm_compute; reflexivity.
Qed.

(** * Further properties of the component *)

(** ** Trimmed queries *)

Lemma trimStart_head (s : string) :
  Js.trimStart s = EmptyString \/
  exists c r, Js.trimStart s = String c r /\ Js.isWhiteSpace c = false.
Proof.
  induction s as [|c r IH]; simpl; [left; reflexivity|].
  destruct (Js.isWhiteSpace c) eqn:E; [exact IH|].
  right; exists c, r; split; [reflexivity|exact E].
Qed.

Lemma trimEnd_idem (s : string) : Js.trimEnd (Js.trimEnd s) = Js.trimEnd s.
Proof.
  induction s as [|c r IH]; simpl; [reflexivity|].
  destruct (Js.trimEnd r) as [|d r'] eqn:E.
  - destruct (Js.isWhiteSpace c) eqn:W; simpl; [reflexivity|].
    rewrite W; reflexivity.
  - simpl. simpl in IH. rewrite IH. reflexivity.
Qed.

Lemma trimEnd_head (c : ascii) (r : string) :
  Js.isWhiteSpace c = false ->
  exists r', Js.trimEnd (String c r) = String c r'.
Proof.
  intros W; simpl. destruct (Js.trimEnd r) as [|d r'].
  - rewrite W; eexists; reflexivity.
  - eexists; reflexivity.
Qed.

Lemma trim_idem (s : string) : Js.trim (Js.trim s) = Js.trim s.
Proof.
  unfold Js.trim.
  destruct (trimStart_head s) as [E|(c & r & E & W)]; rewrite E.
  - reflexivity.
  - destruct (trimEnd_head c r W) as [r' E'].
    rewrite E'. simpl Js.trimStart. rewrite W. rewrite <- E'.
    apply trimEnd_idem.
Qed.

Lemma activeById_searchHistory (h : list string) (s : AppState) :
  activeById (with_searchHistory h s) = activeById s.
Proof. destruct s; reflexivity. Qed.

Lemma handleTopicChange_active (newTopic : string) (s : AppState) (t : Tab) :
  activeById s = Some t -> Js.nonEmpty newTopic = true ->
  exists t1, activeById (handleTopicChange newTopic s) = Some t1 /\
    currentTopic t1 = newTopic /\
    futureStack t1 = [] /\
    historyStack t1
    = (if Js.nonEmpty (currentTopic t)
       then (historyStack t ++ [currentTopic t])%list
       else historyStack t) /\
    content t1 = Some "" /\ isLoading t1 = true /\ error t1 = None /\
    webSectionIndex t1 = 0 /\ generatedDiagrams t1 = ∅ /\
    language t1 = language t /\ isWebSearchMode t1 = isWebSearchMode t.
Proof.
  intros Ht Hn. unfold handleTopicChange, withActive.
  rewrite Hn, (activeById_activeTab s t Ht). simpl.
  eexists; split.
  - apply activeById_update; [keeps_id|].
    rewrite activeById_searchHistory. exact Ht.
  - simpl. repeat (split; [reflexivity|]). reflexivity.
Qed.

(** X1: a blank query, or a query typed while the tab is loading, changes
    nothing; any other query makes its trimmed text the current topic, with
    no white space left around it, and marks the tab loading with an empty
    content and an empty future stack. *)
Theorem submit_searches_the_trimmed_query :
  forall (query : string) (s : AppState) (t : Tab),
    activeById s = Some t ->
    (Js.nonEmpty (Js.trim query) = false -> handleSubmit query s = s) /\
    (Js.nonEmpty (Js.trim query) = false -> handleSearch query s = s) /\
    (isLoading t = true -> handleSubmit query s = s) /\
    (Js.nonEmpty (Js.trim query) = true -> isLoading t = false ->
     exists t', activeById (handleSubmit query s) = Some t' /\
       currentTopic t' = Js.trim query /\
       Js.trim (currentTopic t') = currentTopic t' /\
       isLoading t' = true /\ content t' = Some "" /\ futureStack t' = []).
Proof.
  intros query s t Ht. unfold handleSubmit, handleSearch, withActive.
  rewrite (activeById_activeTab s t Ht).
  split; [|split; [|split]].
  - intros ->. reflexivity.
  - intros Hq. unfold handleTopicChange. rewrite Hq. reflexivity.
  - intros ->. rewrite andb_false_r. reflexivity.
  - intros Hq Hl. rewrite Hq, Hl. simpl. rewrite trim_idem.
    destruct (handleTopicChange_active (Js.trim query) s t Ht Hq)
      as (t1 & H1 & Hc & Hf & _ & Hcont & Hload & _).
    exists t1. rewrite Hc, trim_idem.
    repeat (split; [assumption || reflexivity|]). assumption.
Qed.

Lemma submit_searches_the_trimmed_query_witness :
  exists t', activeById (handleSubmit "  Hyper text  " afterHypertext) = Some t' /\
    currentTopic t' = "Hyper text" /\
    Js.trim (currentTopic t') = currentTopic t' /\
    isLoading t' = true /\ content t' = Some "" /\ futureStack t' = [].
Proof.
  destruct (submit_searches_the_trimmed_query "  Hyper text  " afterHypertext
              (default (createNewTab "") (activeById afterHypertext))
              ltac:(vm_compute; reflexivity)) as (_ & _ & _ & H).
  apply H; vm_compute; reflexivity.
Defined.

(** ** The search history *)

Lemma NoDup_filter_fmap {A B : Type} (f : A -> B) (p : A -> bool)
    (l : list A) :
  NoDup (f <$> l) -> NoDup (f <$> List.filter p l).
Proof.
  induction l as [|x l IH]; simpl; [auto|].
  rewrite ?fmap_cons, NoDup_cons. intros [Hx Hl].
  destruct (p x); [|auto].
  rewrite ?fmap_cons, NoDup_cons. split; [|auto].
  intros Hin. apply Hx.
  apply list_elem_of_fmap in Hin as (y & -> & Hy).
  apply list_elem_of_fmap. exists y; split; [reflexivity|].
  apply list_elem_of_In. apply list_elem_of_In in Hy.
  apply filter_In in Hy. tauto.
Qed.

(** X2: after a topic change the search history starts with the new topic,
    holds at most five entries, each of them the new topic or an earlier
    entry, and still has no two entries that differ only by case if it had
    none before. *)
Theorem search_history_is_bounded_and_distinct :
  forall (newTopic : string) (s : AppState) (t : Tab),
    activeTab s = Some t -> Js.nonEmpty newTopic = true ->
    head (searchHistory (handleTopicChange newTopic s)) = Some newTopic /\
    (length (searchHistory (handleTopicChange newTopic s)) <= 5)%nat /\
    (forall x, In x (searchHistory (handleTopicChange newTopic s)) ->
               x = newTopic \/
               (In x (searchHistory s) /\
                Js.toLowerCase x <> Js.toLowerCase newTopic)) /\
    (NoDup (Js.toLowerCase <$> searchHistory s) ->
     NoDup (Js.toLowerCase <$> searchHistory (handleTopicChange newTopic s))).
Proof.
  intros newTopic s t Ht Hn. unfold handleTopicChange, withActive.
  rewrite Hn, Ht. simpl negb. cbv iota.
  set (rest := List.filter _ (searchHistory s)).
  assert (Hh : searchHistory
                 (updateActiveTab
                    [ set_historyStack
                        (if Js.nonEmpty (currentTopic t)
                         then (historyStack t ++ [currentTopic t])%list
                         else historyStack t);
                      set_futureStack []; set_currentTopic newTopic;
                      set_content (Some ""); set_isLoading true;
                      set_error None; set_title newTopic;
                      set_webUrl (if isUrlRe (Js.trim newTopic)
                                  then Some (Js.trim newTopic) else None);
                      set_webSectionIndex 0; set_generatedDiagrams ∅ ]
                    (with_searchHistory (take 5 (newTopic :: rest)) s))
               = take 5 (newTopic :: rest)).
  { destruct s; reflexivity. }
  rewrite Hh. clear Hh.
  split; [reflexivity|]. split; [rewrite length_take; lia|]. split.
  - intros x Hx. apply list_elem_of_In in Hx.
    apply (subseteq_take 5) in Hx. apply list_elem_of_In in Hx.
    destruct Hx as [<-|Hx]; [left; reflexivity|right].
    unfold rest in Hx. apply filter_In in Hx. destruct Hx as [Hx Hne].
    split; [exact Hx|].
    apply negb_true_iff in Hne. apply String.eqb_neq in Hne. exact Hne.
  - intros Hnd.
    rewrite fmap_take. eapply sublist_NoDup; [|apply sublist_take].
    rewrite ?fmap_cons, NoDup_cons. split.
    + intros Hin. apply list_elem_of_fmap in Hin as (y & Hy & Hin).
      apply list_elem_of_In in Hin. unfold rest in Hin.
      apply filter_In in Hin. destruct Hin as [_ Hne].
      apply negb_true_iff in Hne. apply String.eqb_neq in Hne.
      congruence.
    + apply NoDup_filter_fmap, Hnd.
Qed.

Lemma search_history_is_bounded_and_distinct_witness :
  head (searchHistory (handleTopicChange "hypertext" afterHypertext))
  = Some "hypertext".
Proof.
  apply (search_history_is_bounded_and_distinct "hypertext" afterHypertext
           (default (createNewTab "") (activeTab afterHypertext)));
    vm_compute; reflexivity.
Defined.

(** ** Topics and history *)

(** X3: choosing a new topic from a tab that shows one pushes the topic
    left behind onto the history stack and empties the future stack, so
    that [forward()] then does nothing, [back()] returns to the topic left
    behind with the new topic as the only way forward, and [forward()]
    after that leads to the new topic again; the empty topic of a fresh tab
    is never pushed. *)
Theorem new_topic_then_back :
  forall (newTopic : string) (s : AppState) (t : Tab),
    activeById s = Some t -> Js.nonEmpty newTopic = true ->
    handleForward (handleTopicChange newTopic s)
    = handleTopicChange newTopic s /\
    (currentTopic t = "" ->
     exists t1, activeById (handleTopicChange newTopic s) = Some t1 /\
       historyStack t1 = historyStack t) /\
    (Js.nonEmpty (currentTopic t) = true ->
     exists t2 t3,
       activeById (handleBack (handleTopicChange newTopic s)) = Some t2 /\
       currentTopic t2 = currentTopic t /\
       historyStack t2 = historyStack t /\
       futureStack t2 = [newTopic] /\
       activeById (handleForward (handleBack (handleTopicChange newTopic s)))
       = Some t3 /\
       currentTopic t3 = newTopic /\
       historyStack t3 = (historyStack t ++ [currentTopic t])%list /\
       futureStack t3 = []).
Proof.
  intros newTopic s t Ht Hn.
  destruct (handleTopicChange_active newTopic s t Ht Hn)
    as (t1 & H1 & Hc1 & Hf1 & Hh1 & _).
  split; [|split].
  - apply (handleForward_empty _ t1); [apply activeById_activeTab, H1|exact Hf1].
  - intros He. exists t1. split; [exact H1|]. rewrite Hh1, He. reflexivity.
  - intros Hcur. rewrite Hcur in Hh1.
    destruct (handleBack_active _ t1 _ _ H1 Hh1)
      as (t2 & H2 & Hh2 & Hc2 & Hf2 & _).
    rewrite Hc1, Hf1 in Hf2.
    destruct (handleForward_active _ t2 _ _ H2 Hf2)
      as (t3 & H3 & Hh3 & Hc3 & Hf3 & _).
    exists t2, t3. rewrite Hh3, Hh2, Hc2. auto 10.
Qed.

Lemma new_topic_then_back_witness :
  exists t2 t3,
    activeById (handleBack (handleTopicChange "Memex" afterHypertext))
    = Some t2 /\
    currentTopic t2 = "Hypertext" /\
    historyStack t2 = [] /\
    futureStack t2 = ["Memex"] /\
    activeById (handleForward
                  (handleBack (handleTopicChange "Memex" afterHypertext)))
    = Some t3 /\
    currentTopic t3 = "Memex" /\
    historyStack t3 = ["Hypertext"] /\
    futureStack t3 = [].
Proof.
  destruct (new_topic_then_back "Memex" afterHypertext
              (default (createNewTab "") (activeById afterHypertext))
              ltac:(vm_compute; reflexivity) ltac:(reflexivity))
    as (_ & _ & H).
  apply H. vm_compute; reflexivity.
Defined.

(** ** Intents act on the active tab only *)

Lemma ids_updateTab (tid : string) (u : Updates) (ts : list Tab) :
  keepsId u -> map id (updateTab tid u ts) = map id ts.
Proof.
  intros Hu; induction ts as [|t ts IH]; simpl; [reflexivity|].
  rewrite IH. destruct (String.eqb (id t) tid); [|reflexivity].
  rewrite (spread_id u t Hu). reflexivity.
Qed.

Lemma framed_refl (s : AppState) : framed s s.
Proof. repeat split. Qed.

Lemma framed_update (u : Updates) (s : AppState) :
  keepsId u -> framed s (updateActiveTab u s).
Proof.
  intros Hu. destruct s as [ts aid c h r1 r2 p]. unfold framed; simpl.
  rewrite others_updateTab, ids_updateTab by exact Hu. repeat split.
Qed.

Lemma framed_topic (newTopic : string) (s : AppState) :
  framed s (handleTopicChange newTopic s).
Proof.
  unfold handleTopicChange, withActive.
  destruct (Js.nonEmpty newTopic); simpl; [|apply framed_refl].
  destruct (activeTab s) as [cur|]; [|apply framed_refl].
  destruct s as [ts aid c h r1 r2 p]. unfold framed; simpl.
  rewrite others_updateTab, ids_updateTab by keeps_id. repeat split.
Qed.

Lemma framed_upload (file : UploadedFile) (s : AppState) :
  framed s (handleFileUpload file s).
Proof.
  unfold handleFileUpload, handleFileUploadDone, handleFileUploadRead,
    handleFileUploadBegin.
  destruct (extractText file) as [text pages].
  destruct s as [ts aid c h r1 r2 p]. unfold framed; simpl.
  destruct (negb (Js.nonEmpty text) || (String.length (Js.trim text) =? 0)%nat);
    rewrite !others_updateTab, !ids_updateTab by keeps_id; repeat split.
Qed.

(** X4: no intent of the user touches a tab other than the active one:
    the other tabs, the order and identifiers of all tabs, the active
    identifier, the cache and the pending diagram requests are as
    before. *)
Theorem intents_change_only_the_active_tab :
  forall (i : Intent) (s : AppState),
    others (activeTabId s) (tabs (applyIntent s i))
    = others (activeTabId s) (tabs s) /\
    map id (tabs (applyIntent s i)) = map id (tabs s) /\
    activeTabId (applyIntent s i) = activeTabId s /\
    cache (applyIntent s i) = cache s /\
    pendingDiagramsRef (applyIntent s i) = pendingDiagramsRef s.
Proof.
  intros i s. change (framed s (applyIntent s i)).
  destruct i; simpl;
    try apply framed_topic; try apply framed_upload;
    unfold handleSubmit, handleSearch, handleWordClick, handleRandom,
      handleBack, handleForward, onWebSearchModeChange,
      handleLanguageChange, handleClearDocument, handlePrevPage,
      handleNextPage, handlePrevWebSection, handleNextWebSection, withActive;
    try (destruct (activeTab s) as [cur|]; [|apply framed_refl]);
    try (apply framed_update; keeps_id).
  - destruct (Js.nonEmpty (Js.trim query) && negb (isLoading cur));
      [apply framed_topic|apply framed_refl].
  - destruct (UNIQUE_WORDS !! randomIndex); [apply framed_topic|apply framed_refl].
  - destruct (last (historyStack cur));
      [apply framed_update; keeps_id|apply framed_refl].
  - destruct (futureStack cur);
      [apply framed_refl|apply framed_update; keeps_id].
Qed.

(** ** The active tab after a tab operation *)






(** ** Local pages *)

Lemma index_in_range (pages : list string) (i : Z) :
  0 <= i < Z.of_nat (length pages) -> is_Some (Js.index pages i).
Proof.
  intros Hi. unfold Js.index.
  destruct (i <? 0)%Z eqn:E; [apply Z.ltb_lt in E; lia|].
  apply lookup_lt_is_Some. lia.
Qed.

(** X6: in a document whose page index is within its pages, the next-page
    and previous-page operations keep it there: they move by one page and
    stop at the last and at the first page.  When their button is enabled
    they move by exactly one page.  In English the content becomes the text
    of the page arrived at and the tab is not marked loading. *)
Theorem page_turns_stay_in_range :
  forall (s : AppState) (t : Tab),
    activeById s = Some t ->
    0 <= currentPage t < Z.of_nat (length (ebookPages t)) ->
    exists tn tp,
      activeById (handleNextPage s) = Some tn /\
      activeById (handlePrevPage s) = Some tp /\
      currentPage tn
      = Z.min (currentPage t + 1) (Z.of_nat (length (ebookPages t)) - 1) /\
      currentPage tp = Z.max (currentPage t - 1) 0 /\
      0 <= currentPage tn < Z.of_nat (length (ebookPages tn)) /\
      0 <= currentPage tp < Z.of_nat (length (ebookPages tp)) /\
      (canNextPage t = true -> currentPage tn = currentPage t + 1) /\
      (canPrevPage t = true -> currentPage tp = currentPage t - 1) /\
      (isTranslationNeeded t = false ->
       isLoading tn = false /\ isLoading tp = false /\
       content tn = Js.index (ebookPages t) (currentPage tn) /\
       content tp = Js.index (ebookPages t) (currentPage tp) /\
       is_Some (content tn) /\ is_Some (content tp)).
Proof.
  intros s t Ht Hr.
  unfold handleNextPage, handlePrevPage, withActive.
  rewrite (activeById_activeTab s t Ht).
  eexists; eexists.
  split; [apply activeById_update; [keeps_id|exact Ht]|].
  split; [apply activeById_update; [keeps_id|exact Ht]|].
  simpl.
  split; [reflexivity|]. split; [reflexivity|].
  split; [lia|]. split; [lia|].
  split.
  { unfold canNextPage. rewrite !andb_true_iff, !negb_true_iff.
    intros [_ Hlast]. apply orb_false_iff in Hlast as [_ Hlast].
    apply Z.leb_gt in Hlast. lia. }
  split.
  { unfold canPrevPage. rewrite !andb_true_iff, !negb_true_iff.
    intros [_ Hfirst]. apply orb_false_iff in Hfirst as [_ Hfirst].
    apply Z.eqb_neq in Hfirst. lia. }
  intros ->. repeat (split; [reflexivity|]).
  split; apply index_in_range; lia.
Qed.

Lemma page_turns_stay_in_range_witness :
  exists tn tp,
    activeById (handleNextPage pageOneTranslated) = Some tn /\
    activeById (handlePrevPage pageOneTranslated) = Some tp /\
    currentPage tn = 1 /\ currentPage tp = 0.
Proof.
  destruct (page_turns_stay_in_range pageOneTranslated
              (default (createNewTab "") (activeById pageOneTranslated))
              ltac:(vm_compute; reflexivity))
    as (tn & tp & Hn & Hp & Hcn & Hcp & _).
  - vm_compute. split; [discriminate|reflexivity].
  - exists tn, tp. split; [exact Hn|]. split; [exact Hp|].
    rewrite Hcn, Hcp. vm_compute. split; reflexivity.
Defined.

(** ** Remote sections *)

(** X7: from a section index that is not negative, the next-section
    operation adds one and the previous-section operation subtracts one
    without going below 0; going forward and then back returns to the
    section one started from; both mark the tab loading and drop its
    diagrams. *)
Theorem section_turns :
  forall (s : AppState) (t : Tab),
    activeById s = Some t -> 0 <= webSectionIndex t ->
    exists tn tp tb,
      activeById (handleNextWebSection s) = Some tn /\
      activeById (handlePrevWebSection s) = Some tp /\
      activeById (handlePrevWebSection (handleNextWebSection s)) = Some tb /\
      webSectionIndex tn = webSectionIndex t + 1 /\
      webSectionIndex tp = Z.max (webSectionIndex t - 1) 0 /\
      0 <= webSectionIndex tp /\
      webSectionIndex tb = webSectionIndex t /\
      isLoading tn = true /\ isLoading tp = true /\
      generatedDiagrams tn = ∅ /\ generatedDiagrams tp = ∅ /\
      currentTopic tn = currentTopic t /\ currentTopic tp = currentTopic t.
Proof.
  intros s t Ht Hi.
  assert (Hn : activeById (handleNextWebSection s)
               = Some (spread t [ set_webSectionIndex (webSectionIndex t + 1);
                                  set_isLoading true;
                                  set_generatedDiagrams ∅ ])).
  { unfold handleNextWebSection, withActive.
    rewrite (activeById_activeTab s t Ht).
    apply activeById_update; [keeps_id|exact Ht]. }
  eexists; eexists; eexists.
  split; [exact Hn|].
  split.
  { unfold handlePrevWebSection, withActive.
    rewrite (activeById_activeTab s t Ht).
    apply activeById_update; [keeps_id|exact Ht]. }
  split.
  { unfold handlePrevWebSection at 1. unfold withActive.
    rewrite (activeById_activeTab _ _ Hn).
    apply activeById_update; [keeps_id|exact Hn]. }
  simpl. repeat (split; [reflexivity || lia|]). reflexivity.
Qed.

Lemma section_turns_witness :
  exists tb,
    activeById (handlePrevWebSection (handleNextWebSection navState))
    = Some tb /\ webSectionIndex tb = 2.
Proof.
  destruct (section_turns navState navTab ltac:(vm_compute; reflexivity))
    as (tn & tp & tb & _ & _ & Hb & _ & _ & _ & Hw & _).
  - vm_compute. discriminate.
  - exists tb. split; [exact Hb|exact Hw].
Defined.

(** ** Fingerprints *)

Lemma append_inv_head (p a b : string) : p +:+ a = p +:+ b -> a = b.
Proof.
  induction p as [|c p IH]; simpl; [auto|].
  intros H; injection H as H; auto.
Qed.

Lemma length_append (a b : string) :
  String.length (a +:+ b) = (String.length a + String.length b)%nat.
Proof. induction a as [|c a IH]; simpl; [reflexivity|f_equal; exact IH]. Qed.

Lemma append_inv_tail (q a b : string) : a +:+ q = b +:+ q -> a = b.
Proof.
  intros H.
  assert (Hlen : String.length a = String.length b).
  { apply (f_equal String.length) in H. rewrite !length_append in H. lia. }
  revert b H Hlen. induction a as [|c a IH]; intros [|d b] H Hlen;
    simpl in *; try discriminate; [reflexivity|].
  injection H as -> H. f_equal. apply IH; [exact H|lia].
Qed.

(** X8: a fingerprint of web-search mode is never one of wiki mode; and two
    requests that agree on the mode, the document, the lower-cased topic
    and all but one of section index and language have different
    fingerprints when they differ in that one. *)
Theorem fingerprints_separate_requests :
  forall t1 t2 : Tab,
    (cacheKey t1 = cacheKey t2 -> isWebSearchMode t1 = isWebSearchMode t2) /\
    (isWebSearchMode t1 = isWebSearchMode t2 ->
     documentName t1 = documentName t2 ->
     Js.toLowerCase (currentTopic t1) = Js.toLowerCase (currentTopic t2) ->
     webSectionIndex t1 = webSectionIndex t2 ->
     cacheKey t1 = cacheKey t2 -> language t1 = language t2) /\
    (isWebSearchMode t1 = isWebSearchMode t2 ->
     documentName t1 = documentName t2 ->
     Js.toLowerCase (currentTopic t1) = Js.toLowerCase (currentTopic t2) ->
     language t1 = language t2 ->
     cacheKey t1 = cacheKey t2 -> webSectionIndex t1 = webSectionIndex t2).
Proof.
  intros t1 t2. unfold cacheKey. split; [|split].
  - destruct (isWebSearchMode t1), (isWebSearchMode t2);
      simpl; intros H; try reflexivity; discriminate H.
  - intros -> -> -> -> H.
    do 6 apply append_inv_head in H. exact H.
  - intros -> -> -> -> H.
    do 4 apply append_inv_head in H.
    apply append_inv_tail in H. apply (inj pretty) in H. exact H.
Qed.

Lemma fingerprints_separate_requests_witness :
  cacheKey navTab <> cacheKey (set_webSectionIndex 0 navTab) /\
  cacheKey navTab <> cacheKey (set_language "French" navTab).
Proof.
  split; intros H.
  - apply (proj2 (proj2 (fingerprints_separate_requests navTab
                           (set_webSectionIndex 0 navTab)))) in H;
      [discriminate H|reflexivity..].
  - apply (proj1 (proj2 (fingerprints_separate_requests navTab
                           (set_language "French" navTab)))) in H;
      [discriminate H|reflexivity..].
Defined.

(** ** The router and the services *)

Lemma startsWith_image_head (ft : string) :
  Js.startsWith "image/" ft = true ->
  exists r, ft = String "i" r.
Proof.
  destruct ft as [|c r]; [discriminate|].
  destruct c as [[] [] [] [] [] [] [] []]; simpl; intros H;
    try discriminate H. eexists; reflexivity.
Qed.

(** X9: an attached image always leads to image analysis; with a document
    or a file loaded, no image and a topic that is not a YouTube link, the
    request is a document query, even for a topic that looks like a URL;
    and every strategy is chosen only in a state that gives its service
    function what it needs: image analysis an image file, a document query
    a document text or a file (so that [streamInDocumentQuery] never takes
    its branch without a document), a web resource no document at all. *)
Theorem router_serves_the_services :
  forall t : Tab,
    (hasImage t = true -> selectStrategy t = ImageAnalysis) /\
    (hasImage t = false ->
     isYouTubeUrlRe (Js.trim (currentTopic t)) = false ->
     Js.truthy (documentContext t) || hasFile t = true ->
     selectStrategy t = DocumentQuery (isWebSearchMode t)) /\
    (selectStrategy t = ImageAnalysis ->
     exists f, fileData t = Some f /\
               Js.startsWith "image/" (mimeType f) = true) /\
    (forall b, selectStrategy t = DocumentQuery b ->
       b = isWebSearchMode t /\
       forall chunks e now,
         streamInDocumentQuery (currentTopic t) (documentContext t)
           (fileData t) chunks e now
         = (plainChunks chunks
            ++ closeStream ("Could not answer question " +:+ doubleQuote
                            +:+ currentTopic t +:+ doubleQuote +:+ ". ")
                 e now)%list) /\
    (selectStrategy t = WebResource ->
     isUrlRe (Js.trim (currentTopic t)) = true /\
     Js.truthy (documentContext t) = false /\ fileData t = None) /\
    (selectStrategy t = WebSearch ->
     isWebSearchMode t = true /\
     Js.truthy (documentContext t) = false /\ fileData t = None) /\
    (selectStrategy t = WikiDefinition ->
     isWebSearchMode t = false /\
     Js.truthy (documentContext t) = false /\ fileData t = None).
Proof.
  intros t. unfold selectStrategy, streamInDocumentQuery, hasImage, hasFile.
  destruct (fileData t) as [f|]; cbv iota beta;
    [destruct (Js.startsWith "image/" (mimeType f)) eqn:Ei|];
    destruct (isYouTubeUrlRe (Js.trim (currentTopic t)));
    destruct (isUrlRe (Js.trim (currentTopic t)));
    destruct (Js.truthy (documentContext t));
    destruct (isWebSearchMode t); cbn [andb orb negb];
    repeat match goal with |- _ /\ _ => split end;
    try solve
      [ intros; try discriminate; try congruence;
        repeat match goal with
               | H : DocumentQuery _ = DocumentQuery _ |- _ =>
                   injection H as <-
               | |- _ /\ _ => split
               | |- exists _, _ => eexists
               end;
        intros; first [reflexivity | assumption | discriminate] ].
Qed.

Lemma router_serves_the_services_witness :
  exists t, activeById imageThenLink = Some t /\
            selectStrategy t = ImageAnalysis.
Proof.
  eexists; split; [vm_compute; reflexivity|].
  apply router_serves_the_services. vm_compute; reflexivity.
Defined.

(** ** Changing the language *)

Lemma append_assoc (a b c : string) : (a +:+ b) +:+ c = a +:+ (b +:+ c).
Proof.
  induction a as [|x a IH]; [reflexivity|].
  change (String x ((a +:+ b) +:+ c) = String x (a +:+ (b +:+ c))).
  f_equal; exact IH.
Qed.




(** ** Uploaded files *)

Lemma hasNonSpace_trimStart (s : string) :
  hasNonSpace (Js.trimStart s) = hasNonSpace s.
Proof.
  induction s as [|c r IH]; simpl; [reflexivity|].
  destruct (Js.isWhiteSpace c) eqn:W; simpl; [exact IH|].
  rewrite W. reflexivity.
Qed.

Lemma nonEmpty_trimEnd (s : string) :
  Js.nonEmpty (Js.trimEnd s) = hasNonSpace s.
Proof.
  induction s as [|c r IH]; simpl; [reflexivity|].
  destruct (Js.trimEnd r) as [|d r'] eqn:E; simpl in IH; rewrite <- IH.
  - destruct (Js.isWhiteSpace c); reflexivity.
  - simpl. rewrite orb_true_r. reflexivity.
Qed.

Lemma nonEmpty_trim (s : string) : Js.nonEmpty (Js.trim s) = hasNonSpace s.
Proof. unfold Js.trim. rewrite nonEmpty_trimEnd. apply hasNonSpace_trimStart. Qed.

Lemma hasNonSpace_nonEmpty (s : string) :
  hasNonSpace s = true -> Js.nonEmpty s = true.
Proof. destruct s; [discriminate|reflexivity]. Qed.

(** The test [!text || text.trim().length === 0] of [handleFileUpload]. *)
Lemma upload_test (text : string) :
  negb (Js.nonEmpty text) || (String.length (Js.trim text) =? 0)%nat
  = negb (hasNonSpace text).
Proof.
  rewrite <- nonEmpty_trim.
  destruct (Js.trim text) as [|c r] eqn:E; simpl.
  - apply orb_true_r.
  - rewrite orb_false_r.
    assert (H : hasNonSpace text = true)
      by (rewrite <- nonEmpty_trim, E; reflexivity).
    rewrite (hasNonSpace_nonEmpty text H). reflexivity.
Qed.

Lemma upload_binary (file : UploadedFile) (s : AppState) (t : Tab) :
  activeById s = Some t -> hasNonSpace (fst (extractText file)) = false ->
  activeById (handleFileUpload file s)
  = Some (spread t
            [ set_isLoading true; set_error None;
              set_fileData
                (Some {| base64 := f_base64 file;
                         mimeType := if Js.nonEmpty (f_type file)
                                     then f_type file
                                     else "application/octet-stream" |});
              set_documentContext None;
              set_ebookPages [];
              set_documentName (Some (f_name file));
              set_isEbookMode true;
              set_isWebSearchMode false;
              set_content (Some "");
              set_currentTopic "Analyze Document";
              set_title (f_name file);
              set_historyStack [];
              set_isLoading true ]).
Proof.
  intros Ht Hb. unfold handleFileUpload, handleFileUploadDone.
  destruct (extractText file) as [text pages]; simpl in Hb.
  unfold handleFileUploadRead. rewrite upload_test, Hb. simpl negb. cbv iota.
  pose proof (activeById_update [set_isLoading true; set_error None] s t
                ltac:(keeps_id) Ht) as H0.
  fold (handleFileUploadBegin s) in H0.
  replace (activeTabId s) with (activeTabId (handleFileUploadBegin s))
    by (destruct s; reflexivity).
  match goal with
  | |- activeById (with_tabs (updateTab _ ?u _) _) = _ =>
      change (activeById (updateActiveTab u (handleFileUploadBegin s)) = 
              Some (spread (spread t [set_isLoading true; set_error None]) u))
  end.
  apply activeById_update; [keeps_id|exact H0].
Qed.

Lemma upload_reader (file : UploadedFile) (s : AppState) (t : Tab) :
  activeById s = Some t -> hasNonSpace (fst (extractText file)) = true ->
  activeById (handleFileUpload file s)
  = Some (spread t
            [ set_isLoading true; set_error None;
              set_documentContext (Some (fst (extractText file)));
              set_ebookPages (snd (extractText file));
              set_fileData None;
              set_content (Some (default "" (head (snd (extractText file)))));
              set_documentName (Some (f_name file));
              set_isEbookMode true;
              set_isWebSearchMode false;
              set_currentPage 0;
              set_currentTopic (f_name file);
              set_title (f_name file);
              set_historyStack [];
              set_isLoading false ]).
Proof.
  intros Ht Hb. unfold handleFileUpload, handleFileUploadDone.
  destruct (extractText file) as [text pages]; simpl in Hb.
  unfold handleFileUploadRead. rewrite upload_test, Hb. simpl negb. cbv iota.
  pose proof (activeById_update [set_isLoading true; set_error None] s t
                ltac:(keeps_id) Ht) as H0.
  fold (handleFileUploadBegin s) in H0.
  replace (activeTabId s) with (activeTabId (handleFileUploadBegin s))
    by (destruct s; reflexivity).
  match goal with
  | |- activeById (with_tabs (updateTab _ ?u _) _) = _ =>
      change (activeById (updateActiveTab u (handleFileUploadBegin s)) = 
              Some (spread (spread t [set_isLoading true; set_error None]) u))
  end.
  apply activeById_update; [keeps_id|exact H0].
Qed.

Lemma extractText_image (file : UploadedFile) :
  Js.startsWith "image/" (f_type file) = true -> extractText file = ("", []).
Proof.
  intros H. unfold extractText. rewrite H.
  destruct (startsWith_image_head _ H) as [r ->]. reflexivity.
Qed.

(** X11: the upload of a file whose declared type starts with [image/]
    stores the file as a binary attachment, switches the document mode on
    and web search off, drops the history, and makes the effect start an
    image analysis; the topic it sends, "Analyze Document", is not the
    placeholder for which [streamImageAnalysis] asks for a plain
    description. *)
Theorem image_upload_starts_image_analysis :
  forall (file : UploadedFile) (s : AppState) (t : Tab),
    activeById s = Some t ->
    Js.startsWith "image/" (f_type file) = true ->
    exists t', activeById (handleFileUpload file s) = Some t' /\
      fileData t'
      = Some {| base64 := f_base64 file; mimeType := f_type file |} /\
      documentContext t' = None /\ ebookPages t' = [] /\
      documentName t' = Some (f_name file) /\
      isEbookMode t' = true /\ isWebSearchMode t' = false /\
      historyStack t' = [] /\ futureStack t' = futureStack t /\
      currentTopic t' = "Analyze Document" /\
      imageAnalysisIsDefault (currentTopic t') = false /\
      mainEffect (handleFileUpload file s)
      = LaunchFetch ImageAnalysis (cacheKey t').
Proof.
  intros file s t Ht Himg.
  pose proof (upload_binary file s t Ht) as Hu.
  rewrite (extractText_image file Himg) in Hu. specialize (Hu eq_refl).
  destruct (startsWith_image_head _ Himg) as [r Hr].
  rewrite Hr in Hu. simpl Js.nonEmpty in Hu. cbv iota in Hu. rewrite <- Hr in Hu.
  eexists; split; [exact Hu|].
  repeat (split; [reflexivity|]).
  rewrite (mainEffect_loading _ _ (activeById_activeTab _ _ Hu));
    [|reflexivity|reflexivity|reflexivity].
  f_equal.
  match goal with
  | |- selectStrategy ?x = _ =>
      assert (Hi : hasImage x = true) by exact Himg;
      unfold selectStrategy; rewrite Hi; reflexivity
  end.
Qed.

Lemma image_upload_starts_image_analysis_witness :
  exists t',
    activeById
      (handleFileUpload
         {| f_name := "cat.png"; f_type := "image/png"; f_base64 := "AAAA";
            f_body := Unreadable |} afterHypertext) = Some t' /\
    currentTopic t' = "Analyze Document" /\
    mainEffect
      (handleFileUpload
         {| f_name := "cat.png"; f_type := "image/png"; f_base64 := "AAAA";
            f_body := Unreadable |} afterHypertext)
    = LaunchFetch ImageAnalysis (cacheKey t').
Proof.
  destruct (image_upload_starts_image_analysis
              {| f_name := "cat.png"; f_type := "image/png";
                 f_base64 := "AAAA"; f_body := Unreadable |}
              afterHypertext
              (default (createNewTab "") (activeById afterHypertext))
              ltac:(vm_compute; reflexivity) ltac:(reflexivity))
    as (t' & H1 & H).
  exists t'. split; [exact H1|]. split; apply H.
Defined.

(** X12: the upload of a file from which a text with a character other
    than white space was extracted opens the reader on its first page: the
    text and the pages are stored, the binary attachment is dropped, the
    first page is the content, the tab is not loading; and the effect then
    starts nothing, in English or in any other language. *)
Theorem text_upload_opens_the_reader :
  forall (file : UploadedFile) (s : AppState) (t : Tab),
    activeById s = Some t ->
    hasNonSpace (fst (extractText file)) = true ->
    exists t', activeById (handleFileUpload file s) = Some t' /\
      documentContext t' = Some (fst (extractText file)) /\
      ebookPages t' = snd (extractText file) /\
      fileData t' = None /\
      currentPage t' = 0 /\
      content t' = Some (default "" (head (snd (extractText file)))) /\
      isLoading t' = false /\ isEbookMode t' = true /\
      isWebSearchMode t' = false /\ language t' = language t /\
      mainEffect (handleFileUpload file s) = Idle.
Proof.
  intros file s t Ht Htext.
  pose proof (upload_reader file s t Ht Htext) as Hu.
  eexists; split; [exact Hu|].
  repeat (split; [reflexivity|]).
  unfold mainEffect, withActive.
  rewrite (activeById_activeTab _ _ Hu). simpl.
  destruct (Js.nonEmpty (f_name file)); simpl; [|reflexivity].
  unfold inEbookTextMode, hasFile; simpl.
  rewrite (hasNonSpace_nonEmpty _ Htext). simpl.
  destruct (isTranslationNeeded _); [reflexivity|].
  unfold Js.index; simpl.
  destruct (snd (extractText file)) as [|p ps]; simpl;
    rewrite ?String.eqb_refl; reflexivity.
Qed.

Lemma text_upload_opens_the_reader_witness :
  mainEffect
    (handleFileUpload
       {| f_name := "notes.txt"; f_type := "text/plain"; f_base64 := "AAAA";
          f_body := TextBody "first note" |} afterHypertext) = Idle.
Proof.
  destruct (text_upload_opens_the_reader
              {| f_name := "notes.txt"; f_type := "text/plain";
                 f_base64 := "AAAA"; f_body := TextBody "first note" |}
              afterHypertext
              (default (createNewTab "") (activeById afterHypertext))
              ltac:(vm_compute; reflexivity) ltac:(reflexivity))
    as (t' & _ & H).
  apply H.
Defined.

(** ** Pages extracted from a PDF or an EPUB *)

Lemma pdfLoop_closed (pageItems : list (list string)) :
  forall (fullText : string) (pages : list string),
    pdfLoop pageItems fullText pages
    = (fold_left (fun acc p => acc +:+ p +:+ lineFeed +:+ lineFeed)
         (List.filter (fun p => Js.nonEmpty (Js.trim p))
            (map (joinWith " ") pageItems))
         fullText,
       (pages
        ++ map Js.trim
             (List.filter (fun p => Js.nonEmpty (Js.trim p))
                (map (joinWith " ") pageItems)))%list).
Proof.
  induction pageItems as [|items rest IH]; intros fullText pages; simpl.
  - rewrite app_nil_r. reflexivity.
  - destruct (Js.nonEmpty (Js.trim (joinWith " " items))); simpl.
    + rewrite IH, <- app_assoc. reflexivity.
    + apply IH.
Qed.

Lemma epubLoop_closed (sections : list (option string)) :
  forall (fullText : string) (pages : list string),
    epubLoop sections fullText pages
    = (fold_left (fun acc p => acc +:+ p +:+ lineFeed +:+ lineFeed)
         (List.filter Js.nonEmpty
            (map Js.trim (omap (fun x => x) sections)))
         fullText,
       (pages
        ++ List.filter Js.nonEmpty
             (map Js.trim (omap (fun x => x) sections)))%list).
Proof.
  induction sections as [|[text|] rest IH]; intros fullText pages; simpl.
  - rewrite app_nil_r. reflexivity.
  - destruct (Js.nonEmpty (Js.trim text)); simpl.
    + rewrite IH, <- app_assoc. reflexivity.
    + apply IH.
  - apply IH.
Qed.

Lemma hasNonSpace_append (a b : string) :
  hasNonSpace (a +:+ b) = hasNonSpace a || hasNonSpace b.
Proof.
  induction a as [|c a IH]; [reflexivity|].
  change (hasNonSpace (String c (a +:+ b))
          = hasNonSpace (String c a) || hasNonSpace b).
  simpl. rewrite IH, orb_assoc. reflexivity.
Qed.

Lemma hasNonSpace_pages (kept : list string) (fullText : string) :
  hasNonSpace
    (fold_left (fun acc p => acc +:+ p +:+ lineFeed +:+ lineFeed) kept
       fullText)
  = hasNonSpace fullText || existsb hasNonSpace kept.
Proof.
  revert fullText. induction kept as [|p kept IH]; intros fullText; simpl.
  - rewrite orb_false_r. reflexivity.
  - rewrite IH, !hasNonSpace_append. simpl.
    rewrite !orb_false_r, orb_assoc. reflexivity.
Qed.

Lemma existsb_all_true {A : Type} (p : A -> bool) (l : list A) :
  Forall (fun x => p x = true) l -> existsb p l = negb (bool_decide (l = [])).
Proof.
  intros H. destruct H as [|x l Hx _]; simpl; [reflexivity|].
  rewrite Hx. reflexivity.
Qed.

Lemma extractTextFromPdf_pages (pageItems : list (list string)) :
  snd (extractTextFromPdf pageItems)
  = map Js.trim (List.filter hasNonSpace (map (joinWith " ") pageItems)) /\
  Forall (fun p => Js.trim p = p /\ hasNonSpace p = true)
    (snd (extractTextFromPdf pageItems)) /\
  (length (snd (extractTextFromPdf pageItems)) <= length pageItems)%nat /\
  hasNonSpace (fst (extractTextFromPdf pageItems))
  = negb (bool_decide (snd (extractTextFromPdf pageItems) = [])).
Proof.
  unfold extractTextFromPdf.
  rewrite pdfLoop_closed. simpl fst; simpl snd.
  set (kept := List.filter (fun p => Js.nonEmpty (Js.trim p))
                 (map (joinWith " ") pageItems)).
  assert (Hk : kept = List.filter hasNonSpace (map (joinWith " ") pageItems)).
  { unfold kept. apply filter_ext. intros p. apply nonEmpty_trim. }
  assert (Hall : Forall (fun p => hasNonSpace p = true) kept).
  { rewrite Hk. apply Forall_forall. intros p Hp.
    apply list_elem_of_In, filter_In in Hp. tauto. }
  split; [rewrite Hk; reflexivity|]. split; [|split].
  - apply Forall_forall. intros q Hq.
    apply list_elem_of_In, in_map_iff in Hq as (p & <- & Hp).
    split; [apply trim_idem|].
    rewrite <- nonEmpty_trim, trim_idem, nonEmpty_trim.
    rewrite Forall_forall in Hall. apply Hall, list_elem_of_In, Hp.
  - rewrite length_map. unfold kept.
    etransitivity; [apply List.filter_length_le|].
    rewrite length_map. reflexivity.
  - rewrite <- nonEmpty_trim, trim_idem, nonEmpty_trim.
    rewrite hasNonSpace_pages. simpl.
    rewrite (existsb_all_true _ _ Hall).
    destruct kept; reflexivity.
Qed.

Lemma extractContentFromEpub_pages (sections : list (option string)) :
  snd (extractContentFromEpub sections)
  = List.filter Js.nonEmpty (map Js.trim (omap (fun x => x) sections)) /\
  Forall (fun p => Js.trim p = p /\ hasNonSpace p = true)
    (snd (extractContentFromEpub sections)) /\
  (length (snd (extractContentFromEpub sections)) <= length sections)%nat /\
  hasNonSpace (fst (extractContentFromEpub sections))
  = negb (bool_decide (snd (extractContentFromEpub sections) = [])).
Proof.
  unfold extractContentFromEpub.
  rewrite epubLoop_closed. simpl fst; simpl snd.
  set (kept := List.filter Js.nonEmpty
                 (map Js.trim (omap (fun x => x) sections))).
  assert (Hall : Forall (fun p => Js.trim p = p /\ hasNonSpace p = true) kept).
  { apply Forall_forall. intros q Hq.
    apply list_elem_of_In, filter_In in Hq as [Hq Hne].
    apply in_map_iff in Hq as (p & <- & _).
    split; [apply trim_idem|].
    rewrite <- nonEmpty_trim, trim_idem. exact Hne. }
  split; [reflexivity|]. split; [exact Hall|]. split.
  - unfold kept. etransitivity; [apply List.filter_length_le|].
    rewrite length_map. clear.
    induction sections as [|[x|] l IH]; [reflexivity|..].
    + change (S (length (omap (fun x => x) l)) <= S (length l))%nat. lia.
    + change (length (omap (fun x => x) l) <= S (length l))%nat. lia.
  - rewrite <- nonEmpty_trim, trim_idem, nonEmpty_trim.
    rewrite hasNonSpace_pages. simpl.
    rewrite (existsb_all_true hasNonSpace kept).
    + destruct kept; reflexivity.
    + eapply Forall_impl; [exact Hall|]. intros p [_ Hp]. exact Hp.
Qed.

(** X13: the pages extracted from a PDF are its pages with a character
    other than white space, in order, each one trimmed; those extracted
    from an EPUB are the trimmed texts of its sections that are not empty.
    No page is ever empty or carries white space at either end, and the
    full text has a character other than white space exactly when there is
    at least one page. *)
Theorem extracted_pages_are_trimmed_and_not_blank :
  (forall pageItems : list (list string),
      snd (extractTextFromPdf pageItems)
      = map Js.trim
          (List.filter hasNonSpace (map (joinWith " ") pageItems)) /\
      Forall (fun p => Js.trim p = p /\ hasNonSpace p = true)
        (snd (extractTextFromPdf pageItems)) /\
      (length (snd (extractTextFromPdf pageItems)) <= length pageItems)%nat /\
      hasNonSpace (fst (extractTextFromPdf pageItems))
      = negb (bool_decide (snd (extractTextFromPdf pageItems) = []))) /\
  (forall sections : list (option string),
      snd (extractContentFromEpub sections)
      = List.filter Js.nonEmpty (map Js.trim (omap (fun x => x) sections)) /\
      Forall (fun p => Js.trim p = p /\ hasNonSpace p = true)
        (snd (extractContentFromEpub sections)) /\
      (length (snd (extractContentFromEpub sections)) <= length sections)%nat /\
      hasNonSpace (fst (extractContentFromEpub sections))
      = negb (bool_decide (snd (extractContentFromEpub sections) = []))).
Proof.
  split; [exact extractTextFromPdf_pages|exact extractContentFromEpub_pages].
Qed.

Lemma extractText_unreadable (file : UploadedFile) :
  f_body file = Unreadable -> extractText file = ("", []).
Proof.
  intros H. unfold extractText. rewrite H.
  repeat match goal with |- context [if ?b then _ else _] => destruct b end;
    reflexivity.
Qed.

Lemma extractText_blank_pdf (file : UploadedFile)
    (pageItems : list (list string)) :
  f_type file = "application/pdf" -> f_body file = PdfBody pageItems ->
  Forall (fun items => hasNonSpace (joinWith " " items) = false) pageItems ->
  hasNonSpace (fst (extractText file)) = false /\
  snd (extractText file) = [].
Proof.
  intros Ht Hb Hblank. unfold extractText. rewrite Ht, Hb. simpl String.eqb.
  cbv iota.
  destruct (extractTextFromPdf_pages pageItems) as (Hp & _ & _ & Hf).
  assert (Hnil : snd (extractTextFromPdf pageItems) = []).
  { rewrite Hp. clear -Hblank.
    induction Hblank as [|items l Hi _ IH]; simpl; [reflexivity|].
    rewrite Hi. exact IH. }
  rewrite Hf, Hnil. split; reflexivity.
Qed.

(** X14: a file that is not an image and from which no text was extracted
    (an unreadable file, a PDF whose pages are all blank) is kept as a
    binary attachment under its declared type, or
    [application/octet-stream] when it declares none, with no page, and the
    effect starts a document query on it with the topic "Analyze
    Document". *)
Theorem file_without_text_is_queried_as_binary :
  forall (file : UploadedFile) (s : AppState) (t : Tab),
    activeById s = Some t ->
    Js.startsWith "image/" (f_type file) = false ->
    (f_body file = Unreadable \/
     exists pageItems,
       f_type file = "application/pdf" /\ f_body file = PdfBody pageItems /\
       Forall (fun items => hasNonSpace (joinWith " " items) = false)
         pageItems) ->
    exists t', activeById (handleFileUpload file s) = Some t' /\
      fileData t'
      = Some {| base64 := f_base64 file;
                mimeType := if Js.nonEmpty (f_type file) then f_type file
                            else "application/octet-stream" |} /\
      documentContext t' = None /\ ebookPages t' = [] /\
      currentTopic t' = "Analyze Document" /\
      isWebSearchMode t' = false /\ isLoading t' = true /\
      mainEffect (handleFileUpload file s)
      = LaunchFetch (DocumentQuery false) (cacheKey t').
Proof.
  intros file s t Ht Himg Hno.
  assert (Htext : hasNonSpace (fst (extractText file)) = false).
  { destruct Hno as [Hu|(pageItems & Hty & Hb & Hblank)].
    - rewrite (extractText_unreadable file Hu). reflexivity.
    - apply (extractText_blank_pdf file pageItems Hty Hb Hblank). }
  pose proof (upload_binary file s t Ht Htext) as Hu.
  eexists; split; [exact Hu|].
  repeat (split; [reflexivity|]).
  rewrite (mainEffect_loading _ _ (activeById_activeTab _ _ Hu));
    [|reflexivity|reflexivity|reflexivity].
  f_equal.
  match goal with
  | |- selectStrategy ?x = _ =>
      assert (Hi : hasImage x = false);
      [|unfold selectStrategy; rewrite Hi; reflexivity]
  end.
  unfold hasImage; simpl fileData; cbv iota; simpl mimeType.
  destruct (Js.nonEmpty (f_type file)); [exact Himg|reflexivity].
Qed.

Lemma file_without_text_is_queried_as_binary_witness :
  exists t',
    activeById
      (handleFileUpload
         {| f_name := "scan.pdf"; f_type := "application/pdf";
            f_base64 := "AAAA"; f_body := PdfBody [[" "; ""]; []] |}
         afterHypertext) = Some t' /\
    mainEffect
      (handleFileUpload
         {| f_name := "scan.pdf"; f_type := "application/pdf";
            f_base64 := "AAAA"; f_body := PdfBody [[" "; ""]; []] |}
         afterHypertext)
    = LaunchFetch (DocumentQuery false) (cacheKey t').
Proof.
  destruct (file_without_text_is_queried_as_binary
              {| f_name := "scan.pdf"; f_type := "application/pdf";
                 f_base64 := "AAAA"; f_body := PdfBody [[" "; ""]; []] |}
              afterHypertext
              (default (createNewTab "") (activeById afterHypertext))
              ltac:(vm_compute; reflexivity) ltac:(reflexivity))
    as (t' & H1 & H).
  - right. exists [[" "; ""]; []].
    split; [reflexivity|]. split; [reflexivity|].
    repeat constructor.
  - exists t'. split; [exact H1|]. apply H.
Defined.

(** ** Random topics *)

Lemma unique_words_length : length UNIQUE_WORDS = 134%nat.
Proof. vm_compute. reflexivity. Qed.

Lemma unique_words_all : UNIQUE_WORDS = PREDEFINED_WORDS.
Proof. vm_compute. reflexivity. Qed.

Lemma unique_words_distinct : NoDup (Js.toLowerCase <$> UNIQUE_WORDS).
Proof. refine (bool_decide_eq_true_1 _ _). vm_compute. reflexivity. Qed.

Lemma unique_words_nonempty :
  Forall (fun w => Js.nonEmpty w = true) UNIQUE_WORDS.
Proof. refine (bool_decide_eq_true_1 _ _). vm_compute. reflexivity. Qed.

(** X15: whatever index is drawn, the random pick makes one of the
    predefined words the current topic, and never a word equal to the
    current topic up to case; no predefined word occurs twice, even up to
    case. *)
Theorem random_pick_changes_the_topic :
  forall (randomIndex : nat) (s : AppState) (t : Tab),
    activeById s = Some t ->
    (randomIndex < length UNIQUE_WORDS)%nat ->
    NoDup (Js.toLowerCase <$> PREDEFINED_WORDS) /\
    exists t', activeById (handleRandom randomIndex s) = Some t' /\
      In (currentTopic t') PREDEFINED_WORDS /\
      Js.toLowerCase (currentTopic t') <> Js.toLowerCase (currentTopic t) /\
      isLoading t' = true /\ futureStack t' = [].
Proof.
  intros i s t Ht Hi.
  split; [rewrite <- unique_words_all; apply unique_words_distinct|].
  rewrite <- unique_words_all.
  unfold handleRandom, withActive. rewrite (activeById_activeTab s t Ht).
  destruct (lookup_lt_is_Some_2 _ _ Hi) as [w Hw]. rewrite Hw.
  assert (Hj : ((i + 1) mod length UNIQUE_WORDS < length UNIQUE_WORDS)%nat).
  { apply Nat.mod_upper_bound. rewrite unique_words_length. discriminate. }
  destruct (lookup_lt_is_Some_2 _ _ Hj) as [w2 Hw2]. rewrite Hw2. simpl.
  set (pick := if String.eqb (Js.toLowerCase w)
                              (Js.toLowerCase (currentTopic t))
               then w2 else w).
  assert (Hin : In pick UNIQUE_WORDS).
  { unfold pick. destruct (String.eqb _ _);
      apply list_elem_of_In; eapply list_elem_of_lookup_2; eassumption. }
  assert (Hne : Js.nonEmpty pick = true).
  { pose proof unique_words_nonempty as Hall. rewrite Forall_forall in Hall.
    apply Hall, list_elem_of_In, Hin. }
  assert (Hdiff : Js.toLowerCase pick <> Js.toLowerCase (currentTopic t)).
  { unfold pick.
    destruct (String.eqb_spec (Js.toLowerCase w)
                (Js.toLowerCase (currentTopic t))) as [E|E]; [|exact E].
    rewrite <- E. intros E2.
    assert (Hij : ((i + 1) mod length UNIQUE_WORDS = i)%nat).
    { eapply (NoDup_lookup _ _ _ _ unique_words_distinct);
        rewrite list_lookup_fmap.
      - rewrite Hw2. simpl. rewrite E2. reflexivity.
      - rewrite Hw. reflexivity. }
    rewrite unique_words_length in Hij, Hi.
    destruct (Nat.eq_dec i 133%nat) as [->|Hn]; [discriminate Hij|].
    rewrite Nat.mod_small in Hij by lia. lia. }
  destruct (handleTopicChange_active pick s t Ht Hne)
    as (t' & H' & Hc & Hf & _ & _ & Hl & _).
  exists t'. rewrite Hc. auto.
Qed.

Lemma random_pick_changes_the_topic_witness :
  exists t', activeById (handleRandom 0 afterHypertext) = Some t' /\
    In (currentTopic t') PREDEFINED_WORDS /\
    Js.toLowerCase (currentTopic t') <> "hypertext".
Proof.
  destruct (random_pick_changes_the_topic 0 afterHypertext
              (default (createNewTab "") (activeById afterHypertext))
              ltac:(vm_compute; reflexivity))
    as (_ & t' & H1 & H2 & H3 & _).
  - rewrite unique_words_length. lia.
  - exists t'. split; [exact H1|]. split; [exact H2|exact H3].
Defined.

(** ** The words of the rendered content *)

Lemma splitWords_spells (text : string) :
  fold_right String.append EmptyString (splitWords text) = text.
Proof.
  induction text as [|c r IH]; [reflexivity|].
  simpl splitWords.
  destruct (splitWords r) as [|tok toks]; simpl in IH.
  - subst r. reflexivity.
  - destruct tok as [|d tk].
    + simpl in *. subst r. reflexivity.
    + destruct (Bool.eqb (Js.isWhiteSpace c) (Js.isWhiteSpace d));
        simpl; rewrite <- IH; reflexivity.
Qed.

Lemma splitWords_runs (text : string) :
  Forall (fun w => isRun w = true) (splitWords text).
Proof.
  induction text as [|c r IH]; [constructor|].
  simpl splitWords.
  assert (Hone : isRun (String c EmptyString) = true).
  { unfold isRun; simpl. destruct (Js.isWhiteSpace c); reflexivity. }
  destruct (splitWords r) as [|tok toks]; [repeat constructor; exact Hone|].
  destruct tok as [|d tk]; [constructor; [exact Hone|exact IH]|].
  destruct (Bool.eqb (Js.isWhiteSpace c) (Js.isWhiteSpace d)) eqn:E.
  - inversion IH as [|? ? Htok Htoks]; subst. constructor; [|exact Htoks].
    apply Bool.eqb_prop in E. unfold isRun in *. simpl in *.
    rewrite E. destruct (Js.isWhiteSpace d); simpl in *; exact Htok.
  - constructor; [exact Hone|exact IH].
Qed.

Lemma run_with_a_word (w : string) :
  isRun w = true -> hasNonSpace w = true ->
  allChars (fun c => negb (Js.isWhiteSpace c)) w = true.
Proof.
  unfold isRun. intros H Hn. apply andb_true_iff in H as [_ H].
  apply orb_true_iff in H as [H|H]; [|exact H].
  exfalso. induction w as [|c r IH]; simpl in *; [discriminate|].
  apply andb_true_iff in H as [Hc Hr]. rewrite Hc in Hn. simpl in Hn. auto.
Qed.

Lemma removePunctuation_clean (w : string) :
  allChars (fun c => negb (Js.isWhiteSpace c)) w = true ->
  allChars (fun c => negb (Js.isWhiteSpace c || isPunctuation c))
    (removePunctuation w) = true.
Proof.
  induction w as [|c r IH]; simpl; [reflexivity|].
  intros H. apply andb_true_iff in H as [Hc Hr].
  destruct (isPunctuation c) eqn:P; [apply IH, Hr|].
  simpl. rewrite P, orb_false_r, Hc. apply IH, Hr.
Qed.

Lemma trimEnd_clean (s : string) :
  allChars (fun c => negb (Js.isWhiteSpace c || isPunctuation c)) s = true ->
  Js.trimEnd s = s.
Proof.
  induction s as [|c r IH]; simpl; [reflexivity|].
  intros H. apply andb_true_iff in H as [Hc Hr]. rewrite (IH Hr).
  apply negb_true_iff, orb_false_iff in Hc as [Hc _].
  destruct r; [rewrite Hc|]; reflexivity.
Qed.

Lemma trim_clean (s : string) :
  allChars (fun c => negb (Js.isWhiteSpace c || isPunctuation c)) s = true ->
  Js.trim s = s.
Proof.
  intros H. unfold Js.trim.
  assert (Hs : Js.trimStart s = s).
  { destruct s as [|c r]; [reflexivity|]. simpl in *.
    apply andb_true_iff in H as [Hc _].
    apply negb_true_iff, orb_false_iff in Hc as [Hc _].
    rewrite Hc. reflexivity. }
  rewrite Hs. apply trimEnd_clean, H.
Qed.

Lemma dropFinalPunctuation_clean (s : string) :
  allChars (fun c => negb (Js.isWhiteSpace c || isPunctuation c)) s = true ->
  dropFinalPunctuation s = s.
Proof.
  induction s as [|c r IH]; [reflexivity|].
  intros H. simpl in H. apply andb_true_iff in H as [Hc Hr].
  apply negb_true_iff, orb_false_iff in Hc as [_ Hc].
  destruct r as [|d r']; simpl; [rewrite Hc; reflexivity|].
  f_equal. apply IH, Hr.
Qed.

(** X16: the button of a rendered word asks for that word with every
    punctuation mark removed, which is a non-empty text without white space
    or punctuation; [handleWordClick] trims it and drops a final
    punctuation mark without changing it, so that the click is the topic
    change to exactly that text. *)
Theorem word_click_searches_the_clean_word :
  forall (text word target : string) (s : AppState),
    In word (splitWords text) -> clickTarget word = Some target ->
    target = removePunctuation word /\
    Js.nonEmpty target = true /\
    allChars (fun c => negb (Js.isWhiteSpace c || isPunctuation c)) target
    = true /\
    handleWordClick target s = handleTopicChange target s.
Proof.
  intros text word target s Hin Hclick. unfold clickTarget in Hclick.
  destruct (hasNonSpace word) eqn:Hw; [|discriminate].
  destruct (Js.nonEmpty (removePunctuation word)) eqn:Hne; [|discriminate].
  injection Hclick as <-.
  assert (Hrun : isRun word = true).
  { pose proof (splitWords_runs text) as Hall. rewrite Forall_forall in Hall.
    apply Hall, list_elem_of_In, Hin. }
  pose proof (removePunctuation_clean word (run_with_a_word word Hrun Hw))
    as Hclean.
  split; [reflexivity|]. split; [exact Hne|]. split; [exact Hclean|].
  unfold handleWordClick.
  rewrite (trim_clean _ Hclean), (dropFinalPunctuation_clean _ Hclean).
  reflexivity.
Qed.

Lemma word_click_searches_the_clean_word_witness :
  handleWordClick "memex" afterHypertext
  = handleTopicChange "memex" afterHypertext.
Proof.
  apply (word_click_searches_the_clean_word "the (memex), a desk" "(memex),"
           "memex" afterHypertext).
  - vm_compute. tauto.
  - reflexivity.
Defined.

(** ** Diagram tags in the content *)

Lemma append_cons (c : ascii) (a b : string) :
  String c a +:+ b = String c (a +:+ b).
Proof. reflexivity. Qed.

Lemma take_drop_string (n : nat) :
  forall s : string, takeString n s +:+ dropString n s = s.
Proof.
  induction n as [|n IH]; intros [|c r]; try reflexivity.
  simpl. rewrite append_cons, IH. reflexivity.
Qed.

Lemma matchDiagramAt_length (s p : string) (n : nat) :
  matchDiagramAt s = Some (p, n) -> exists m, n = S m.
Proof.
  unfold matchDiagramAt. destruct (stripPrefix "[DIAGRAM:" s); [|discriminate].
  destruct (skipSpaces s0) as [rest k].
  destruct (captureToBracket rest) as [[q m]|]; [|discriminate].
  intros H. injection H as _ <-. eexists. reflexivity.
Qed.

(** The parts, put together, spell the content. *)
Lemma splitDiagrams_spells (s : string) :
  forall skip : nat,
    fold_right String.append EmptyString
      (fst (splitDiagrams skip s)
       :: flat_map (fun tagged => [fst tagged; snd tagged])
            (snd (splitDiagrams skip s)))
    = dropString skip s.
Proof.
  induction s as [|c r IH]; intros skip; [destruct skip; reflexivity|].
  simpl splitDiagrams. destruct skip as [|k]; [|apply IH].
  destruct (matchDiagramAt (String c r)) as [[p n]|] eqn:M.
  - destruct (matchDiagramAt_length _ _ _ M) as [m ->].
    replace (S m - 1)%nat with m by lia.
    specialize (IH m). destruct (splitDiagrams m r) as [text rest].
    simpl in *. rewrite IH, append_cons, take_drop_string. reflexivity.
  - specialize (IH 0%nat). destruct (splitDiagrams 0 r) as [text rest].
    simpl in *. rewrite append_cons, IH. destruct r; reflexivity.
Qed.

(** X17: the content is shown raw while the tab is loading and as nothing
    when it is empty; otherwise it is cut into parts, the diagram tags and
    the texts around them, which put together spell the content, and a part
    is cut into its runs of white space and its runs of other characters,
    none of them empty, which put together spell the part. *)
Theorem rendered_tokens_spell_the_text :
  forall (images : gmap string string) (content part : string)
         (loading : bool),
    fold_right String.append EmptyString (contentParts content) = content /\
    fold_right String.append EmptyString (splitWords part) = part /\
    Forall (fun w => isRun w = true) (splitWords part) /\
    ContentDisplay images content true = Streaming content /\
    ContentDisplay images EmptyString false = Nothing /\
    (ContentDisplay images content loading = Nothing ->
     content = EmptyString).
Proof.
  intros images content part loading.
  split; [exact (splitDiagrams_spells content 0)|].
  split; [apply splitWords_spells|]. split; [apply splitWords_runs|].
  split; [reflexivity|]. split; [reflexivity|].
  unfold ContentDisplay. destruct loading; [discriminate|].
  destruct content; [reflexivity|discriminate].
Qed.

Lemma rendered_tokens_spell_the_text_witness :
  fold_right String.append EmptyString
    ["the "; "[DIAGRAM: a memex]"; " (memex),"]
  = "the [DIAGRAM: a memex] (memex),".
Proof.
  exact (proj1 (rendered_tokens_spell_the_text ∅
                  "the [DIAGRAM: a memex] (memex)," "" false)).
Defined.

(** ** A generation and the service it calls *)

Lemma append_empty_r (s : string) : s +:+ "" = s.
Proof.
  induction s as [|c r IH]; [reflexivity|].
  change (String c (r +:+ "") = String c r). f_equal. exact IH.
Qed.

Lemma run_app (a b : list Signal) :
  forall (g : Generation) (s : AppState),
    run g (a ++ b)%list s = run (fst (run g a s)) b (snd (run g a s)).
Proof.
  induction a as [|sig a IH]; intros g s; simpl; [reflexivity|].
  destruct (step g sig s) as [g' s']. apply IH.
Qed.

Lemma selectStrategy_fetches (t : Tab) : selectStrategy t <> PageTranslation.
Proof.
  unfold selectStrategy.
  repeat match goal with
         | |- context [if ?b then _ else _] => destruct b
         end; discriminate.
Qed.

(** One chunk, taken by a live generation that streams. *)
Lemma step_chunk (g : Generation) (text : string)
    (src : option (list Source)) (s : AppState) (t : Tab) :
  g_done g = false -> g_cancelled g = false ->
  g_strategy g <> WebSearch ->
  tabOf g s = Some t ->
  fst (step g (Yield (Chunk text src)) s) = gen_acc (g_acc g +:+ text) g /\
  cache (snd (step g (Yield (Chunk text src)) s)) = cache s /\
  activeTabId (snd (step g (Yield (Chunk text src)) s)) = activeTabId s /\
  (g_strategy g <> PageTranslation ->
   finalContentRef (snd (step g (Yield (Chunk text src)) s))
   = g_acc g +:+ text) /\
  exists t1, tabOf g (snd (step g (Yield (Chunk text src)) s)) = Some t1 /\
    isLoading t1 = isLoading t /\ error t1 = error t /\
    request t1 = request t /\ content t1 = Some (g_acc g +:+ text).
Proof.
  intros Hdone Hc Hns Ht. unfold tabOf in *.
  unfold step, fetchDataStep, fetchTranslationStep, onChunk.
  rewrite Hdone, Hc.
  assert (Hacc : (if Js.nonEmpty text then g_acc g +:+ text else g_acc g)
                 = g_acc g +:+ text).
  { destruct text; [symmetry; apply append_empty_r|reflexivity]. }
  destruct (g_strategy g) eqn:E; try congruence; rewrite ?Hacc;
    try destruct src; destruct s; simpl in *;
    rewrite find_updateTab by keeps_id; rewrite Ht; simpl;
    repeat split; try congruence; eexists; repeat split.
Qed.

Lemma run_chunks (sigs : list Signal) :
  forall (g : Generation) (s : AppState) (t : Tab),
    g_done g = false -> g_cancelled g = false ->
    g_strategy g <> WebSearch ->
    Forall (fun sig => isChunk sig = true) sigs ->
    tabOf g s = Some t ->
    fst (run g sigs s) = gen_acc (g_acc g +:+ joined sigs) g /\
    cache (snd (run g sigs s)) = cache s /\
    activeTabId (snd (run g sigs s)) = activeTabId s /\
    (g_strategy g <> PageTranslation -> finalContentRef s = g_acc g ->
     finalContentRef (snd (run g sigs s)) = g_acc g +:+ joined sigs) /\
    exists t', tabOf g (snd (run g sigs s)) = Some t' /\
      isLoading t' = isLoading t /\ error t' = error t /\
      request t' = request t /\
      (content t' = Some (g_acc g +:+ joined sigs) \/
       sigs = [] /\ content t' = content t).
Proof.
  induction sigs as [|sig rest IH]; intros g s t Hdone Hc Hns Hall Ht.
  - simpl. rewrite append_empty_r.
    split; [destruct g; reflexivity|]. split; [reflexivity|].
    split; [reflexivity|]. split; [auto|].
    exists t. repeat split; auto.
  - inversion Hall as [|? ? Hsig Hrest]; subst.
    destruct sig as [[text src|msg]|now|e now|text src now];
      try discriminate Hsig.
    destruct (step_chunk g text src s t Hdone Hc Hns Ht)
      as (Hg & Hcache & Hact & Href & t1 & Ht1 & Hl1 & He1 & Hr1 & Hc1).
    simpl run. destruct (step g (Yield (Chunk text src)) s) as [g1 s1].
    simpl in Hg, Hcache, Hact, Href, Ht1. subst g1.
    destruct (IH (gen_acc (g_acc g +:+ text) g) s1 t1)
      as (Hg' & Hcache' & Hact' & Href' & t' & Ht' & Hl' & He' & Hr' & Hc');
      try assumption.
    simpl joined. simpl g_acc in *.
    rewrite <- append_assoc in *.
    split; [rewrite Hg'; reflexivity|]. split; [congruence|].
    split; [congruence|].
    split; [intros Hnt _; apply Href'; [exact Hnt|apply Href, Hnt]|].
    exists t'. split; [exact Ht'|]. split; [congruence|].
    split; [congruence|]. split; [congruence|].
    left. destruct Hc' as [Hc'|[-> Hc']]; [exact Hc'|].
    simpl. rewrite append_empty_r in *. congruence.
Qed.

Lemma plainChunks_text (chunks : list SdkChunk) :
  Forall (fun sig => isChunk sig = true) (plainChunks chunks) /\
  joined (plainChunks chunks) = sdkText chunks.
Proof.
  induction chunks as [|[[text|] src] rest [IHa IHj]]; simpl;
    [split; [constructor|reflexivity]| |].
  - destruct text as [|c r]; simpl.
    + split; [exact IHa|]. rewrite IHj. reflexivity.
    + split; [constructor; [reflexivity|exact IHa]|].
      unfold joined in *. simpl. rewrite IHj. reflexivity.
  - split; [exact IHa|]. rewrite IHj. reflexivity.
Qed.

Lemma groundedChunks_text (chunks : list SdkChunk) :
  Forall (fun sig => isChunk sig = true) (groundedChunks chunks) /\
  joined (groundedChunks chunks) = sdkText chunks.
Proof.
  induction chunks as [|[text src] rest [IHa IHj]]; simpl;
    [split; [constructor|reflexivity]|].
  destruct (Js.truthy text || hasSources src) eqn:E; simpl.
  - split; [constructor; [reflexivity|exact IHa]|].
    unfold joined in *. simpl. rewrite IHj. reflexivity.
  - split; [exact IHa|]. rewrite IHj.
    apply orb_false_iff in E as [E _].
    destruct text as [[|c r]|]; try discriminate E; reflexivity.
Qed.

Lemma selectStrategy_document (t : Tab) (b : bool) :
  selectStrategy t = DocumentQuery b ->
  Js.truthy (documentContext t) || hasFile t = true.
Proof.
  unfold selectStrategy.
  repeat match goal with
         | |- context [if ?c then _ else _] => destruct c eqn:?
         end; try discriminate; intros _; reflexivity.
Qed.

(** The signals of a streaming service: chunks, then the end of the
    stream. *)
Lemma callService_stream (g : Generation) (sdk : Sdk) (later : Z) :
  g_strategy g = selectStrategy (g_snapshot g) ->
  g_strategy g <> WebSearch ->
  exists sigs describe,
    Forall (fun sig => isChunk sig = true) sigs /\
    joined sigs = sdkText (sdk_chunks sdk) /\
    callService g sdk later
    = (sigs ++ closeStream describe (sdk_end sdk) later)%list.
Proof.
  intros Hsel Hns. unfold callService.
  destruct (g_strategy g) eqn:E; try congruence.
  - eexists _, _. split; [apply plainChunks_text|].
    split; [apply plainChunks_text|reflexivity].
  - eexists _, _. split; [apply groundedChunks_text|].
    split; [apply groundedChunks_text|reflexivity].
  - eexists _, _. split; [apply groundedChunks_text|].
    split; [apply groundedChunks_text|reflexivity].
  - symmetry in Hsel. apply selectStrategy_document in Hsel.
    unfold streamInDocumentQuery. unfold hasFile in Hsel. rewrite Hsel.
    eexists _, _. split; [apply plainChunks_text|].
    split; [apply plainChunks_text|reflexivity].
  - eexists _, _. split; [apply groundedChunks_text|].
    split; [apply groundedChunks_text|reflexivity].
  - exfalso. eapply selectStrategy_fetches. symmetry. exact Hsel.
Qed.

Lemma runEffect_loading (now : Z) (s : AppState) (t : Tab) :
  activeById s = Some t -> Js.nonEmpty (currentTopic t) = true ->
  inEbookTextMode t = false -> isLoading t = true ->
  runEffect now s
  = (with_finalSourcesRef [] (with_finalContentRef "" s),
     Some {| g_tabId := activeTabId s; g_snapshot := t;
             g_strategy := selectStrategy t; g_cacheKey := cacheKey t;
             g_acc := ""; g_startTime := now;
             g_cancelled := false; g_done := false |}).
Proof.
  intros Ht Hne Hm Hl. unfold runEffect.
  rewrite (mainEffect_loading s t (activeById_activeTab s t Ht) Hne Hm Hl).
  rewrite (activeById_activeTab s t Ht). reflexivity.
Qed.

(** The [finally] block of a run that was not cancelled, seen from its
    tab. *)
Lemma finallyBlock_tab (g : Generation) (later : Z) (s : AppState) (t : Tab) :
  g_cancelled g = false -> tabOf g s = Some t ->
  activeTabId (finallyBlock g later s) = activeTabId s /\
  exists t', tabOf g (finallyBlock g later s) = Some t' /\
    isLoading t' = false /\
    generationTime t' = Some (later - g_startTime g) /\
    error t' = error t /\ content t' = content t /\
    groundingSources t' = groundingSources t /\ request t' = request t.
Proof.
  intros Hc Ht. unfold tabOf in *. unfold finallyBlock. rewrite Hc.
  destruct s; simpl in *. split; [reflexivity|].
  rewrite find_updateTab by keeps_id. rewrite Ht. simpl.
  eexists; repeat split.
Qed.

Lemma catchBlock_tab (g : Generation) (e : Thrown) (s : AppState) (t : Tab) :
  g_cancelled g = false -> tabOf g s = Some t ->
  activeTabId (catchBlock g e s) = activeTabId s /\
  cache (catchBlock g e s) = cache s /\
  finalContentRef (catchBlock g e s) = finalContentRef s /\
  exists t', tabOf g (catchBlock g e s) = Some t' /\
    isLoading t' = false /\ error t' = Some (errorMessage e) /\
    content t' = content t /\
    groundingSources t' = groundingSources t /\ request t' = request t.
Proof.
  intros Hc Ht. unfold tabOf in *. unfold catchBlock. rewrite Hc.
  destruct s; simpl in *. repeat (split; [reflexivity|]).
  rewrite find_updateTab by keeps_id. rewrite Ht. simpl.
  eexists; repeat split.
Qed.

(** X18: a request that is not served by [performAiSearch] and whose stream
    ends normally leaves its tab, still the active one, with the texts of
    all the chunks of the SDK, in their order, as its content, no longer
    loading, with the time taken and without touching the error or what is
    asked for; and the cache holds that same text under the fingerprint of
    the request. *)
Theorem completed_stream_is_shown_and_cached :
  forall (now later : Z) (s : AppState) (t : Tab) (sdk : Sdk),
    activeById s = Some t -> Js.nonEmpty (currentTopic t) = true ->
    inEbookTextMode t = false -> isLoading t = true ->
    selectStrategy t <> WebSearch -> sdk_end sdk = SdkDone ->
    c_content <$> cache (serve now later sdk s) !! cacheKey t
    = Some (sdkText (sdk_chunks sdk)) /\
    exists t', activeById (serve now later sdk s) = Some t' /\
      isLoading t' = false /\ error t' = error t /\
      generationTime t' = Some (later - now) /\ request t' = request t /\
      (content t' = Some (sdkText (sdk_chunks sdk)) \/
       sdkText (sdk_chunks sdk) = "" /\ content t' = content t).
Proof.
  intros now later s t sdk Ht Hne Hm Hl Hns Hend. unfold serve.
  rewrite (runEffect_loading now s t Ht Hne Hm Hl).
  set (g := {| g_tabId := activeTabId s; g_snapshot := t;
               g_strategy := selectStrategy t; g_cacheKey := cacheKey t;
               g_acc := ""; g_startTime := now;
               g_cancelled := false; g_done := false |}).
  set (s0 := with_finalSourcesRef [] (with_finalContentRef "" s)).
  destruct (callService_stream g sdk later eq_refl Hns)
    as (sigs & describe & Hall & Hj & ->).
  rewrite Hend. simpl closeStream. rewrite run_app.
  assert (Ht0 : tabOf g s0 = Some t) by exact Ht.
  destruct (run_chunks sigs g s0 t eq_refl eq_refl Hns Hall Ht0)
    as (Hg & Hcache & Hact & Href & t1 & Ht1 & Hl1 & He1 & Hr1 & Hc1).
  specialize (Href (selectStrategy_fetches t) eq_refl).
  destruct (run g sigs s0) as [g1 s1]. simpl in Hg, Hcache, Hact, Href, Ht1.
  subst g1. simpl fst. simpl snd. simpl run.
  rewrite step_return; [|reflexivity|apply selectStrategy_fetches|exact Hns].
  simpl snd.
  destruct (finallyBlock_tab (gen_acc (g_acc g +:+ joined sigs) g) later s1
              t1 eq_refl Ht1)
    as (Hact2 & t2 & Ht2 & Hl2 & Hg2 & He2 & Hc2 & _ & Hr2).
  change (g_acc g) with "" in *. change ("" +:+ joined sigs) with (joined sigs) in *.
  split.
  - rewrite (finallyBlock_cache (gen_acc (joined sigs) g) later
               s1 eq_refl : cache _ !! cacheKey t = _).
    simpl. rewrite Href, Hj. reflexivity.
  - exists t2. split.
    { unfold activeById. rewrite Hact2, Hact. exact Ht2. }
    split; [exact Hl2|]. split; [congruence|]. split; [exact Hg2|].
    split; [congruence|].
    destruct Hc1 as [Hc1|[-> Hc1]].
    + left. rewrite Hc2, Hc1, Hj. reflexivity.
    + right. split; [symmetry; exact Hj|congruence].
Qed.

Lemma completed_stream_is_shown_and_cached_witness :
  c_content <$> cache (serve 100 250
                         {| sdk_chunks :=
                              [ {| k_text := Some "Hyper";
                                   k_sources := None |};
                                {| k_text := None;
                                   k_sources := Some ["src"] |};
                                {| k_text := Some "text";
                                   k_sources := None |} ];
                            sdk_end := SdkDone;
                            sdk_answer := inr OtherValue |}
                         (mountEffect initialState))
                !! "wiki:hypertext:0:English"
  = Some "Hypertext".
Proof.
  refine (proj1 (completed_stream_is_shown_and_cached 100 250
                   (mountEffect initialState)
                   (spread (createNewTab "default-tab")
                      [set_currentTopic "Hypertext"; set_isLoading true;
                       set_title "Hypertext"])
                   _ _ _ _ _ _ _));
    vm_compute; try reflexivity; discriminate.
Defined.

Lemma step_error_event (g : Generation) (msg : string) (s : AppState) :
  g_cancelled g = false -> step g (Yield (ErrorEvent msg)) s = (g, s).
Proof.
  intros Hc. unfold step, fetchDataStep, fetchTranslationStep. rewrite Hc.
  destruct (g_done g); [reflexivity|]. destruct (g_strategy g); reflexivity.
Qed.

(** X19: when the SDK stream of such a request fails, the error of the tab
    is the message of the SDK error itself (or the service's own fallback
    text when the thrown value is no error object), not the description the
    service puts in its error event; the text received before the failure
    stays the content of the tab, and it is that text the cache then
    holds. *)
Theorem failed_stream_shows_the_sdk_message :
  forall (now later : Z) (s : AppState) (t : Tab) (sdk : Sdk) (e : Thrown),
    activeById s = Some t -> Js.nonEmpty (currentTopic t) = true ->
    inEbookTextMode t = false -> isLoading t = true ->
    selectStrategy t <> WebSearch -> sdk_end sdk = SdkFails e ->
    c_content <$> cache (serve now later sdk s) !! cacheKey t
    = Some (sdkText (sdk_chunks sdk)) /\
    exists t', activeById (serve now later sdk s) = Some t' /\
      isLoading t' = false /\
      error t' = Some (serviceErrorMessage e) /\
      request t' = request t /\
      (content t' = Some (sdkText (sdk_chunks sdk)) \/
       sdkText (sdk_chunks sdk) = "" /\ content t' = content t).
Proof.
  intros now later s t sdk e Ht Hne Hm Hl Hns Hend. unfold serve.
  rewrite (runEffect_loading now s t Ht Hne Hm Hl).
  set (g := {| g_tabId := activeTabId s; g_snapshot := t;
               g_strategy := selectStrategy t; g_cacheKey := cacheKey t;
               g_acc := ""; g_startTime := now;
               g_cancelled := false; g_done := false |}).
  set (s0 := with_finalSourcesRef [] (with_finalContentRef "" s)).
  destruct (callService_stream g sdk later eq_refl Hns)
    as (sigs & describe & Hall & Hj & ->).
  rewrite Hend. simpl closeStream. unfold reportAndThrow. rewrite run_app.
  assert (Ht0 : tabOf g s0 = Some t) by exact Ht.
  destruct (run_chunks sigs g s0 t eq_refl eq_refl Hns Hall Ht0)
    as (Hg & Hcache & Hact & Href & t1 & Ht1 & Hl1 & He1 & Hr1 & Hc1).
  specialize (Href (selectStrategy_fetches t) eq_refl).
  destruct (run g sigs s0) as [g1 s1]. simpl in Hg, Hcache, Hact, Href, Ht1.
  subst g1. simpl fst. simpl snd. simpl run.
  rewrite step_error_event by reflexivity.
  rewrite step_throw; [|reflexivity|apply selectStrategy_fetches].
  simpl snd.
  change (g_acc g) with "" in *.
  change ("" +:+ joined sigs) with (joined sigs) in *.
  destruct (catchBlock_tab (gen_acc (joined sigs) g)
              (ErrorObject (serviceErrorMessage e)) s1 t1 eq_refl Ht1)
    as (Hact2 & Hcache2 & Href2 & t2 & Ht2 & Hl2 & He2 & Hc2 & _ & Hr2).
  destruct (finallyBlock_tab (gen_acc (joined sigs) g) later _ t2 eq_refl Ht2)
    as (Hact3 & t3 & Ht3 & Hl3 & Hg3 & He3 & Hc3 & _ & Hr3).
  split.
  - rewrite (finallyBlock_cache (gen_acc (joined sigs) g) later
               _ eq_refl : cache _ !! cacheKey t = _).
    rewrite Href2, Href, Hj. reflexivity.
  - exists t3. split.
    { unfold activeById. rewrite Hact3, Hact2, Hact. exact Ht3. }
    split; [exact Hl3|]. split; [rewrite He3, He2; reflexivity|].
    split; [congruence|].
    destruct Hc1 as [Hc1|[-> Hc1]].
    + left. rewrite Hc3, Hc2, Hc1, Hj. reflexivity.
    + right. split; [symmetry; exact Hj|congruence].
Qed.

Lemma failed_stream_shows_the_sdk_message_witness :
  exists t', activeById
               (serve 100 250
                  {| sdk_chunks := [ {| k_text := Some "Hyper";
                                        k_sources := None |} ];
                     sdk_end := SdkFails (ErrorObject "quota");
                     sdk_answer := inr OtherValue |}
                  (mountEffect initialState)) = Some t' /\
    error t' = Some "quota" /\ content t' = Some "Hyper".
Proof.
  destruct (failed_stream_shows_the_sdk_message 100 250
              (mountEffect initialState)
              (spread (createNewTab "default-tab")
                 [set_currentTopic "Hypertext"; set_isLoading true;
                  set_title "Hypertext"])
              {| sdk_chunks := [ {| k_text := Some "Hyper";
                                    k_sources := None |} ];
                 sdk_end := SdkFails (ErrorObject "quota");
                 sdk_answer := inr OtherValue |}
              (ErrorObject "quota"))
    as (_ & t' & Ht' & _ & He & _ & Hc);
    try (vm_compute; reflexivity); [vm_compute; discriminate|].
  exists t'. split; [exact Ht'|]. split; [exact He|].
  destruct Hc as [Hc|[Hc _]]; [exact Hc|discriminate Hc].
Defined.

(** X20: a request served by [performAiSearch] takes the answer of the SDK
    and its sources as content and sources of the tab and caches them; when
    the SDK fails, the error of the tab is the message "Could not complete
    search for", the topic in quotes and the message of the SDK error, the
    tab keeps the content it had, and the cache gets an entry with empty
    content.  Either way the tab is no longer loading
    and asks for the same thing. *)
Theorem search_answer_is_shown_and_cached :
  forall (now later : Z) (s : AppState) (t : Tab) (sdk : Sdk),
    activeById s = Some t -> Js.nonEmpty (currentTopic t) = true ->
    inEbookTextMode t = false -> isLoading t = true ->
    selectStrategy t = WebSearch ->
    exists t', activeById (serve now later sdk s) = Some t' /\
      isLoading t' = false /\ request t' = request t /\
      generationTime t' = Some (later - now) /\
      match sdk_answer sdk with
      | inl (text, sources) =>
          content t' = Some (default "" text) /\
          groundingSources t' = default [] sources /\
          error t' = error t /\
          cache (serve now later sdk s) !! cacheKey t
          = Some {| c_content := default "" text;
                    c_generationTime := Some (later - now);
                    c_sources := Some (default [] sources);
                    c_language := Some (language t) |}
      | inr e =>
          content t' = content t /\
          error t' = Some ("Could not complete search for " +:+ doubleQuote
                           +:+ currentTopic t +:+ doubleQuote +:+ ". "
                           +:+ serviceErrorMessage e) /\
          c_content <$> cache (serve now later sdk s) !! cacheKey t
          = Some ""
      end.
Proof.
  intros now later s t sdk Ht Hne Hm Hl Hs. unfold serve.
  rewrite (runEffect_loading now s t Ht Hne Hm Hl).
  unfold callService. simpl g_strategy. simpl g_snapshot. rewrite Hs.
  unfold activeById in *.
  destruct (sdk_answer sdk) as [[text sources]|e]; simpl performAiSearch;
    simpl run; unfold step, fetchDataStep; simpl g_done; simpl g_strategy;
    simpl g_cancelled; cbv iota; unfold finallyBlock, catchBlock;
    simpl g_cancelled; cbv iota; destruct s; simpl in *;
    rewrite !find_updateTab by keeps_id; rewrite Ht; simpl;
    eexists; (split; [reflexivity|]); repeat split;
    rewrite lookup_insert_eq; reflexivity.
Qed.

Lemma search_answer_is_shown_and_cached_witness :
  exists t', activeById
               (serve 10 30
                  {| sdk_chunks := []; sdk_end := SdkDone;
                     sdk_answer := inl (Some "Cats purr.", None) |}
                  (handleSearch "Cats"
                     (onWebSearchModeChange true initialState))) = Some t' /\
    content t' = Some "Cats purr." /\ groundingSources t' = [].
Proof.
  destruct (search_answer_is_shown_and_cached 10 30
              (handleSearch "Cats" (onWebSearchModeChange true initialState))
              (default (createNewTab "")
                 (activeById
                    (handleSearch "Cats"
                       (onWebSearchModeChange true initialState))))
              {| sdk_chunks := []; sdk_end := SdkDone;
                 sdk_answer := inl (Some "Cats purr.", None) |})
    as (t' & Ht' & _ & _ & _ & Hc & Hg & _);
    try (vm_compute; reflexivity).
  exists t'. split; [exact Ht'|]. split; [exact Hc|exact Hg].
Defined.

Lemma runEffect_translating (now : Z) (s : AppState) (t : Tab) :
  activeById s = Some t -> Js.nonEmpty (currentTopic t) = true ->
  inEbookTextMode t = true -> isTranslationNeeded t = true ->
  isLoading t = true ->
  runEffect now s
  = (s, Some {| g_tabId := activeTabId s; g_snapshot := t;
                g_strategy := PageTranslation; g_cacheKey := "";
                g_acc := ""; g_startTime := now;
                g_cancelled := false; g_done := false |}).
Proof.
  intros Ht Hne Hm Htr Hl. unfold runEffect.
  rewrite (mainEffect_translation s t (activeById_activeTab s t Ht)
             Hne Hm Htr Hl).
  rewrite (activeById_activeTab s t Ht). reflexivity.
Qed.

(** An error event followed by the end of the stream is the end of the
    stream. *)
Lemma error_event_then_return (g : Generation) (msg : string) (later : Z)
    (s : AppState) :
  run g [Yield (ErrorEvent msg); Return later] s = run g [Return later] s.
Proof.
  simpl. unfold step, fetchDataStep, fetchTranslationStep, finallyBlock.
  destruct (g_done g) eqn:D; [rewrite D; reflexivity|].
  destruct (g_strategy g) eqn:E; destruct (g_cancelled g) eqn:C; simpl;
    rewrite ?D, ?E, ?C; reflexivity.
Qed.

(** X21: the translation of a page ends in the same way whether the SDK
    stream completes or fails: the content of the tab is the texts of
    the chunks received, in their order, the tab is no longer loading, and
    its error is left as it was, so that the message "Translation failed" of [fetchTranslation]
    is never shown for a failure of the SDK. *)
Theorem failed_translation_is_silent :
  forall (now later : Z) (s : AppState) (t : Tab) (sdk : Sdk),
    activeById s = Some t -> Js.nonEmpty (currentTopic t) = true ->
    inEbookTextMode t = true -> isTranslationNeeded t = true ->
    isLoading t = true ->
    exists t', activeById (serve now later sdk s) = Some t' /\
      isLoading t' = false /\ error t' = error t /\
      request t' = request t /\
      (content t' = Some (sdkText (sdk_chunks sdk)) \/
       sdkText (sdk_chunks sdk) = "" /\ content t' = content t).
Proof.
  intros now later s t sdk Ht Hne Hm Htr Hl. unfold serve.
  rewrite (runEffect_translating now s t Ht Hne Hm Htr Hl).
  set (g := {| g_tabId := activeTabId s; g_snapshot := t;
               g_strategy := PageTranslation; g_cacheKey := "";
               g_acc := ""; g_startTime := now;
               g_cancelled := false; g_done := false |}).
  assert (Hrun : run g (callService g sdk later) s
                 = run g (plainChunks (sdk_chunks sdk) ++ [Return later])%list
                     s).
  { unfold callService, streamTranslation. simpl g_strategy.
    destruct (sdk_end sdk); [reflexivity|].
    rewrite !run_app. apply error_event_then_return. }
  rewrite Hrun, run_app.
  destruct (plainChunks_text (sdk_chunks sdk)) as [Hall Hj].
  assert (Ht0 : tabOf g s = Some t) by exact Ht.
  destruct (run_chunks _ g s t eq_refl eq_refl ltac:(discriminate) Hall Ht0)
    as (Hg & _ & Hact & _ & t1 & Ht1 & Hl1 & He1 & Hr1 & Hc1).
  destruct (run g (plainChunks (sdk_chunks sdk)) s) as [g1 s1].
  simpl in Hg, Hact, Ht1. subst g1. simpl fst. simpl snd. simpl run.
  unfold step, fetchTranslationStep. simpl. unfold activeById, tabOf in *.
  simpl in *. rewrite Hact. destruct s1; simpl in *.
  rewrite find_updateTab by keeps_id. rewrite Ht1. simpl.
  eexists; split; [reflexivity|]. simpl.
  split; [reflexivity|]. split; [exact He1|]. split; [exact Hr1|].
  rewrite <- Hj. destruct Hc1 as [Hc1|[Hc1 Hc2]].
  - left. exact Hc1.
  - right. rewrite Hc1. split; [reflexivity|exact Hc2].
Qed.

Lemma failed_translation_is_silent_witness :
  exists t', activeById
               (serve 0 10
                  {| sdk_chunks := [ {| k_text := Some "page un";
                                        k_sources := None |} ];
                     sdk_end := SdkFails (ErrorObject "quota");
                     sdk_answer := inr OtherValue |}
                  bookInFrench) = Some t' /\
    isLoading t' = false /\ error t' = None.
Proof.
  destruct (failed_translation_is_silent 0 10 bookInFrench
              (g_snapshot pageOneGeneration)
              {| sdk_chunks := [ {| k_text := Some "page un";
                                    k_sources := None |} ];
                 sdk_end := SdkFails (ErrorObject "quota");
                 sdk_answer := inr OtherValue |})
    as (t' & Ht' & Hl & He & _);
    try (vm_compute; reflexivity).
  exists t'. split; [exact Ht'|]. split; [exact Hl|exact He].
Defined.

(** ** What a generation leaves alone *)

Lemma request_spread (u : Updates) :
  Forall (fun assign => forall t, request (assign t) = request t) u ->
  forall t, request (spread t u) = request t.
Proof.
  unfold spread. induction 1 as [|assign u Ha _ IH]; intros t;
    [reflexivity|].
  simpl. rewrite IH. apply Ha.
Qed.

Lemma request_updateTab (tid : string) (u : Updates) (ts : list Tab) :
  Forall (fun assign => forall t, request (assign t) = request t) u ->
  map request (updateTab tid u ts) = map request ts.
Proof.
  intros Hu. unfold updateTab. rewrite map_map. apply map_ext.
  intros t. destruct (String.eqb (id t) tid); [|reflexivity].
  apply request_spread, Hu.
Qed.

Lemma step_request (g : Generation) (sig : Signal) (s : AppState) :
  map request (tabs (snd (step g sig s))) = map request (tabs s) /\
  map generatedDiagrams (tabs (snd (step g sig s)))
  = map generatedDiagrams (tabs s) /\
  activeTabId (snd (step g sig s)) = activeTabId s /\
  searchHistory (snd (step g sig s)) = searchHistory s /\
  pendingDiagramsRef (snd (step g sig s)) = pendingDiagramsRef s.
Proof.
  assert (Hd : forall tid u ts,
             Forall (fun assign =>
                       forall t, generatedDiagrams (assign t)
                                 = generatedDiagrams t) u ->
             map generatedDiagrams (updateTab tid u ts)
             = map generatedDiagrams ts).
  { intros tid u ts Hu. unfold updateTab. rewrite map_map. apply map_ext.
    intros t. destruct (String.eqb (id t) tid); [|reflexivity].
    unfold spread. revert t.
    induction Hu as [|assign u' Ha _ IH]; intros t; [reflexivity|].
    simpl. rewrite IH. apply Ha. }
  unfold step. destruct (g_done g); [repeat split|].
  unfold fetchDataStep, fetchTranslationStep, onChunk, finallyBlock,
    catchBlock.
  destruct (g_strategy g);
    destruct sig as [[text src|msg]|now|e now|text src now];
    destruct (g_cancelled g); try destruct src; destruct s; simpl;
    rewrite ?request_updateTab by keeps_id;
    rewrite ?Hd by keeps_id; repeat split.
Qed.

Lemma step_keeps_key (g : Generation) (sig : Signal) (s : AppState) :
  g_cacheKey (fst (step g sig s)) = g_cacheKey g.
Proof.
  unfold step. destruct (g_done g); [reflexivity|].
  unfold fetchDataStep, fetchTranslationStep, onChunk.
  destruct (g_strategy g) eqn:E;
    destruct sig as [[text src|msg]|now|e now|text src now];
    destruct (g_cancelled g) eqn:C; reflexivity.
Qed.

Lemma step_cache_elsewhere (g : Generation) (sig : Signal) (s : AppState)
    (k : string) :
  k <> g_cacheKey g -> cache (snd (step g sig s)) !! k = cache s !! k.
Proof.
  intros Hk. unfold step. destruct (g_done g); [reflexivity|].
  unfold fetchDataStep, fetchTranslationStep, onChunk, finallyBlock,
    catchBlock.
  destruct (g_strategy g);
    destruct sig as [[text src|msg]|now|e now|text src now];
    destruct (g_cancelled g); try destruct src; destruct s; simpl;
    rewrite ?lookup_insert_ne by congruence; reflexivity.
Qed.

Lemma step_cache_grows (g : Generation) (sig : Signal) (s : AppState)
    (k : string) :
  is_Some (cache s !! k) -> is_Some (cache (snd (step g sig s)) !! k).
Proof.
  intros Hk. destruct (decide (k = g_cacheKey g)) as [->|Hne];
    [|rewrite step_cache_elsewhere by exact Hne; exact Hk].
  unfold step. destruct (g_done g); [exact Hk|].
  unfold fetchDataStep, fetchTranslationStep, onChunk, finallyBlock,
    catchBlock.
  destruct (g_strategy g);
    destruct sig as [[text src|msg]|now|e now|text src now];
    destruct (g_cancelled g); try destruct src; destruct s; simpl in *;
    rewrite ?lookup_insert_eq; eauto.
Qed.

(** X22: whatever signals a generation receives, it leaves in every tab the
    fields that say what is asked for (topic, stacks, language, modes,
    document, page and section) and the diagrams, and it leaves the tab
    list's order, the active tab, the search history and the pending
    diagrams as they are; the tabs other than its own are unchanged, and in
    the cache no entry disappears and only the entry under its own
    fingerprint can change. *)
Theorem generation_keeps_every_request :
  forall (sigs : list Signal) (g : Generation) (s : AppState),
    map request (tabs (snd (run g sigs s))) = map request (tabs s) /\
    map generatedDiagrams (tabs (snd (run g sigs s)))
    = map generatedDiagrams (tabs s) /\
    activeTabId (snd (run g sigs s)) = activeTabId s /\
    searchHistory (snd (run g sigs s)) = searchHistory s /\
    pendingDiagramsRef (snd (run g sigs s)) = pendingDiagramsRef s /\
    others (g_tabId g) (tabs (snd (run g sigs s)))
    = others (g_tabId g) (tabs s) /\
    (forall k, is_Some (cache s !! k) ->
               is_Some (cache (snd (run g sigs s)) !! k)) /\
    (forall k, k <> g_cacheKey g ->
               cache (snd (run g sigs s)) !! k = cache s !! k).
Proof.
  induction sigs as [|sig rest IH]; intros g s; [repeat split; auto|].
  simpl run.
  pose proof (step_request g sig s) as (Hr & Hd & Ha & Hh & Hp).
  pose proof (step_others g sig s) as Ho.
  pose proof (step_keeps_identity g sig s) as (_ & _ & Hid).
  pose proof (step_keeps_key g sig s) as Hkey.
  pose proof (step_cache_grows g sig s) as Hgrow.
  pose proof (step_cache_elsewhere g sig s) as Helse.
  destruct (step g sig s) as [g1 s1]. simpl in *.
  destruct (IH g1 s1) as (Hr' & Hd' & Ha' & Hh' & Hp' & Ho' & Hg' & He').
  rewrite Hid in Ho'. rewrite Hkey in He'.
  repeat split; try congruence.
  - intros k Hk. apply Hg', Hgrow, Hk.
  - intros k Hk. rewrite He' by exact Hk. apply Helse, Hk.
Qed.

Lemma run_request (sigs : list Signal) :
  forall (g : Generation) (s : AppState),
    map request (tabs (snd (run g sigs s))) = map request (tabs s) /\
    activeTabId (snd (run g sigs s)) = activeTabId s.
Proof.
  induction sigs as [|sig rest IH]; intros g s; [split; reflexivity|].
  simpl run. pose proof (step_request g sig s) as (Hr & _ & Ha & _).
  destruct (step g sig s) as [g1 s1]. simpl in *.
  destruct (IH g1 s1) as [Hr' Ha']. split; congruence.
Qed.

Lemma find_request (tid : string) (ts : list Tab) :
  forall (ts' : list Tab) (t : Tab),
    map request ts' = map request ts ->
    List.find (fun x => String.eqb (id x) tid) ts = Some t ->
    exists t', List.find (fun x => String.eqb (id x) tid) ts' = Some t' /\
      request t' = request t.
Proof.
  induction ts as [|a ts IH]; intros [|a' ts'] t Hmap Hfind;
    try discriminate.
  simpl in Hmap.
  assert (Ha : request a' = request a) by congruence.
  assert (Hrest : map request ts' = map request ts) by congruence.
  assert (Hid : id a' = id a).
  { unfold request in Ha. congruence. }
  simpl in *.
  rewrite Hid. destruct (String.eqb (id a) tid).
  - injection Hfind as <-. exists a'. split; [reflexivity|exact Ha].
  - apply IH; assumption.
Qed.

Lemma runEffect_starts (now : Z) (s s0 : AppState) (g : Generation) :
  runEffect now s = (s0, Some g) ->
  g_tabId g = activeTabId s /\ tabs s0 = tabs s /\
  activeTabId s0 = activeTabId s /\
  g_cancelled g = false /\ g_done g = false.
Proof.
  unfold runEffect.
  destruct (mainEffect s); destruct (activeTab s); intros H;
    try discriminate; injection H as <- <-; repeat split.
Qed.

(** The step that ends a generation which was not cancelled clears the
    loading flag of its tab. *)
Lemma step_finishes (g : Generation) (sig : Signal) (s : AppState) :
  g_cancelled g = false -> g_done g = false ->
  g_done (fst (step g sig s)) = true ->
  Forall (fun t => id t = g_tabId g -> isLoading t = false)
    (tabs (snd (step g sig s))).
Proof.
  intros Hc Hd. unfold step. rewrite Hd.
  unfold fetchDataStep, fetchTranslationStep, onChunk, finallyBlock,
    catchBlock. rewrite Hc.
  destruct (g_strategy g);
    destruct sig as [[text src|msg]|now|e now|text src now];
    simpl; intros Hfin; try congruence; destruct s; simpl;
    (eapply Forall_updateTab with (Q := fun _ => True);
     [keeps_id | apply Forall_forall; auto | intros t _; reflexivity]).
Qed.

Lemma run_finished (sigs : list Signal) :
  forall (g : Generation) (s : AppState),
    g_cancelled g = false ->
    (g_done g = true ->
     Forall (fun t => id t = g_tabId g -> isLoading t = false) (tabs s)) ->
    g_done (fst (run g sigs s)) = true ->
    Forall (fun t => id t = g_tabId g -> isLoading t = false)
      (tabs (snd (run g sigs s))).
Proof.
  induction sigs as [|sig rest IH]; intros g s Hc Hinv Hfin; [auto|].
  simpl run in *.
  pose proof (step_keeps_identity g sig s) as (Hc1 & _ & Hid).
  assert (Hinv1 : g_done (fst (step g sig s)) = true ->
                  Forall (fun t => id t = g_tabId g -> isLoading t = false)
                    (tabs (snd (step g sig s)))).
  { destruct (g_done g) eqn:D.
    - unfold step. rewrite D. intros _. apply Hinv. reflexivity.
    - apply step_finishes; assumption. }
  destruct (step g sig s) as [g1 s1]. simpl in *.
  rewrite <- Hid in *. apply IH; [congruence|exact Hinv1|exact Hfin].
Qed.

Lemma mainEffect_not_loading (s : AppState) (t : Tab) :
  activeTab s = Some t -> isLoading t = false ->
  issuesNetworkCall (mainEffect s) = false.
Proof.
  intros Ht Hl. unfold mainEffect, withActive. rewrite Ht, Hl.
  repeat match goal with
         | |- context [if ?b then _ else _] => destruct b
         | |- context [match ?o with Some _ => _ | None => _ end] =>
             destruct o
         end; reflexivity.
Qed.

(** X23: once a generation started by the effect for the active tab has
    finished, in whatever way and after whatever signals, the effect run on
    the resulting state issues no network call: the orchestrator does not
    ask again for what it has just been given or refused. *)
Theorem finished_generation_stops_the_effect :
  forall (now : Z) (s s0 : AppState) (g : Generation) (sigs : list Signal),
    is_Some (activeById s) ->
    runEffect now s = (s0, Some g) ->
    g_done (fst (run g sigs s0)) = true ->
    issuesNetworkCall (mainEffect (snd (run g sigs s0))) = false.
Proof.
  intros now s s0 g sigs [t Ht] Hrun Hfin.
  destruct (runEffect_starts now s s0 g Hrun) as (Hid & Htabs & Hact & Hc & Hd).
  destruct (run_request sigs g s0) as [Hreq Hact'].
  unfold activeById in Ht. rewrite <- Htabs in Ht.
  destruct (find_request _ _ _ _ Hreq Ht) as (t' & Ht' & _).
  pose proof (run_finished sigs g s0 Hc ltac:(congruence) Hfin) as Hall.
  apply find_some in Ht' as Hin. destruct Hin as [Hin Heq].
  rewrite Forall_forall in Hall.
  apply String.eqb_eq in Heq.
  apply (mainEffect_not_loading _ t').
  - apply activeById_activeTab. unfold activeById.
    rewrite Hact', Hact. exact Ht'.
  - apply Hall; [apply list_elem_of_In, Hin|congruence].
Qed.

Lemma finished_generation_stops_the_effect_witness :
  issuesNetworkCall (mainEffect afterFailure) = false.
Proof.
  apply (finished_generation_stops_the_effect 100 (mountEffect initialState)
           (with_finalSourcesRef [] (with_finalContentRef ""
              (mountEffect initialState)))
           hypertextGeneration
           [ Yield (Chunk "Hyper" None);
             Yield (ErrorEvent "Could not generate content");
             Throw (ErrorObject "quota") 250 ]).
  - eexists. vm_compute. reflexivity.
  - vm_compute. reflexivity.
  - vm_compute. reflexivity.
Defined.

(** ** Closing a document *)

(** X24: closing the document of a tab that is not loading and shows some
    text starts nothing: the tab goes back to the topic "Hypertext" in
    English with an empty history, but keeps the text, the error and the
    future stack it had, and the effect then neither reads the cache nor
    issues a call. *)
Theorem closing_a_document_starts_nothing :
  forall (s : AppState) (t : Tab),
    activeById s = Some t -> isLoading t = false ->
    content t <> Some "" ->
    mainEffect (handleClearDocument s) = Idle /\
    exists t', activeById (handleClearDocument s) = Some t' /\
      currentTopic t' = "Hypertext" /\ language t' = "English" /\
      historyStack t' = [] /\ futureStack t' = futureStack t /\
      documentName t' = None /\ documentContext t' = None /\
      fileData t' = None /\ isEbookMode t' = false /\
      isWebSearchMode t' = false /\
      content t' = content t /\ error t' = error t /\
      isLoading t' = false.
Proof.
  intros s t Ht Hl Hc. unfold handleClearDocument.
  match goal with
  | |- context [updateActiveTab ?u s] =>
      pose proof (activeById_update u s t ltac:(keeps_id) Ht) as Ht'
  end.
  split.
  - unfold mainEffect, withActive.
    rewrite (activeById_activeTab _ _ Ht'). simpl.
    rewrite Hl. simpl.
    destruct (content t) as [[|c r]|]; try congruence;
      match goal with
      | |- context [match ?o with Some _ => _ | None => _ end] =>
          destruct o; reflexivity
      end.
  - eexists. split; [exact Ht'|]. simpl. repeat split. exact Hl.
Qed.

Lemma closing_a_document_starts_nothing_witness :
  mainEffect (handleClearDocument pageOneTranslated) = Idle.
Proof.
  refine (proj1 (closing_a_document_starts_nothing pageOneTranslated
                   (default (createNewTab "") (activeById pageOneTranslated))
                   _ _ _)); vm_compute; try reflexivity; discriminate.
Defined.

(** ** Diagram requests *)

Lemma requestDiagrams_settled (cur : Tab) (prompts : list string)
    (pending : gset string) :
  (forall p, In p prompts -> diagramKnown cur p = true \/ (p ∈ pending)) ->
  requestDiagrams cur prompts pending = (pending, []).
Proof.
  induction prompts as [|q rest IH]; intros Hall; [reflexivity|].
  simpl. destruct (Hall q (or_introl eq_refl)) as [K|P].
  - rewrite K. simpl. apply IH. intros p Hp. apply Hall. right. exact Hp.
  - rewrite (bool_decide_eq_true_2 _ P), andb_false_r.
    apply IH. intros p Hp. apply Hall. right. exact Hp.
Qed.

Lemma requestDiagrams_issues (cur : Tab) (prompts : list string) :
  forall (pending : gset string) (p : string),
    In p prompts -> diagramKnown cur p = false -> (p ∉ pending) ->
    In p (snd (requestDiagrams cur prompts pending)).
Proof.
  induction prompts as [|q rest IH]; intros pending p Hin Hk Hp; [destruct Hin|].
  simpl. destruct (String.eqb_spec q p) as [->|Hne].
  - rewrite Hk, (bool_decide_eq_false_2 _ Hp). simpl.
    destruct (requestDiagrams cur rest ({[p]} ∪ pending)). left. reflexivity.
  - destruct Hin as [Heq|Hin]; [congruence|].
    destruct (negb (diagramKnown cur q) && negb (bool_decide (q ∈ pending))).
    + pose proof (IH ({[q]} ∪ pending) p Hin Hk) as Hrec.
      destruct (requestDiagrams cur rest ({[q]} ∪ pending)). simpl in *.
      right. apply Hrec. rewrite elem_of_union, elem_of_singleton.
      intros [Heq|Hmem]; [congruence|exact (Hp Hmem)].
    + apply IH; assumption.
Qed.

Lemma requestDiagrams_from_prompts (cur : Tab) (prompts : list string) :
  forall (pending : gset string) (p : string),
    In p (snd (requestDiagrams cur prompts pending)) -> In p prompts.
Proof.
  induction prompts as [|q rest IH]; intros pending p; simpl; [auto|].
  destruct (negb (diagramKnown cur q) && negb (bool_decide (q ∈ pending))).
  - pose proof (IH ({[q]} ∪ pending) p) as Hrec.
    destruct (requestDiagrams cur rest ({[q]} ∪ pending)). simpl in *.
    intros [->|Hin]; [left; reflexivity|right; apply Hrec, Hin].
  - intros Hin. right. exact (IH pending p Hin).
Qed.

(** After the loop every marker is known or pending. *)
Lemma requestDiagrams_covers (cur : Tab) (prompts : list string)
    (pending : gset string) (p : string) :
  In p prompts ->
  diagramKnown cur p = true \/
  (p ∈ fst (requestDiagrams cur prompts pending)).
Proof.
  intros Hin. destruct (diagramKnown cur p) eqn:K; [left; reflexivity|].
  right. destruct (requestDiagrams_fresh cur prompts pending) as (_ & _ & Hp).
  apply Hp. destruct (decide (p ∈ pending)) as [Hmem|Hnot];
    [left; exact Hmem|right].
  apply requestDiagrams_issues; assumption.
Qed.

(** The loop when a single marker is neither known nor pending. *)
Lemma requestDiagrams_one (cur : Tab) (p : string) (prompts : list string) :
  forall pending : gset string,
    In p prompts -> diagramKnown cur p = false -> (p ∉ pending) ->
    (forall q, In q prompts -> q <> p ->
               diagramKnown cur q = true \/ (q ∈ pending)) ->
    requestDiagrams cur prompts pending = ({[p]} ∪ pending, [p]).
Proof.
  induction prompts as [|q rest IH]; intros pending Hin Hk Hp Hall;
    [destruct Hin|].
  simpl. destruct (String.eqb_spec q p) as [->|Hne].
  - rewrite Hk, (bool_decide_eq_false_2 _ Hp). simpl.
    rewrite requestDiagrams_settled; [reflexivity|].
    intros q Hq. destruct (String.eqb_spec q p) as [->|Hqp].
    + right. apply elem_of_union. left. apply elem_of_singleton. reflexivity.
    + destruct (Hall q (or_intror Hq) Hqp) as [K|P]; [left; exact K|].
      right. apply elem_of_union. right. exact P.
  - destruct Hin as [Heq|Hin]; [congruence|].
    assert (Hskip : negb (diagramKnown cur q)
                    && negb (bool_decide (q ∈ pending)) = false).
    { destruct (Hall q (or_introl eq_refl) Hne) as [K|P].
      - rewrite K. reflexivity.
      - rewrite (bool_decide_eq_true_2 _ P). apply andb_false_r. }
    rewrite Hskip. apply IH; try assumption.
    intros q' Hq'. apply Hall. right. exact Hq'.
Qed.

(** X25: one run of the diagram effect asks only for markers of the
    content of the active tab that have no image yet and were not pending,
    under the id of that tab, and marks them pending; a second run on the
    resulting state asks for nothing and changes nothing. *)
Theorem diagram_effect_settles :
  forall s : AppState,
    diagramEffect (fst (diagramEffect s)) = (fst (diagramEffect s), []) /\
    forall r, In r (snd (diagramEffect s)) ->
      exists cur, activeTab s = Some cur /\ d_tabId r = id cur /\
        In (d_prompt r) (diagramPrompts (default "" (content cur))) /\
        diagramKnown cur (d_prompt r) = false /\
        (d_prompt r ∉ pendingDiagramsRef s) /\
        (d_prompt r ∈ pendingDiagramsRef (fst (diagramEffect s))).
Proof.
  intros s. unfold diagramEffect at 2 3 4 5. unfold withActive.
  destruct (activeTab s) as [cur|] eqn:A.
  2:{ split; [|intros r []]. simpl. unfold diagramEffect, withActive.
      rewrite A. reflexivity. }
  destruct (negb (Js.truthy (content cur))) eqn:T.
  { split; [|intros r []]. simpl. unfold diagramEffect, withActive.
    rewrite A, T. reflexivity. }
  pose proof (requestDiagrams_fresh cur
                (diagramPrompts (default "" (content cur)))
                (pendingDiagramsRef s)) as (_ & Hfresh & Hpend).
  pose proof (requestDiagrams_covers cur
                (diagramPrompts (default "" (content cur)))
                (pendingDiagramsRef s)) as Hcov.
  pose proof (requestDiagrams_from_prompts cur
                (diagramPrompts (default "" (content cur)))
                (pendingDiagramsRef s)) as Hfrom.
  destruct (requestDiagrams cur _ (pendingDiagramsRef s))
    as [pending issued]. simpl in *.
  split.
  - unfold diagramEffect, withActive.
    assert (A' : activeTab (with_pendingDiagramsRef pending s) = Some cur)
      by exact A.
    rewrite A', T. simpl pendingDiagramsRef.
    rewrite requestDiagrams_settled by exact Hcov.
    destruct s; reflexivity.
  - intros r Hr. apply in_map_iff in Hr as (p & <- & Hp). simpl.
    exists cur. split; [reflexivity|]. split; [reflexivity|].
    split; [apply Hfrom, Hp|]. destruct (Hfresh p Hp) as [Hn Hk].
    split; [exact Hk|]. split; [exact Hn|]. apply Hpend. right. exact Hp.
Qed.

Lemma diagramEffect_active (s : AppState) (t : Tab) :
  activeById s = Some t -> Js.truthy (content t) = true ->
  diagramEffect s
  = (with_pendingDiagramsRef
       (fst (requestDiagrams t (diagramPrompts (default "" (content t)))
               (pendingDiagramsRef s))) s,
     map (fun p => {| d_tabId := id t; d_prompt := p |})
       (snd (requestDiagrams t (diagramPrompts (default "" (content t)))
               (pendingDiagramsRef s)))).
Proof.
  intros Ht Hc. unfold diagramEffect, withActive.
  rewrite (activeById_activeTab s t Ht), Hc. simpl.
  destruct (requestDiagrams t _ (pendingDiagramsRef s)). reflexivity.
Qed.

Lemma diagramEffect_content (s : AppState) (t : Tab) (r : DiagramRequest) :
  activeById s = Some t -> In r (snd (diagramEffect s)) ->
  Js.truthy (content t) = true.
Proof.
  intros Ht. unfold diagramEffect, withActive.
  rewrite (activeById_activeTab s t Ht).
  destruct (Js.truthy (content t)); [reflexivity|intros []].
Qed.

(** X26: what becomes of a request decides the next run of the effect.
    When the request fails, its prompt leaves the pending set and the next
    run asks for it again, and for nothing else; when it resolves with an
    image, the image is stored in the tab under the prompt and the next run
    asks for nothing. *)
Theorem diagram_outcome_decides_the_next_request :
  forall (s : AppState) (t : Tab) (r : DiagramRequest),
    activeById s = Some t -> In r (snd (diagramEffect s)) ->
    snd (diagramEffect (diagramFailed r (fst (diagramEffect s)))) = [r] /\
    forall image, Js.nonEmpty image = true ->
      snd (diagramEffect (diagramResolved r image (fst (diagramEffect s))))
      = [] /\
      exists t',
        activeById (diagramResolved r image (fst (diagramEffect s)))
        = Some t' /\
        generatedDiagrams t' !! d_prompt r = Some image /\
        content t' = content t.
Proof.
  intros s t r Ht Hr.
  pose proof (diagramEffect_content s t r Ht Hr) as Hc.
  rewrite (diagramEffect_active s t Ht Hc) in *. simpl fst. simpl snd in Hr.
  set (prompts := diagramPrompts (default "" (content t))) in *.
  pose proof (requestDiagrams_fresh t prompts (pendingDiagramsRef s))
    as (_ & Hfresh & Hpend).
  pose proof (requestDiagrams_covers t prompts (pendingDiagramsRef s))
    as Hcov.
  pose proof (requestDiagrams_from_prompts t prompts (pendingDiagramsRef s))
    as Hfrom.
  destruct (requestDiagrams t prompts (pendingDiagramsRef s))
    as [pending issued]. simpl in *.
  apply in_map_iff in Hr as (p & <- & Hp). simpl d_prompt. simpl d_tabId.
  destruct (Hfresh p Hp) as [_ Hk].
  assert (Hrest : forall q, In q prompts -> q <> p ->
                    diagramKnown t q = true \/ (q ∈ pending ∖ {[p]})).
  { intros q Hq Hne. destruct (Hcov q Hq) as [K|P]; [left; exact K|].
    right. apply elem_of_difference. split; [exact P|].
    rewrite elem_of_singleton. exact Hne. }
  assert (Hout : p ∉ pending ∖ {[p]}).
  { rewrite elem_of_difference, elem_of_singleton. tauto. }
  split.
  - assert (Ht3 : activeById (diagramFailed {| d_tabId := id t;
                                                d_prompt := p |}
                                (with_pendingDiagramsRef pending s))
                  = Some t) by exact Ht.
    rewrite (diagramEffect_active _ t Ht3 Hc). simpl.
    fold prompts.
    rewrite (requestDiagrams_one t p prompts _ (Hfrom p Hp) Hk Hout Hrest).
    reflexivity.
  - intros image Himg.
    set (t2 := set_generatedDiagrams (<[p := image]> (generatedDiagrams t)) t).
    assert (Ht2 : activeById (diagramResolved {| d_tabId := id t;
                                                  d_prompt := p |} image
                                (with_pendingDiagramsRef pending s))
                  = Some t2).
    { unfold activeById in *. simpl.
      assert (Hid : id t = activeTabId s).
      { apply find_some in Ht as [_ Heq]. apply String.eqb_eq, Heq. }
      rewrite Hid.
      change (List.find (fun x => String.eqb (id x) (activeTabId s))
                (updateTab (activeTabId s)
                   [fun x => set_generatedDiagrams
                               (<[p := image]> (generatedDiagrams x)) x]
                   (tabs s)) = Some t2).
      rewrite find_updateTab by keeps_id. rewrite Ht. reflexivity. }
    split.
    + rewrite (diagramEffect_active _ t2 Ht2 Hc). simpl. fold prompts.
      rewrite requestDiagrams_settled; [reflexivity|].
      intros q Hq. destruct (String.eqb_spec q p) as [->|Hne].
      * left. unfold diagramKnown, t2. simpl.
        rewrite lookup_insert_eq. exact Himg.
      * destruct (Hrest q Hq Hne) as [K|P]; [left|right; exact P].
        unfold diagramKnown, t2 in *. simpl.
        rewrite lookup_insert_ne by congruence. exact K.
    + exists t2. split; [exact Ht2|]. split; [apply lookup_insert_eq|].
      reflexivity.
Qed.

Lemma diagram_outcome_decides_the_next_request_witness :
  snd (diagramEffect
         (diagramFailed {| d_tabId := "default-tab"; d_prompt := "cat" |}
            (fst (diagramEffect catsInFirstTab))))
  = [ {| d_tabId := "default-tab"; d_prompt := "cat" |} ].
Proof.
  refine (proj1 (diagram_outcome_decides_the_next_request catsInFirstTab
                   (default (createNewTab "") (activeById catsInFirstTab))
                   {| d_tabId := "default-tab"; d_prompt := "cat" |} _ _)).
  - vm_compute. reflexivity.
  - vm_compute. left. reflexivity.
Defined.

(** ** Diagram tags, as the effect and as the display read them *)

Lemma stripPrefix_app (pre s rest tail : string) :
  stripPrefix pre s = Some rest ->
  stripPrefix pre (s +:+ tail) = Some (rest +:+ tail).
Proof.
  revert s. induction pre as [|a pre IH]; intros s; simpl.
  - intros H; injection H as <-. reflexivity.
  - destruct s as [|b s]; [discriminate|]. rewrite append_cons.
    destruct (Ascii.eqb a b); [apply IH|discriminate].
Qed.

Lemma stripPrefix_take (pre : string) :
  forall (s rest : string) (m : nat),
    stripPrefix pre s = Some rest ->
    stripPrefix pre (takeString (String.length pre + m) s)
    = Some (takeString m rest).
Proof.
  induction pre as [|a pre IH]; intros s rest m; simpl.
  - intros H; injection H as <-. reflexivity.
  - destruct s as [|b s]; [discriminate|].
    destruct (Ascii.eqb a b); [apply IH|discriminate].
Qed.

Lemma captureToBracket_positive (s p : string) (n : nat) :
  captureToBracket s = Some (p, n) -> exists m, n = S m.
Proof.
  destruct s as [|c r]; simpl; [discriminate|].
  destruct (Ascii.eqb c "]"); [intros H; injection H as _ <-; eauto|].
  destruct (Js.isLineTerminator c); [discriminate|].
  destruct (captureToBracket r) as [[q m]|]; [|discriminate].
  intros H; injection H as _ <-; eauto.
Qed.

Lemma captureToBracket_take (s : string) :
  forall (p : string) (n : nat),
    captureToBracket s = Some (p, n) ->
    captureToEnd (takeString n s) = Some p.
Proof.
  induction s as [|c r IH]; intros p n; simpl; [discriminate|].
  destruct (Ascii.eqb c "]") eqn:B.
  - intros H; injection H as <- <-. simpl. rewrite B. reflexivity.
  - destruct (Js.isLineTerminator c) eqn:L; [discriminate|].
    destruct (captureToBracket r) as [[q m]|] eqn:R; [|discriminate].
    intros H; injection H as <- <-.
    destruct (captureToBracket_positive _ _ _ R) as [m' ->].
    specialize (IH q (S m') eq_refl).
    destruct r as [|d r']; [discriminate R|].
    change (takeString (S (S m')) (String c (String d r')))
      with (String c (takeString (S m') (String d r'))).
    change (takeString (S m') (String d r'))
      with (String d (takeString m' r')) in *.
    simpl. simpl in IH. rewrite L.
    destruct (takeString m' r'); rewrite IH; reflexivity.
Qed.

Lemma skipSpaces_take (s : string) :
  forall (rest : string) (k m : nat),
    skipSpaces s = (rest, k) -> rest <> EmptyString ->
    skipSpaces (takeString (k + S m) s) = (takeString (S m) rest, k).
Proof.
  induction s as [|c r IH]; intros rest k m; simpl.
  - intros H; injection H as <- <-. congruence.
  - destruct (Js.isWhiteSpace c) eqn:W.
    + destruct (skipSpaces r) as [rest' k'] eqn:Sk.
      intros H Hne; injection H as <- <-. simpl. rewrite W.
      rewrite (IH rest' k' m eq_refl Hne). reflexivity.
    + intros H _; injection H as <- <-. simpl. rewrite W. reflexivity.
Qed.

(** The tag the split cuts out is read by the display as a diagram with
    the prompt the effect read. *)
Lemma matchDiagramAt_whole (s p : string) (n : nat) :
  matchDiagramAt s = Some (p, n) ->
  matchWholeDiagram (takeString n s) = Some p.
Proof.
  unfold matchDiagramAt, matchWholeDiagram.
  destruct (stripPrefix "[DIAGRAM:" s) as [rest|] eqn:P; [|discriminate].
  destruct (skipSpaces rest) as [rest' k] eqn:Sk.
  destruct (captureToBracket rest') as [[q m]|] eqn:C; [|discriminate].
  destruct (captureToBracket_positive _ _ _ C) as [m' ->].
  intros H; injection H as <- Hn.
  assert (n = (String.length "[DIAGRAM:" + (k + S m'))%nat) as ->
    by (simpl; lia).
  rewrite (stripPrefix_take "[DIAGRAM:" s rest (k + S m') P).
  rewrite (skipSpaces_take rest rest' k m' Sk).
  - change (captureToEnd (takeString (S m') rest') = Some q).
    apply captureToBracket_take, C.
  - intros ->. discriminate C.
Qed.

Lemma skipSpaces_app (s : string) :
  forall (rest tail : string) (k : nat),
    skipSpaces s = (rest, k) -> rest <> EmptyString ->
    skipSpaces (s +:+ tail) = (rest +:+ tail, k).
Proof.
  induction s as [|c r IH]; intros rest tail k; simpl.
  - intros H; injection H as <- <-. congruence.
  - destruct (Js.isWhiteSpace c) eqn:W.
    + destruct (skipSpaces r) as [rest' k'] eqn:Sk.
      intros H Hne; injection H as <- <-.
      rewrite (IH rest' tail k' eq_refl Hne). reflexivity.
    + intros H _; injection H as <- <-. reflexivity.
Qed.

Lemma captureToEnd_bracket (s : string) :
  forall (p tail : string),
    captureToEnd s = Some p ->
    is_Some (captureToBracket (s +:+ tail)).
Proof.
  induction s as [|c r IH]; intros p tail; [discriminate|].
  rewrite append_cons. simpl.
  destruct (Ascii.eqb c "]") eqn:B; [eauto|].
  destruct r as [|d r']; [discriminate|].
  destruct (Js.isLineTerminator c); [discriminate|].
  destruct (captureToEnd (String d r')) as [q|] eqn:E; [|discriminate].
  intros _. destruct (IH q tail eq_refl) as [[q' m] ->]. eauto.
Qed.

(** A text the display reads as a diagram is a tag for the effect,
    whatever follows it. *)
Lemma matchWholeDiagram_at (part tail : string) :
  is_Some (matchWholeDiagram part) ->
  is_Some (matchDiagramAt (part +:+ tail)).
Proof.
  unfold matchDiagramAt, matchWholeDiagram. intros [p H].
  destruct (stripPrefix "[DIAGRAM:" part) as [rest|] eqn:P; [|discriminate].
  rewrite (stripPrefix_app _ _ _ tail P).
  destruct (skipSpaces rest) as [rest' k] eqn:Sk. simpl in H.
  rewrite (skipSpaces_app rest rest' tail k Sk)
    by (intros ->; discriminate H).
  destruct (captureToEnd_bracket rest' p tail H) as [[q m] ->]. eauto.
Qed.

Lemma splitDiagrams_classified (s : string) :
  forall skip : nat,
    matchWholeDiagram (fst (splitDiagrams skip s)) = None /\
    Forall2 (fun tagged p =>
               matchWholeDiagram (fst tagged) = Some p /\
               matchWholeDiagram (snd tagged) = None)
      (snd (splitDiagrams skip s)) (scanDiagrams skip s).
Proof.
  induction s as [|c r IH]; intros skip; [split; [reflexivity|constructor]|].
  simpl splitDiagrams. simpl scanDiagrams.
  destruct skip as [|k]; [|apply IH].
  destruct (matchDiagramAt (String c r)) as [[p n]|] eqn:M.
  - pose proof (matchDiagramAt_whole _ _ _ M) as Hw.
    destruct (IH (n - 1)%nat) as [Ht Hr].
    destruct (splitDiagrams (n - 1) r) as [text rest]. simpl in *.
    split; [reflexivity|]. constructor; [split; assumption|exact Hr].
  - destruct (IH 0%nat) as [_ Hr].
    pose proof (splitDiagrams_spells r 0) as Hs.
    destruct (splitDiagrams 0 r) as [text rest]. simpl in *.
    split; [|exact Hr].
    destruct (matchWholeDiagram (String c text)) as [q|] eqn:W;
      [|reflexivity].
    exfalso.
    destruct (matchWholeDiagram_at (String c text)
                (fold_right String.append EmptyString
                   (flat_map (fun tagged => [fst tagged; snd tagged]) rest))
                ltac:(rewrite W; eauto)) as [x Hx].
    rewrite append_cons in Hx.
    assert (Hr' : text +:+
                  fold_right String.append EmptyString
                    (flat_map (fun tagged => [fst tagged; snd tagged]) rest)
                  = r).
    { rewrite <- Hs. destruct r; reflexivity. }
    rewrite Hr' in Hx. congruence.
Qed.

Lemma contentParts_prompts (images : gmap string string) (content : string) :
  omap diagramOf (map (renderPart images) (contentParts content))
  = diagramPrompts content.
Proof.
  unfold contentParts, diagramPrompts.
  destruct (splitDiagrams_classified content 0) as [Ht Hr].
  destruct (splitDiagrams 0 content) as [text rest]. simpl in *.
  unfold renderPart at 1. rewrite Ht. simpl.
  induction Hr as [|[tag after] p rest prompts [Htag Hafter] _ IH];
    [reflexivity|].
  simpl in *. unfold renderPart at 1 2. rewrite Htag, Hafter. simpl.
  f_equal. exact IH.
Qed.

(** X27: where the display shows parts, the diagrams among them are, in
    order, the prompts the diagram effect reads in the content; after the
    effect has run for the tab, every notice that a visual is being
    generated stands for a prompt that is pending, and no request is made
    for a prompt whose figure is shown. *)
Theorem placeholders_are_the_requested_diagrams :
  forall (s : AppState) (t : Tab) (parts : list Part),
    activeById s = Some t -> contentArea t = Interactive parts ->
    omap diagramOf parts = diagramPrompts (default "" (content t)) /\
    (forall p, In (Diagram p false) parts ->
               p ∈ pendingDiagramsRef (fst (diagramEffect s))) /\
    (forall p, In (Diagram p true) parts ->
               ~ In p (map d_prompt (snd (diagramEffect s)))).
Proof.
  intros s t parts Ht. unfold contentArea, ContentDisplay.
  destruct (Js.nonEmpty (default "" (content t))) eqn:Hne; [|discriminate].
  destruct (negb (Js.truthy (error t))); [|discriminate].
  destruct (isLoading t); [discriminate|]. simpl.
  intros H; injection H as <-.
  assert (Hc : Js.truthy (content t) = true).
  { destruct (content t) as [c|]; [exact Hne|discriminate Hne]. }
  pose proof (contentParts_prompts (generatedDiagrams t)
                (default "" (content t))) as Hprompts.
  assert (Hparts : forall p b,
             In (Diagram p b)
               (map (renderPart (generatedDiagrams t))
                  (contentParts (default "" (content t)))) ->
             In p (diagramPrompts (default "" (content t))) /\
             diagramKnown t p = b).
  { intros p b Hin. split.
    - rewrite <- Hprompts. apply list_elem_of_In, list_elem_of_omap.
      exists (Diagram p b). split; [apply list_elem_of_In, Hin|reflexivity].
    - apply in_map_iff in Hin as (part & Hpart & _).
      unfold renderPart in Hpart.
      destruct (matchWholeDiagram part); [|discriminate].
      injection Hpart as -> <-. reflexivity. }
  rewrite (diagramEffect_active s t Ht Hc). simpl.
  split; [exact Hprompts|]. split.
  - intros p Hin. destruct (Hparts p false Hin) as [Hp Hk].
    destruct (requestDiagrams_covers t _ (pendingDiagramsRef s) p Hp)
      as [K|P]; [congruence|exact P].
  - intros p Hin Hreq. destruct (Hparts p true Hin) as [_ Hk].
    rewrite map_map, map_id in Hreq.
    destruct (requestDiagrams_fresh t
                (diagramPrompts (default "" (content t)))
                (pendingDiagramsRef s)) as (_ & Hfresh & _).
    destruct (Hfresh p Hreq) as [_ Hk']. congruence.
Qed.

Lemma placeholders_are_the_requested_diagrams_witness :
  omap diagramOf
    [ Paragraph ["Cats."; " "]; Diagram "cat" false; Paragraph [" "];
      Diagram "cat" false; Paragraph [] ]
  = diagramPrompts "Cats. [DIAGRAM: cat] [DIAGRAM: cat]".
Proof.
  refine (proj1 (placeholders_are_the_requested_diagrams catsInFirstTab
                   (default (createNewTab "") (activeById catsInFirstTab))
                   _ _ _)); vm_compute; reflexivity.
Defined.

Lemma scanDiagrams_skip (a : string) :
  forall b : string,
    scanDiagrams (String.length a) (a +:+ b) = scanDiagrams 0 b.
Proof.
  induction a as [|c a IH]; intros b; [destruct b; reflexivity|].
  rewrite append_cons. simpl. apply IH.
Qed.

Lemma captureToBracket_clean (p tail : string) :
  allChars (fun c => negb (Ascii.eqb c "]") && negb (Js.isLineTerminator c))
    p = true ->
  captureToBracket (p +:+ "]" +:+ tail)
  = Some (p, S (String.length p)).
Proof.
  induction p as [|c p IH]; intros H; [reflexivity|].
  simpl in H. apply andb_true_iff in H as [Hc Hp].
  apply andb_true_iff in Hc as [Hb Hl].
  apply negb_true_iff in Hb, Hl.
  rewrite append_cons. simpl. rewrite Hb, Hl, (IH Hp). reflexivity.
Qed.

Lemma trimStart_fixed (c : ascii) (r : string) :
  Js.trimStart (String c r) = String c r -> Js.isWhiteSpace c = false.
Proof.
  intros H. destruct (trimStart_head (String c r)) as [E|(d & r' & E & W)];
    rewrite H in E; [discriminate|].
  injection E as -> _. exact W.
Qed.

Lemma skipSpaces_run (ws rest : string) :
  allChars Js.isWhiteSpace ws = true ->
  Js.trimStart rest = rest -> rest <> EmptyString ->
  skipSpaces (ws +:+ rest) = (rest, String.length ws).
Proof.
  intros Hws Hrest Hne. induction ws as [|c ws IH].
  - destruct rest as [|d r]; [congruence|].
    apply trimStart_fixed in Hrest. simpl. rewrite Hrest. reflexivity.
  - simpl in Hws. apply andb_true_iff in Hws as [Hc Hws].
    rewrite append_cons. simpl. rewrite Hc, (IH Hws). reflexivity.
Qed.

(** X28: a tag written as the services are told to write it, the word
    DIAGRAM and a colon in square brackets, white space, then a description
    without closing bracket or line break, is read back by the effect as
    that description, when no opening bracket comes before it; the scan
    goes on behind the tag. *)
Theorem written_tag_is_read_back :
  forall pre ws p post : string,
    allChars (fun c => negb (Ascii.eqb c "[")) pre = true ->
    allChars Js.isWhiteSpace ws = true ->
    allChars (fun c => negb (Ascii.eqb c "]") && negb (Js.isLineTerminator c))
      p = true ->
    Js.trimStart p = p ->
    diagramPrompts (pre +:+ "[DIAGRAM:" +:+ ws +:+ p +:+ "]" +:+ post)
    = p :: diagramPrompts post.
Proof.
  intros pre ws p post Hpre Hws Hp Htrim. unfold diagramPrompts.
  assert (Hm : matchDiagramAt ("[DIAGRAM:" +:+ ws +:+ p +:+ "]" +:+ post)
               = Some (p, (9 + String.length ws + S (String.length p))%nat)).
  { unfold matchDiagramAt.
    change (stripPrefix "[DIAGRAM:"
              ("[DIAGRAM:" +:+ ws +:+ p +:+ "]" +:+ post))
      with (Some (ws +:+ p +:+ "]" +:+ post)).
    cbv iota beta.
    rewrite (skipSpaces_run ws (p +:+ "]" +:+ post) Hws).
    - rewrite (captureToBracket_clean p post Hp). reflexivity.
    - destruct p as [|c r]; [reflexivity|].
      apply trimStart_fixed in Htrim.
      rewrite append_cons. simpl. rewrite Htrim. reflexivity.
    - destruct p; discriminate. }
  induction pre as [|c pre IH].
  - change (scanDiagrams 0
              (String "[" ("DIAGRAM:" +:+ ws +:+ p +:+ "]" +:+ post))
            = p :: scanDiagrams 0 post).
    simpl scanDiagrams.
    change (String "[" ("DIAGRAM:" +:+ ws +:+ p +:+ "]" +:+ post))
      with ("[DIAGRAM:" +:+ ws +:+ p +:+ "]" +:+ post).
    rewrite Hm. f_equal.
    replace (9 + String.length ws + S (String.length p) - 1)%nat
      with (String.length ("DIAGRAM:" +:+ ws +:+ p +:+ "]"))
      by (rewrite !length_append; simpl; lia).
    rewrite <- (scanDiagrams_skip ("DIAGRAM:" +:+ ws +:+ p +:+ "]") post).
    rewrite <- !append_assoc. reflexivity.
  - simpl in Hpre. apply andb_true_iff in Hpre as [Hc Hpre].
    rewrite append_cons. simpl scanDiagrams.
    assert (Hnone : matchDiagramAt
                      (String c (pre +:+ "[DIAGRAM:" +:+ ws +:+ p +:+ "]"
                                 +:+ post)) = None).
    { unfold matchDiagramAt.
      set (rest := pre +:+ "[DIAGRAM:" +:+ ws +:+ p +:+ "]" +:+ post).
      change (stripPrefix "[DIAGRAM:" (String c rest))
        with (if Ascii.eqb "[" c then stripPrefix "DIAGRAM:" rest else None).
      apply negb_true_iff in Hc. rewrite Ascii.eqb_sym, Hc. reflexivity. }
    rewrite Hnone. apply IH, Hpre.
Qed.

Lemma written_tag_is_read_back_witness :
  diagramPrompts "Cats. [DIAGRAM: a cat] Dogs."
  = "a cat" :: diagramPrompts " Dogs.".
Proof.
  apply (written_tag_is_read_back "Cats. " " " "a cat" " Dogs.");
    reflexivity.
Defined.

(** ** Searching from the page reader *)

(** X29: a topic submitted while a text document is read in English is
    not sent to any service: the effect puts the text of the current page
    back under the new topic and clears the loading flag; when the current
    page is missing or empty the effect does nothing, and the tab stays
    loading with an empty content. *)
Theorem search_in_the_reader_shows_the_page :
  forall (now : Z) (s : AppState) (t : Tab) (q : string),
    activeById s = Some t -> inEbookTextMode t = true ->
    isTranslationNeeded t = false -> Js.nonEmpty q = true ->
    issuesNetworkCall (mainEffect (handleTopicChange q s)) = false /\
    snd (runEffect now (handleTopicChange q s)) = None /\
    exists t', activeById (fst (runEffect now (handleTopicChange q s)))
               = Some t' /\
      currentTopic t' = q /\
      content t'
      = Some (default "" (Js.index (ebookPages t) (currentPage t))) /\
      isLoading t'
      = negb (Js.nonEmpty
                (default "" (Js.index (ebookPages t) (currentPage t)))).
Proof.
  intros now s t q Ht Hm Htr Hq.
  unfold handleTopicChange, withActive.
  rewrite Hq, (activeById_activeTab s t Ht). cbv iota beta. simpl negb.
  cbv iota.
  match goal with
  | |- context [updateActiveTab ?u0 ?s0] =>
      set (u := u0); set (s1 := s0);
      assert (Ht1 : activeById (updateActiveTab u s1) = Some (spread t u))
        by (apply activeById_update;
            [subst u; keeps_id
            |subst s1; rewrite activeById_searchHistory; exact Ht])
  end.
  pose proof (activeById_activeTab _ _ Ht1) as Ha1.
  assert (Heff : mainEffect (updateActiveTab u s1)
                 = if Js.nonEmpty
                        (default "" (Js.index (ebookPages t) (currentPage t)))
                   then Update
                          [ set_content
                              (Some (default ""
                                       (Js.index (ebookPages t)
                                          (currentPage t))));
                            set_isLoading false; set_error None;
                            set_groundingSources [] ]
                   else Idle).
  { unfold mainEffect, withActive. rewrite Ha1.
    change (currentTopic (spread t u)) with q. rewrite Hq.
    change (inEbookTextMode (spread t u)) with (inEbookTextMode t).
    change (isTranslationNeeded (spread t u)) with (isTranslationNeeded t).
    rewrite Hm, Htr. cbv iota. simpl negb. cbv iota.
    change (ebookPages (spread t u)) with (ebookPages t).
    change (currentPage (spread t u)) with (currentPage t).
    change (content (spread t u)) with (Some "").
    destruct (default "" (Js.index (ebookPages t) (currentPage t)));
      reflexivity. }
  unfold runEffect. rewrite Heff, Ha1.
  destruct (Js.nonEmpty
              (default "" (Js.index (ebookPages t) (currentPage t)))) eqn:P.
  - split; [reflexivity|]. split; [reflexivity|].
    eexists. split; [apply activeById_update; [keeps_id|exact Ht1]|].
    repeat split.
  - split; [reflexivity|]. split; [reflexivity|].
    exists (spread t u). split; [exact Ht1|]. split; [reflexivity|].
    split; [|reflexivity].
    destruct (default "" (Js.index (ebookPages t) (currentPage t)));
      [reflexivity|discriminate P].
Qed.

Lemma search_in_the_reader_shows_the_page_witness :
  issuesNetworkCall
    (mainEffect
       (handleTopicChange "memex"
          (handleLanguageChange "English" bookInFrench))) = false.
Proof.
  refine (proj1 (search_in_the_reader_shows_the_page 0
                   (handleLanguageChange "English" bookInFrench)
                   (default (createNewTab "")
                      (activeById
                         (handleLanguageChange "English" bookInFrench)))
                   "memex" _ _ _ _)); vm_compute; reflexivity.
Defined.
